(** * BenchExec [benchexec/model.py]: limits, task sets, runs and result
      classification

    A shallow embedding of the definition-resolution and result-classification
    code of [benchexec/model.py].

    Conventions.
    - A Python [str] is a [string]; every character is read as a code point
      below 256, so the order on strings is the code-point order Python's
      [sort] uses.
    - [None] is [None]; a Python value that is tested for truthiness keeps its
      [option] and the test is written out.
    - A Python [dict] with string keys is a [gmap string _]; a [set] of strings
      is a [gset string].
    - [sys.exit] and raised exceptions are the [Fail] outcomes of the monad
      [M], which also records what was logged, globbed, opened and parsed.
    - A measured time is a [Q]: a finite [float] is a rational number, and
      Python compares a [float] with an [int] limit exactly.
    - Functions of modules that are not part of [model.py] ([benchexec.util],
      [benchexec.result], the tool-info module, [os.path], [yaml]) are
      parameters of the sections below. *)

From Stdlib Require Import Ascii QArith DecimalString.
From Stdlib Require String.
From stdpp Require Import gmap strings list fin_maps sorting.

Open Scope Z_scope.

(** ** Python string primitives used by [model.py] *)

Module PyStr.

(** [str.endswith] *)
Fixpoint endswith_rev (s suffix : list ascii) : bool :=
  match suffix, s with
  | [], _ => true
  | _ :: _, [] => false
  | c :: suffix', d :: s' => Ascii.eqb c d && endswith_rev s' suffix'
  end.

Definition endswith (s suffix : string) : bool :=
  endswith_rev (rev (String.list_ascii_of_string s))
    (rev (String.list_ascii_of_string suffix)).

(** [Py_UNICODE_ISSPACE] restricted to code points below 256. *)
Definition isspace (c : ascii) : bool :=
  let n := N_of_ascii c in
  ((9 <=? n) && (n <=? 13) || (28 <=? n) && (n <=? 32)
   || (n =? 133) || (n =? 160))%N.

Fixpoint lstrip (s : string) : string :=
  match s with
  | String c s' => if isspace c then lstrip s' else s
  | EmptyString => EmptyString
  end.

Fixpoint rstrip (s : string) : string :=
  match s with
  | String c s' =>
      match rstrip s' with
      | EmptyString => if isspace c then EmptyString else String c EmptyString
      | t => String c t
      end
  | EmptyString => EmptyString
  end.

(** [str.strip()] *)
Definition strip (s : string) : string := rstrip (lstrip s).

(** [str(n)] for an [int] *)
Definition str_of_int (n : Z) : string := NilZero.string_of_int (Z.to_int n).

(** Truthiness of an optional string: [None] and [""] are false. *)
Definition truthy (o : option string) : bool :=
  match o with
  | Some s => negb (String.eqb s "")
  | None => false
  end.

(** Truthiness of an optional [int]: [None] and [0] are false. *)
Definition truthy_int (o : option Z) : bool :=
  match o with
  | Some n => negb (n =? 0)
  | None => false
  end.

(** [x in l] for a list of strings *)
Definition mem (x : string) (l : list string) : bool :=
  existsb (String.eqb x) l.

End PyStr.

(** ** Module constants *)

Definition MEMLIMIT : string := "memlimit".
Definition TIMELIMIT : string := "timelimit".
Definition CORELIMIT : string := "cpuCores".
Definition SOFTTIMELIMIT : string := "softtimelimit".
Definition HARDTIMELIMIT : string := "hardtimelimit".
Definition WALLTIMELIMIT : string := "walltimelimit".

(** [_ERROR_RESULTS_FOR_TERMINATION_REASON], in the order of the source. *)
Definition _ERROR_RESULTS_FOR_TERMINATION_REASON : list (string * string) :=
  [ ("memory", "OUT OF MEMORY");
    ("killed", "KILLED");
    ("failed", "FAILED");
    ("files-count", "FILES-COUNT LIMIT");
    ("files-size", "FILES-SIZE LIMIT") ].

(** [d.get(k, default)] on the table above. *)
Fixpoint dict_get (d : list (string * string)) (k default : string) : string :=
  match d with
  | [] => default
  | (k', v) :: d' => if String.eqb k k' then v else dict_get d' k default
  end.

(** ** Result classification: [Run.set_result], [Run._analyze_result],
       [Run._is_timeout] *)

(** [util.ProcessExitCode]: the return value and the signal, each possibly
    [None]. *)
Record ProcessExitCode := {
  ec_value : option Z;
  ec_signal : option Z;
}.

(** [x or 0] *)
Definition or_zero (o : option Z) : Z := default 0 o.

(** The entries of the [values] dictionary that [set_result] inspects; the
    loop that copies them to [self.values] leaves [cputime] and [walltime]
    under their own keys, where [_is_timeout] reads them. *)
Record RunValues := {
  v_exitcode : option ProcessExitCode;
  v_cputime : option Q;
  v_walltime : option Q;
  v_terminationreason : option string;
}.

Definition Qgtb (a b : Q) : bool := negb (Qle_bool a b).

Section Classifier.

(** [result.RESULT_LIST_OTHER] and [result.RESULT_ERROR] *)
Variable RESULT_LIST_OTHER : list string.
Variable RESULT_ERROR : string.

(** [tool.determine_result(returnvalue, signal, output, isTimeout)] *)
Variable determine_result : Z -> Z -> list string -> bool -> string.

(** The refinement of an unspecific tool status by the exit code. *)
Definition refine_status (exitcode : ProcessExitCode) (tool_status : string)
  : string :=
  if PyStr.mem tool_status RESULT_LIST_OTHER then
    if decide (ec_signal exitcode = Some 6) then "ABORTED"
    else if decide (ec_signal exitcode = Some 11) then "SEGMENTATION FAULT"
    else if decide (ec_signal exitcode = Some 15) then "KILLED"
    else if PyStr.truthy_int (ec_signal exitcode) then
      "KILLED BY SIGNAL " +:+ PyStr.str_of_int (or_zero (ec_signal exitcode))
    else if PyStr.truthy_int (ec_value exitcode) then
      RESULT_ERROR +:+ " (" +:+ PyStr.str_of_int (or_zero (ec_value exitcode)) +:+ ")"
    else tool_status
  else tool_status.

(** The verdict the tool info reports for an exit code:
    [determine_result(exitcode.value or 0, exitcode.signal or 0, output, isTimeout)] *)
Definition raw_verdict (ec : ProcessExitCode) (output : list string)
    (isTimeout : bool) : string :=
  determine_result (or_zero (ec_value ec)) (or_zero (ec_signal ec)) output isTimeout.

(** The first half of [_analyze_result]: ask the tool info. *)
Definition tool_status_of (exitcode : option ProcessExitCode)
    (output : list string) (isTimeout : bool) : option string :=
  match exitcode with
  | Some ec => Some (refine_status ec (raw_verdict ec output isTimeout))
  | None => None
  end.

(** The status chosen from the resource-limit condition alone. *)
Definition limit_status (isTimeout : bool) (termination_reason : option string)
  : option string :=
  if isTimeout then Some "TIMEOUT"
  else if PyStr.truthy termination_reason then
    match termination_reason with
    | Some r => Some (dict_get _ERROR_RESULTS_FOR_TERMINATION_REASON r r)
    | None => None
    end
  else None.

(** [Run._analyze_result] *)
Definition _analyze_result (exitcode : option ProcessExitCode)
    (output : list string) (isTimeout : bool)
    (termination_reason : option string) : option string :=
  let tool_status := tool_status_of exitcode output isTimeout in
  let status := limit_status isTimeout termination_reason in
  if negb (PyStr.truthy status) then tool_status
  else
    match status, tool_status with
    | Some st, Some ts =>
        if PyStr.truthy tool_status
           && negb (PyStr.mem ts
                      (RESULT_LIST_OTHER ++ [st; "KILLED"; "KILLED BY SIGNAL 9"]))
        then Some (st +:+ " (" +:+ ts +:+ ")")
        else status
    | _, _ => status
    end.

(** [Run._is_timeout]: an absent limit is [float("inf")]. *)
Definition exceeds (measured : option Q) (limit : option Z) : bool :=
  match measured with
  | None => false
  | Some t =>
      match limit with
      | Some l => Qgtb t (inject_Z l)
      | None => false
      end
  end.

Definition cpu_limit (rlimits : gmap string Z) : option Z :=
  match rlimits !! SOFTTIMELIMIT with
  | Some l => Some l
  | None => rlimits !! TIMELIMIT
  end.

Definition _is_timeout (rlimits : gmap string Z) (cputime walltime : option Q)
  : bool :=
  let is_cpulimit := exceeds cputime (cpu_limit rlimits) in
  let is_walllimit := exceeds walltime (rlimits !! WALLTIMELIMIT) in
  is_cpulimit || is_walllimit.

(** [termination_reason in ["cputime", "cputime-soft", "walltime"]] *)
Definition is_time_reason (termination_reason : option string) : bool :=
  match termination_reason with
  | Some r => PyStr.mem r ["cputime"; "cputime-soft"; "walltime"]
  | None => false
  end.

Definition isTimeout_of (rlimits : gmap string Z) (values : RunValues) : bool :=
  is_time_reason (v_terminationreason values)
  || _is_timeout rlimits (v_cputime values) (v_walltime values).

(** [result.get_result_category(expected_results, status, properties)],
    with the run's expected results and properties already supplied. *)
Variable get_result_category : option string -> string.

(** [Run.set_result], as far as status and category go.  [log] is the
    content of the log file, [None] when it cannot be read. *)
Definition read_output (log : option (list string)) : list string :=
  match log with
  | Some lines => drop 6 lines
  | None => []
  end.

Definition set_result (rlimits : gmap string Z) (values : RunValues)
    (log : option (list string)) : option string * string :=
  let termination_reason := v_terminationreason values in
  let isTimeout := isTimeout_of rlimits values in
  let output := read_output log in
  let status :=
    _analyze_result (v_exitcode values) output isTimeout termination_reason in
  (status, get_result_category status).

End Classifier.

(** ** Effects: logging, globbing, file access, [sys.exit] and exceptions *)

Inductive event :=
  | EvDebug (msg : string)                 (* logging.debug *)
  | EvWarning (msg : string)               (* logging.warning *)
  | EvError (msg : string)                 (* logging.error *)
  | EvGlob (pattern base_dir : string)     (* util.expand_filename_pattern *)
  | EvIsCode (file : string)               (* util.is_code *)
  | EvOpen (file : string)                 (* open(file, "rt") *)
  | EvLoadTaskDef (file : string).         (* load_task_definition_file *)

Inductive failure :=
  | SysExit (msg : string)                 (* sys.exit *)
  | BenchExecException (msg : string)
  | AssertionError
  | IOError (file : string)
  | AttributeError                         (* a method of a value that lacks it *)
  | RelpathValueError.                     (* ValueError of os.path.relpath *)

Inductive outcome (A : Type) :=
  | Ok (a : A)
  | Fail (f : failure).
Arguments Ok {A} a.
Arguments Fail {A} f.

Definition M (A : Type) : Type := list event * outcome A.

Definition ret {A} (a : A) : M A := ([], Ok a).

Definition bind {A B} (m : M A) (k : A -> M B) : M B :=
  match m with
  | (l, Ok a) => let '(l', r) := k a in (l ++ l', r)
  | (l, Fail f) => (l, Fail f)
  end.

Definition emit (e : event) : M unit := ([e], Ok tt).
Definition fail {A} (f : failure) : M A := ([], Fail f).

Definition trace {A} (m : M A) : list event := fst m.
Definition result_of {A} (m : M A) : outcome A := snd m.

Declare Scope run_scope.
Delimit Scope run_scope with run.
Notation "'let!' x ':=' m 'in' k" := (bind m (fun x => k))
  (at level 10, x name, m at level 100, k at level 200, only parsing) : run_scope.
Notation "'do!' m 'in' k" := (bind m (fun _ => k))
  (at level 10, m at level 100, k at level 200, only parsing) : run_scope.
Open Scope run_scope.

(** [for x in xs: acc = body(acc, x)] *)
Fixpoint foldM {A S} (body : S -> A -> M S) (acc : S) (xs : list A) : M S :=
  match xs with
  | [] => ret acc
  | x :: xs' => let! acc' := body acc x in foldM body acc' xs'
  end.

(** Events of logging and globbing. *)
Definition plain (e : event) : Prop :=
  match e with
  | EvDebug _ | EvWarning _ | EvError _ | EvGlob _ _ => True
  | _ => False
  end.

(** Events other than the parsing of a task-definition file. *)
Definition not_load (e : event) : Prop :=
  match e with
  | EvLoadTaskDef _ => False
  | _ => True
  end.

(** No file that [is_code] takes for code is opened. *)
Definition no_code_opened (is_code : string -> bool) (e : event) : Prop :=
  match e with
  | EvOpen file => is_code file = false
  | _ => True
  end.

(** The failures of the include phase of task expansion: the exit for a list
    file with code, or a list file without code that cannot be opened. *)
Definition include_failure (is_code : string -> bool)
    (file_lines : string -> option (list string)) (f : failure) : Prop :=
  f = SysExit ""
  \/ exists file, f = IOError file /\ is_code file = false /\ file_lines file = None.

(** ** Limit resolution in [Benchmark.__init__] *)

(** What a parser of a limit value returns: a number, or [ValueError]. *)
Inductive parsed :=
  | Parsed (n : Z)
  | ValueError (msg : string).

(** The command-line options read by the limit code. *)
Record Config := {
  cfg_timelimit : option string;
  cfg_walltimelimit : option string;
  cfg_memorylimit : option string;
  cfg_corelimit : option string;
}.

(** The string that holds one double quote. *)
Definition quote : string := String (ascii_of_N 34) EmptyString.

(** [str.lower] on code points below 256. *)
Definition lower_char (c : ascii) : ascii :=
  let n := N_of_ascii c in
  if ((65 <=? n) && (n <=? 90)
      || (192 <=? n) && (n <=? 222) && negb (n =? 215))%N
  then ascii_of_N (n + 32) else c.

Fixpoint lower (s : string) : string :=
  match s with
  | String c s' => String (lower_char c) (lower s')
  | EmptyString => EmptyString
  end.

(** The string that holds one line feed. *)
Definition newline : string := String (ascii_of_N 10) EmptyString.

(** [repr(s)] of a string on code points below 256, which [%r] puts into a
    message: the string in single quotes, or in double quotes if it holds a
    single quote and no double quote, with the quote and the backslash
    escaped, tab, line feed and carriage return written as escapes, and any
    other character that is not printable as a hexadecimal escape. *)
Definition hex_digit (n : N) : ascii :=
  if (n <? 10)%N then ascii_of_N (48 + n) else ascii_of_N (87 + n).

Definition backslash : ascii := ascii_of_N 92.

Definition printable (c : ascii) : bool :=
  let n := N_of_ascii c in
  ((32 <=? n) && (n <? 127) || (161 <=? n) && negb (n =? 173))%N.

Definition repr_char (q c : ascii) : string :=
  let n := N_of_ascii c in
  if Ascii.eqb c q || Ascii.eqb c backslash then String backslash (String c "")
  else if (n =? 9)%N then String backslash "t"
  else if (n =? 10)%N then String backslash "n"
  else if (n =? 13)%N then String backslash "r"
  else if printable c then String c ""
  else String backslash
         (String "x" (String (hex_digit (n / 16)) (String (hex_digit (n mod 16)) ""))).

Fixpoint has_char (c : ascii) (s : string) : bool :=
  match s with
  | EmptyString => false
  | String d s' => Ascii.eqb c d || has_char c s'
  end.

Fixpoint repr_chars (q : ascii) (s : string) : string :=
  match s with
  | EmptyString => String q ""
  | String c s' => repr_char q c +:+ repr_chars q s'
  end.

Definition py_repr (s : string) : string :=
  let q := if has_char "'" s && negb (has_char (ascii_of_N 34) s)
           then ascii_of_N 34 else "'"%char in
  String q (repr_chars q s).

Section Limits.

(** [util.parse_timespan_value], [util.parse_memory_value] and the builtin
    [int] on strings. *)
Variable parse_timespan_value : string -> parsed.
Variable parse_memory_value : string -> parsed.
Variable int : string -> parsed.

(** The local function [parse_memory_limit]. *)
Definition parse_memory_limit (value : string) : parsed :=
  match int value with
  | ValueError _ => parse_memory_value value
  | Parsed n =>
      ValueError ("Memory limit must have a unit suffix, e.g., '"
                  +:+ PyStr.str_of_int n +:+ " MB'")
  end.

(** The value a limit is resolved from: the attribute of the [benchmark]
    tag, overridden by the command line, where [-1] removes it. *)
Definition effective_value (attrs : gmap string string) (key : string)
    (cmdline_value : option string) : option string :=
  let value := attrs !! key in
  match cmdline_value with
  | Some c => if String.eqb (PyStr.strip c) "-1" then None else Some c
  | None => value
  end.

(** The local function [handle_limit_value]; [self.rlimits] is threaded. *)
Definition handle_limit_value (attrs : gmap string string)
    (name key : string) (cmdline_value : option string)
    (parse_fn : string -> parsed) (rlimits : gmap string Z)
  : M (gmap string Z) :=
  match effective_value attrs key cmdline_value with
  | Some value =>
      match parse_fn value with
      | ValueError e =>
          fail (SysExit ("Invalid value for " +:+ lower name +:+ " limit: " +:+ e))
      | Parsed n =>
          let rlimits := <[key := n]> rlimits in
          if n <=? 0 then
            fail (SysExit (name +:+ " limit " +:+ quote +:+ value +:+ quote
                           +:+ " is invalid, it needs to be a positive number "
                           +:+ "(or -1 on the command line for disabling it)."))
          else ret rlimits
      end
  | None => ret rlimits
  end.

(** [if HARDTIMELIMIT in self.rlimits: ...] *)
Definition reconcile_hardtimelimit (rlimits : gmap string Z)
  : M (gmap string Z) :=
  match rlimits !! HARDTIMELIMIT with
  | Some hardtimelimit =>
      let rlimits := delete HARDTIMELIMIT rlimits in
      match rlimits !! TIMELIMIT with
      | Some timelimit =>
          if hardtimelimit <? timelimit then
            do! emit (EvWarning ("Hard timelimit " +:+ PyStr.str_of_int hardtimelimit
                                 +:+ " is smaller than timelimit "
                                 +:+ PyStr.str_of_int timelimit
                                 +:+ ", ignoring the former.")) in
            ret rlimits
          else if hardtimelimit >? timelimit then
            ret (<[TIMELIMIT := hardtimelimit]>
                   (<[SOFTTIMELIMIT := timelimit]> rlimits))
          else ret rlimits
      | None => ret (<[TIMELIMIT := hardtimelimit]> rlimits)
      end
  | None => ret rlimits
  end.

(** The part of [Benchmark.__init__] that fills [self.rlimits]. *)
Definition resolve_limits (attrs : gmap string string) (config : Config)
  : M (gmap string Z) :=
  let! rl := handle_limit_value attrs "Time" TIMELIMIT (cfg_timelimit config)
          parse_timespan_value ∅ in
  let! rl := handle_limit_value attrs "Hard time" HARDTIMELIMIT (cfg_timelimit config)
          parse_timespan_value rl in
  let! rl := handle_limit_value attrs "Wall time" WALLTIMELIMIT
          (cfg_walltimelimit config) parse_timespan_value rl in
  let! rl := handle_limit_value attrs "Memory" MEMLIMIT (cfg_memorylimit config)
          parse_memory_limit rl in
  let! rl := handle_limit_value attrs "Core" CORELIMIT (cfg_corelimit config) int rl in
  reconcile_hardtimelimit rl.

(** The limits handled above: key, command-line value and parser. *)
Definition handled_limits (config : Config)
  : list (string * option string * (string -> parsed)) :=
  [ (TIMELIMIT, cfg_timelimit config, parse_timespan_value);
    (HARDTIMELIMIT, cfg_timelimit config, parse_timespan_value);
    (WALLTIMELIMIT, cfg_walltimelimit config, parse_timespan_value);
    (MEMLIMIT, cfg_memorylimit config, parse_memory_limit);
    (CORELIMIT, cfg_corelimit config, int) ].

End Limits.

(** ** Task sets: [substitute_vars], [RunSet.expand_filename_pattern],
       [RunSet.get_task_def_files_from_xml] *)

(** The order of Python's [str] comparison, and [list.sort] on strings.
    The order is total and antisymmetric, so the sorted list does not depend
    on the sorting algorithm. *)
Definition str_le (a b : string) : Prop := String.leb a b = true.

#[global] Instance str_le_dec : RelDecision str_le.
Proof. intros a b. unfold str_le. apply _. Defined.

Definition sort (l : list string) : list string := merge_sort str_le l.

(** Modelled from the spec: [util.remove_all(list, elem)] is not part of
    [model.py]; it removes every occurrence of [elem] from the list, by exact
    value. *)
Definition remove_all (l : list string) (elem : string) : list string :=
  filter (fun x => x ≠ elem) l.

(** The fields of a [Benchmark] that task expansion and run creation read. *)
Record Benchmark := {
  b_name : string;
  b_instance : string;
  b_base_dir : string;
  b_benchmark_file : string;
  b_selected_sourcefile_sets : list string;   (* config.selected_sourcefile_sets *)
}.

(** The fields of a [RunSet] set before [extract_runs_from_xml] is called. *)
Record RunSet := {
  rs_benchmark : Benchmark;
  rs_real_name : option string;
  rs_log_folder : string;
  rs_options : list string;
  rs_propertyfile : option string;
}.

(** A [tasks] tag of the benchmark definition, each of whose child tags
    has a text.  A child tag without text, whose text is [None], is not
    represented: the code passes it on as a pattern and does not get as far
    as a result. *)
Record TasksTag := {
  tag_name : option string;
  tag_include : list string;
  tag_includesfile : list string;
  tag_exclude : list string;
  tag_excludesfile : list string;
  tag_append : list string;
  tag_withoutfile : list string;
  tag_requiredfiles : list string;
  tag_options : list string;            (* util.get_list_from_xml *)
  tag_propertyfile : option string;
}.

(** [x or "."] *)
Definition or_dot (s : string) : string := if String.eqb s "" then "." else s.

Section TaskSets.

(** [os.path] *)
Variable abspath basename dirname : string -> string.
(** [util.substitute_vars(s, keyValueList)], taken for the string that it
    returns; what it may log itself is not represented. *)
Variable util_substitute_vars : string -> list (string * string) -> string.
(** [util.expand_filename_pattern(pattern, base_dir)] *)
Variable util_expand_filename_pattern : string -> string -> list string.
(** [util.is_code(file)], [util.is_comment(line)] *)
Variable is_code : string -> bool.
Variable is_comment : string -> bool.
(** The lines of a file, [None] when [open] raises. *)
Variable file_lines : string -> option (list string).

Definition runset_vars (runSet : RunSet) : list (string * string) :=
  let benchmark := rs_benchmark runSet in
  [ ("benchmark_name", b_name benchmark);
    ("benchmark_date", b_instance benchmark);
    ("benchmark_path", or_dot (b_base_dir benchmark));
    ("benchmark_path_abs", abspath (b_base_dir benchmark));
    ("benchmark_file", basename (b_benchmark_file benchmark));
    ("benchmark_file_abs", abspath (basename (b_benchmark_file benchmark)));
    ("logfile_path", or_dot (dirname (rs_log_folder runSet)));
    ("logfile_path_abs", abspath (rs_log_folder runSet));
    ("rundefinition_name", default "" (rs_real_name runSet));
    ("test_name", default "" (rs_real_name runSet)) ].

(** [var_prefix = "taskdef_" if task_file.endswith(".yml") else "inputfile_"] *)
Definition var_prefix (task_file : string) : string :=
  if PyStr.endswith task_file ".yml" then "taskdef_" else "inputfile_".

Definition task_vars (task_file : string) : list (string * string) :=
  [ (var_prefix task_file +:+ "name", basename task_file);
    (var_prefix task_file +:+ "path", or_dot (dirname task_file));
    (var_prefix task_file +:+ "path_abs", dirname (abspath task_file)) ].

Definition keyValueList (runSet : option RunSet) (task_file : option string)
  : list (string * string) :=
  match runSet with Some rs => runset_vars rs | None => [] end
  ++ match task_file with
     | Some tf => if PyStr.truthy task_file then task_vars tf else []
     | None => []
     end.

(** [substitute_vars(oldList, runSet, task_file)].  The assertion that no
    key is used twice always holds, see [keyValueList_NoDup]. *)
Definition substitute_vars (oldList : list string) (runSet : option RunSet)
    (task_file : option string) : list string :=
  map (fun s => util_substitute_vars s (keyValueList runSet task_file)) oldList.

(** [RunSet.expand_filename_pattern(pattern, base_dir, sourcefile)] *)
Definition expand_filename_pattern (self : RunSet) (pattern base_dir : string)
    (sourcefile : option string) : M (list string) :=
  match substitute_vars [pattern] (Some self) sourcefile with
  | [expandedPattern] =>
      do! (if decide (expandedPattern ≠ pattern)
           then emit (EvDebug ("Expanded variables in expression " +:+ py_repr pattern
                               +:+ " to " +:+ py_repr expandedPattern +:+ "."))
           else ret tt) in
      do! emit (EvGlob expandedPattern base_dir) in
      let fileList := sort (util_expand_filename_pattern expandedPattern base_dir) in
      do! (if decide (fileList = [])
           then emit (EvWarning ("No files found matching " +:+ py_repr pattern +:+ "."))
           else ret tt) in
      ret fileList
  | _ => fail AssertionError
  end.

(** [open(file, "rt")] and the iteration over its lines *)
Definition open (file : string) : M (list string) :=
  do! emit (EvOpen file) in
  match file_lines file with
  | Some lines => ret lines
  | None => fail (IOError file)
  end.

(** The body of [for line in fileWithList] in the [includesfile] loop. *)
Definition include_line (self : RunSet) (file : string)
    (sourcefiles : list string) (line : string) : M (list string) :=
  let line := PyStr.strip line in
  if negb (is_comment line) then
    let! files := expand_filename_pattern self line (dirname file) None in
    ret (sourcefiles ++ files)
  else ret sourcefiles.

(** The body of [for file in ...] in the [includesfile] loop. *)
Definition include_list_file (self : RunSet) (sourcefiles : list string)
    (file : string) : M (list string) :=
  do! emit (EvIsCode file) in
  if is_code file then
    do! emit (EvError ("'" +:+ file +:+ "' seems to contain code instead of "
                       +:+ "a set of source file names." +:+ newline
                       +:+ "Please check your benchmark definition file "
                       +:+ "or remove bracket '{' from this file.")) in
    fail (SysExit "")
  else
    let! fileWithList := open file in
    foldM (include_line self file) sourcefiles fileWithList.

(** [for excludedFile in excludedFilesList: sourcefiles = remove_all(...)] *)
Definition remove_each (sourcefiles excludedFilesList : list string)
  : list string :=
  foldl remove_all sourcefiles excludedFilesList.

(** The body of [for line in fileWithList] in the [excludesfile] loop. *)
Definition exclude_line (self : RunSet) (file : string)
    (sourcefiles : list string) (line : string) : M (list string) :=
  let line := PyStr.strip line in
  if negb (is_comment line) then
    let! excludedFilesList :=
      expand_filename_pattern self line (dirname file) None in
    ret (remove_each sourcefiles excludedFilesList)
  else ret sourcefiles.

(** [RunSet.get_task_def_files_from_xml(sourcefilesTag, base_dir)] *)
Definition get_task_def_files_from_xml (self : RunSet)
    (sourcefilesTag : TasksTag) (base_dir : string) : M (list string) :=
  let sourcefiles := [] in
  let! sourcefiles :=
    foldM (fun sourcefiles includedFiles =>
             let! files := expand_filename_pattern self includedFiles base_dir None in
             ret (sourcefiles ++ files))
          sourcefiles (tag_include sourcefilesTag) in
  let! sourcefiles :=
    foldM (fun sourcefiles includesFilesFile =>
             let! files :=
               expand_filename_pattern self includesFilesFile base_dir None in
             foldM (include_list_file self) sourcefiles files)
          sourcefiles (tag_includesfile sourcefilesTag) in
  let! sourcefiles :=
    foldM (fun sourcefiles excludedFiles =>
             let! excludedFilesList :=
               expand_filename_pattern self excludedFiles base_dir None in
             ret (remove_each sourcefiles excludedFilesList))
          sourcefiles (tag_exclude sourcefilesTag) in
  foldM (fun sourcefiles excludesFilesFile =>
           let! files :=
             expand_filename_pattern self excludesFilesFile base_dir None in
           foldM (fun sourcefiles file =>
                    let! fileWithList := open file in
                    foldM (exclude_line self file) sourcefiles fileWithList)
                 sourcefiles files)
        sourcefiles (tag_excludesfile sourcefilesTag).

(** What the loops above compute, written as list expressions. *)

(** The sorted matches of one pattern. *)
Definition expansion (self : RunSet) (pattern base_dir : string)
    (sourcefile : option string) : list string :=
  sort (util_expand_filename_pattern
          (util_substitute_vars pattern (keyValueList (Some self) sourcefile))
          base_dir).

(** The pattern lines of a list file: stripped, without comments. *)
Definition pattern_lines (file : string) : list string :=
  filter (fun line => is_comment line = false)
    (map PyStr.strip (default [] (file_lines file))).

Definition list_file_expansion (self : RunSet) (file : string) : list string :=
  concat (map (fun line => expansion self line (dirname file) None)
            (pattern_lines file)).

Definition list_files_expansion (self : RunSet) (base_dir : string)
    (patterns : list string) : list string :=
  concat (map (fun p => concat (map (list_file_expansion self)
                                  (expansion self p base_dir None)))
            patterns).

(** What one line of a list file contributes. *)
Definition line_expansion (self : RunSet) (file line : string) : list string :=
  if is_comment (PyStr.strip line) then []
  else expansion self (PyStr.strip line) (dirname file) None.

Definition included (self : RunSet) (tag : TasksTag) (base_dir : string)
  : list string :=
  concat (map (fun p => expansion self p base_dir None) (tag_include tag))
  ++ list_files_expansion self base_dir (tag_includesfile tag).

Definition excluded (self : RunSet) (tag : TasksTag) (base_dir : string)
  : list string :=
  concat (map (fun p => expansion self p base_dir None) (tag_exclude tag))
  ++ list_files_expansion self base_dir (tag_excludesfile tag).

End TaskSets.

(** ** Runs: [Run.__init__], [load_task_definition_file],
       [RunSet.create_run_from_task_definition],
       [RunSet.create_run_for_input_file], [RunSet.extract_runs_from_xml] *)

(** [result.ExpectedResult(result, subproperty)] *)
Record ExpectedResult := {
  er_result : option bool;
  er_subproperty : option string;
}.

(** The fields of [result.Property] that [model.py] reads. *)
Record Property := {
  prop_filename : string;
  prop_name : string;
}.

Record Run := {
  run_identifier : string;
  run_sourcefiles : list string;
  run_specific_options : list string;
  run_options : list string;
  run_propertyfile : option string;
  run_required_files : gset string;
  run_expected_results : gmap string ExpectedResult;
  run_properties : list Property;
}.

Definition set_properties (run : Run) (props : list Property) : Run :=
  {| run_identifier := run_identifier run; run_sourcefiles := run_sourcefiles run;
     run_specific_options := run_specific_options run; run_options := run_options run;
     run_propertyfile := run_propertyfile run; run_required_files := run_required_files run;
     run_expected_results := run_expected_results run; run_properties := props |}.

(** [run.expected_results[key] = value] *)
Definition set_expected_result (run : Run) (key : string) (value : ExpectedResult)
  : Run :=
  {| run_identifier := run_identifier run; run_sourcefiles := run_sourcefiles run;
     run_specific_options := run_specific_options run; run_options := run_options run;
     run_propertyfile := run_propertyfile run; run_required_files := run_required_files run;
     run_expected_results := <[key := value]> (run_expected_results run);
     run_properties := run_properties run |}.

(** The value of [expected_verdict] in a property entry of a task
    definition: absent or null, a boolean, or anything else. *)
Inductive verdict :=
  | VNone
  | VBool (b : bool)
  | VOther (repr : string).

(** An entry of [properties] in a task definition: either a dictionary with a
    [property_file], or something else. *)
Inductive prop_entry :=
  | PropMalformed
  | PropDict (property_file : string) (expected_verdict : verdict)
             (subproperty : option string).

(** A parsed task-definition file; [td_format_version] is
    [str(task_def.get("format_version"))], the pattern lists are
    [task_def.get(tag, [])] with a single string already wrapped. *)
Record TaskDef := {
  td_format_version : string;
  td_input_files : list string;
  td_required_files : list string;
  td_properties : list prop_entry;
}.

(** What [open] and [yaml.safe_load] do on a task-definition file; a
    document that is not a mapping, such as that of an empty file or a
    list, is [YamlOther]. *)
Inductive yaml_result :=
  | YamlOSError (msg : string)
  | YamlError (msg : string)
  | YamlDoc (task_def : TaskDef)
  | YamlOther.

Record SourcefileSet := {
  sfs_real_name : option string;
  sfs_name : string;
  sfs_runs : list Run;
}.

(** [a or b] on optional strings *)
Definition py_or (a b : option string) : option string :=
  if PyStr.truthy a then a else b.

Section Runs.

Variable abspath basename dirname : string -> string.
Variable relpath : string -> string -> string.
Variable isfile : string -> bool.
Variable samefile : string -> string -> bool.
Variable util_substitute_vars : string -> list (string * string) -> string.
Variable util_expand_filename_pattern : string -> string -> list string.
Variable is_code : string -> bool.
Variable is_comment : string -> bool.
Variable file_lines : string -> option (list string).
(** [util.get_files], [util.wildcard_match] *)
Variable util_get_files : list string -> list string.
Variable wildcard_match : string -> string -> bool.
(** [yaml.safe_load] on the content of a file *)
Variable yaml_load : string -> yaml_result.
(** [result.Property.create(propertyfile, allow_unknown)]: a property, or
    the message of the exception it raises. *)
Variable Property_create : string -> bool -> Property + string.
(** [result.expected_results_of_file(file)], keyed by property name *)
Variable expected_results_of_file : string -> gmap string ExpectedResult.

Let substitute_vars := substitute_vars abspath basename dirname util_substitute_vars.
Let expand_filename_pattern :=
  expand_filename_pattern abspath basename dirname util_substitute_vars
    util_expand_filename_pattern.
Let get_task_def_files_from_xml :=
  get_task_def_files_from_xml abspath basename dirname util_substitute_vars
    util_expand_filename_pattern is_code is_comment file_lines.

(** A call of [util.expand_filename_pattern] from this part of the code. *)
Definition glob (pattern base_dir : string) : M (list string) :=
  do! emit (EvGlob pattern base_dir) in
  ret (util_expand_filename_pattern pattern base_dir).

(** [load_task_definition_file(task_def_file)] *)
Definition load_task_definition_file (task_def_file : string) : M TaskDef :=
  do! emit (EvLoadTaskDef task_def_file) in
  match yaml_load task_def_file with
  | YamlOSError e =>
      fail (BenchExecException ("Cannot open task-definition file: " +:+ e))
  | YamlError e => fail (BenchExecException ("Invalid task definition: " +:+ e))
  | YamlDoc task_def =>
      if negb (PyStr.mem (td_format_version task_def) ["0.1"; "1.0"]) then
        fail (BenchExecException
                ("Task-definition file " +:+ task_def_file
                 +:+ " specifies invalid format_version '"
                 +:+ td_format_version task_def +:+ "'."))
      else ret task_def
  | YamlOther => fail AttributeError      (* task_def.get *)
  end.

(** The resolution of [self.propertyfile] in [Run.__init__].  A call of
    [log_property_file_once] is recorded as a warning; that a repeated
    warning for the same property file is suppressed through the global
    set [_logged_missing_property_files] is left to the reader of the log. *)
Definition resolve_propertyfile (runSet : RunSet) (identifier : string)
    (propertyfile : option string) : M (option string) :=
  match py_or propertyfile (rs_propertyfile runSet) with
  | None =>
      do! emit (EvWarning
                  "No propertyfile specified. Score computation will ignore the results.") in
      ret None
  | Some pf =>
      let! expandedPropertyFiles := glob pf (b_base_dir (rs_benchmark runSet)) in
      match substitute_vars [pf] (Some runSet) (Some identifier) with
      | [substituted] =>
          match expandedPropertyFiles with
          | first :: rest =>
              do! (if decide (rest ≠ [])
                   then emit (EvWarning
                                ("Pattern " +:+ pf +:+ " for input file " +:+ identifier
                                 +:+ " in propertyfile tag matches more than one file. Only "
                                 +:+ first +:+ " will be used."))
                   else ret tt) in
              ret (Some first)
          | [] =>
              if isfile substituted then ret (Some substituted)
              else
                do! emit (EvWarning
                            ("Pattern " +:+ pf +:+ " for input file " +:+ identifier
                             +:+ " in propertyfile tag did not match any file. "
                             +:+ "It will be ignored.")) in
                ret None
          end
      | _ => fail AssertionError
      end
  end.

(** [Run.__init__], as far as the fields of [Run] above are concerned. *)
Definition Run_init (identifier : string) (sourcefiles fileOptions : list string)
    (runSet : RunSet) (propertyfile : option string)
    (required_files_patterns : gset string) (required_files : list string)
  : M Run :=
  if String.eqb identifier "" then fail AssertionError
  else
    let base_dir := b_base_dir (rs_benchmark runSet) in
    let rel_sourcefile := relpath identifier base_dir in
    let! required :=
      foldM (fun (acc : gset string) pattern =>
               let! this_required_files :=
                 expand_filename_pattern runSet pattern base_dir
                   (Some rel_sourcefile) in
               do! (if decide (this_required_files = [])
                    then emit (EvWarning
                                 ("Pattern " +:+ pattern
                                  +:+ " in requiredfiles tag did not match any file for task "
                                  +:+ identifier +:+ "."))
                    else ret tt) in
               ret (acc ∪ list_to_set this_required_files))
            (list_to_set required_files) (elements required_files_patterns) in
    let options :=
      match fileOptions with
      | [] => rs_options runSet
      | _ => rs_options runSet ++ fileOptions
      end in
    let options := substitute_vars options (Some runSet) (Some identifier) in
    let! propertyfile := resolve_propertyfile runSet identifier propertyfile in
    let required :=
      match propertyfile with
      | Some pf => if PyStr.truthy propertyfile then required ∪ {[pf]} else required
      | None => required
      end in
    ret {| run_identifier := identifier; run_sourcefiles := sourcefiles;
           run_specific_options := fileOptions; run_options := options;
           run_propertyfile := propertyfile; run_required_files := required;
           run_expected_results := ∅; run_properties := [] |}.

(** The local function [expand_patterns_from_tag] and its loop body. *)
Definition expand_task_pattern (task_def_file : string) (result : list string)
    (pattern : string) : M (list string) :=
  let! expanded := glob pattern (dirname task_def_file) in
  if decide (expanded = []) then
    fail (BenchExecException
            ("Pattern '" +:+ pattern +:+ "' in task-definition file "
             +:+ task_def_file +:+ " did not match any paths."))
  else ret (result ++ sort expanded).

Definition expand_patterns_from_tag (task_def_file : string)
    (patterns : list string) : M (list string) :=
  foldM (expand_task_pattern task_def_file) [] patterns.

(** The body of [for prop_dict in task_def.get("properties", [])]. *)
Definition match_property (task_def_file : string) (prop : Property) (run : Run)
    (prop_dict : prop_entry) : M Run :=
  match prop_dict with
  | PropMalformed =>
      fail (BenchExecException
              ("Missing property file for property in task-definition file "
               +:+ task_def_file +:+ "."))
  | PropDict property_file expected_verdict subproperty =>
      let! expanded := glob property_file (dirname task_def_file) in
      match expanded with
      | [expanded0] =>
          if String.eqb (prop_filename prop) expanded0
             || samefile (prop_filename prop) expanded0
          then
            match expected_verdict with
            | VOther repr =>
                fail (BenchExecException
                        ("Invalid expected result '" +:+ repr +:+ "' for property "
                         +:+ property_file +:+ " in task-definition file "
                         +:+ task_def_file +:+ "."))
            | VNone =>
                ret (set_expected_result run (prop_filename prop)
                       {| er_result := None; er_subproperty := subproperty |})
            | VBool b =>
                ret (set_expected_result run (prop_filename prop)
                       {| er_result := Some b; er_subproperty := subproperty |})
            end
          else ret run
      | _ =>
          fail (BenchExecException
                  ("Property pattern '" +:+ property_file
                   +:+ "' in task-definition file " +:+ task_def_file
                   +:+ " does not refer to exactly one file."))
      end
  end.

(** The message of the check for a property that is given twice. *)
Definition specified_multiple_times (prop : Property) (task_def_file : string)
  : failure :=
  BenchExecException
    ("Property '" +:+ prop_filename prop
     +:+ "' specified multiple times in task-definition file "
     +:+ task_def_file +:+ ".").

(** [RunSet.create_run_from_task_definition]; the result [None] is a run
    that is ignored. *)
Definition create_run_from_task_definition (self : RunSet)
    (task_def_file : string) (options : list string)
    (propertyfile : option string) (required_files_pattern : gset string)
  : M (option Run) :=
  let! task_def := load_task_definition_file task_def_file in
  let! input_files :=
    expand_patterns_from_tag task_def_file (td_input_files task_def) in
  if decide (input_files = []) then
    fail (BenchExecException
            ("Task-definition file " +:+ task_def_file
             +:+ " does not define any input files."))
  else
    let! required_files :=
      expand_patterns_from_tag task_def_file (td_required_files task_def) in
    let! run := Run_init task_def_file input_files options self propertyfile
                  required_files_pattern required_files in
    match run_propertyfile run with
    | Some pf =>
        if negb (PyStr.truthy (run_propertyfile run)) then ret (Some run)
        else
          match Property_create pf true with
          | inr e => fail (BenchExecException e)
          | inl prop =>
              let run := set_properties run [prop] in
              let! run :=
                foldM (match_property task_def_file prop) run
                  (td_properties task_def) in
              if decide (size (run_expected_results run) = 0%nat) then
                do! emit (EvDebug
                            ("Ignoring run '" +:+ run_identifier run
                             +:+ "' because it does not have the property from "
                             +:+ pf +:+ ".")) in
                ret None
              else if decide (1 < size (run_expected_results run))%nat then
                fail (specified_multiple_times prop task_def_file)
              else ret (Some run)
          end
    | None => ret (Some run)
    end.

(** [RunSet.create_run_for_input_file] *)
Definition create_run_for_input_file (self : RunSet) (input_file : string)
    (options : list string) (property_file : option string)
    (required_files_pattern : gset string) (append_file_tags : list string)
  : M Run :=
  let base_dir := dirname input_file in
  let! input_files :=
    foldM (fun input_files append_file =>
             let! files :=
               expand_filename_pattern self append_file base_dir (Some input_file) in
             ret (input_files ++ files))
          [input_file] append_file_tags in
  let! run := Run_init input_file (util_get_files input_files) options self
                property_file required_files_pattern [] in
  match run_propertyfile run with
  | Some pf =>
      if negb (PyStr.truthy (run_propertyfile run)) then ret run
      else
        match Property_create pf false with
        | inr e => fail (BenchExecException e)
        | inl prop =>
            let run := set_properties run [prop] in
            match expected_results_of_file input_file !! prop_name prop with
            | Some expected =>
                ret (set_expected_result run (prop_filename prop) expected)
            | None => ret run
            end
        end
  | None => ret run
  end.

(** The body of [for identifier in task_def_files] up to [if run:]. *)
Definition run_for_identifier (self : RunSet) (fileOptions : list string)
    (propertyfile : option string) (required_files_pattern : gset string)
    (appendFileTags : list string) (identifier : string) : M (option Run) :=
  if PyStr.endswith identifier ".yml" then
    if decide (appendFileTags ≠ []) then
      fail (BenchExecException
              "Cannot combine <append> and task-definition files in the same <tasks> tag.")
    else
      create_run_from_task_definition self identifier fileOptions propertyfile
        required_files_pattern
  else
    let! run := create_run_for_input_file self identifier fileOptions propertyfile
                  required_files_pattern appendFileTags in
    ret (Some run).

(** [any(util.wildcard_match(name, p) for p in patterns)] *)
Definition any_match (name : string) (patterns : list string) : bool :=
  existsb (wildcard_match name) patterns.

(** The body of [for index, sourcefilesTag in enumerate(sourcefilesTagList)]. *)
Definition extract_block (self : RunSet)
    (global_required_files_pattern : gset string)
    (blocks : list SourcefileSet) (indexed : nat * TasksTag)
  : M (list SourcefileSet) :=
  let '(index, sourcefilesTag) := indexed in
  let base_dir := b_base_dir (rs_benchmark self) in
  let selected := b_selected_sourcefile_sets (rs_benchmark self) in
  let sourcefileSetName := tag_name sourcefilesTag in
  let matchName :=
    default (PyStr.str_of_int (Z.of_nat index)) (py_or sourcefileSetName None) in
  if negb (bool_decide (selected = [])) && negb (any_match matchName selected)
  then ret blocks
  else
    let required_files_pattern :=
      global_required_files_pattern
      ∪ list_to_set (tag_requiredfiles sourcefilesTag) in
    let! task_def_files :=
      get_task_def_files_from_xml self sourcefilesTag base_dir in
    let fileOptions := tag_options sourcefilesTag in
    let propertyfile := tag_propertyfile sourcefilesTag in
    let appendFileTags := tag_append sourcefilesTag in
    let! currentRuns :=
      foldM (fun currentRuns identifier =>
               let! run := run_for_identifier self fileOptions propertyfile
                             required_files_pattern appendFileTags identifier in
               match run with
               | Some run => ret (currentRuns ++ [run])
               | None => ret currentRuns
               end)
            [] task_def_files in
    let! currentRuns :=
      foldM (fun currentRuns text =>
               let! run := Run_init text [] fileOptions self propertyfile
                             required_files_pattern [] in
               ret (currentRuns ++ [run]))
            currentRuns (tag_withoutfile sourcefilesTag) in
    ret (blocks ++ [ {| sfs_real_name := sourcefileSetName;
                        sfs_name := matchName;
                        sfs_runs := currentRuns |} ]).

(** [enumerate(l)] *)
Definition enumerate {A} (l : list A) : list (nat * A) :=
  zip (seq 0 (length l)) l.

(** [RunSet.extract_runs_from_xml]; the final warnings about selected task
    sets that are not present are not modelled. *)
Definition extract_runs_from_xml (self : RunSet) (sourcefilesTagList : list TasksTag)
    (global_required_files_pattern : gset string) : M (list SourcefileSet) :=
  foldM (extract_block self global_required_files_pattern) []
    (enumerate sourcefilesTagList).

End Runs.

(** ** The result values kept by [Run.set_result] *)

Section Values.

(** The values of the results dictionary, the stored form of an exit signal
    or return value, [isinstance(value, (str, bytes))] and
    [intel_cpu_energy.format_energy_results]. *)
Variable V : Type.
Variable of_int : option Z -> V.
Variable is_text : V -> bool.
Variable format_energy_results : V -> list (string * V).

(** [exitcode = values.pop("exitcode", None)] and what is stored for it. *)
Definition store_exitcode (exitcode : option ProcessExitCode)
    (self_values : gmap string V) : gmap string V :=
  match exitcode with
  | Some ec =>
      if PyStr.truthy_int (ec_signal ec)
      then <["@exitsignal" := of_int (ec_signal ec)]> self_values
      else <["@returnvalue" := of_int (ec_value ec)]> self_values
  | None => self_values
  end.

(** The body of [for energy_key, energy_value in energy.items()]. *)
Definition store_energy (self_values : gmap string V) (entry : string * V)
  : gmap string V :=
  let energy_key :=
    if decide (entry.1 ≠ "cpuenergy") then "@" +:+ entry.1 else entry.1 in
  <[energy_key := entry.2]> self_values.

(** The body of [for key, value in values.items()]. *)
Definition store_value (visible_columns : gset string)
    (self_values : gmap string V) (entry : string * V) : gmap string V :=
  let key := entry.1 in
  let value := entry.2 in
  if String.eqb key "cpuenergy" && negb (is_text value) then
    foldl store_energy self_values (format_energy_results value)
  else if PyStr.mem key ["walltime"; "cputime"; "memory"; "cpuenergy"] then
    <[key := value]> self_values
  else if decide (key ∈ visible_columns) then <[key := value]> self_values
  else <["@" +:+ key := value]> self_values.

(** [self.values] after the first part of [Run.set_result]; [values] is the
    dictionary without its exit code, in the order of its items, and
    [self.values] starts empty. *)
Definition store_values (exitcode : option ProcessExitCode)
    (values : list (string * V)) (visible_columns : gset string)
  : gmap string V :=
  foldl (store_value visible_columns) (store_exitcode exitcode ∅) values.

End Values.

(** ** Other parts of [Benchmark.__init__] and [RunSet.__init__] *)

(** [str.startswith] *)
Fixpoint startswith (s prefix : string) : bool :=
  match prefix, s with
  | EmptyString, _ => true
  | String _ _, EmptyString => false
  | String c prefix', String d s' => Ascii.eqb c d && startswith s' prefix'
  end.

(** [os.path.sep in s], for the separator of POSIX paths *)
Fixpoint has_sep (s : string) : bool :=
  match s with
  | EmptyString => false
  | String c s' => Ascii.eqb c "/" || has_sep s'
  end.

(** What ends the reading of the number of threads: [sys.exit], or a
    [ValueError] of [int] that nothing catches. *)
Inductive threads_failure :=
  | ThreadsExit
  | ThreadsValueError (msg : string).

Section BenchmarkParts.

Variable int : string -> parsed.
Variable normpath : string -> string.

(** The number of threads: the attribute [threads] of the benchmark tag,
    1 without it, replaced by [config.num_of_threads] if that is given. *)
Definition resolve_num_of_threads (attrs : gmap string string)
    (config_num_of_threads : option Z) : list event * (threads_failure + Z) :=
  let from_xml :=
    match attrs !! "threads" with
    | Some value => int value
    | None => Parsed 1
    end in
  match from_xml with
  | ValueError e => ([], inl (ThreadsValueError e))
  | Parsed n =>
      let num_of_threads := default n config_num_of_threads in
      if num_of_threads <? 1
      then ([EvError "At least ONE thread must be given!"], inl ThreadsExit)
      else ([], inr num_of_threads)
  end.

(** The patterns of the [resultfiles] tags; [texts] are the texts of the
    tags, [None] for a tag without text. *)
Definition resolve_result_files_patterns (texts : list (option string))
  : M (list string) :=
  match texts with
  | [] => ret ["."]
  | _ =>
      let result_files_patterns :=
        omap (fun text => match text with
                          | Some p => if PyStr.truthy text then Some (normpath p)
                                      else None
                          | None => None
                          end) texts in
      do! foldM (fun (_ : unit) pattern =>
                   if startswith pattern ".."
                   then fail (SysExit ("Invalid relative result-files pattern '"
                                       +:+ pattern +:+ "'."))
                   else ret tt)
            tt result_files_patterns in
      ret result_files_patterns
  end.

End BenchmarkParts.

Section RunSetParts.

Variable basename : string -> string.
(** [util.wildcard_match] on the name of a run set, which may be [None]. *)
Variable wildcard_match_name : option string -> string -> bool.

(** [RunSet.should_be_executed]; [selected] is
    [config.selected_run_definitions]. *)
Definition should_be_executed (real_name : option string) (selected : list string)
  : bool :=
  bool_decide (selected = []) || existsb (wildcard_match_name real_name) selected.

(** The body of the loop over [self.runs] at the end of [RunSet.__init__]. *)
Definition note_basename (sourcefilesSet : gset string) (run : Run)
  : M (gset string) :=
  let base := basename (run_identifier run) in
  if decide (base ∈ sourcefilesSet) then
    do! emit (EvWarning ("Input file with name '" +:+ base
                         +:+ "' appears twice in runset. "
                         +:+ "This could cause problems with equal logfile-names.")) in
    ret sourcefilesSet
  else ret ({[ base ]} ∪ sourcefilesSet).

(** The check of [RunSet.__init__] for input files with the same name. *)
Definition warn_equal_basenames (real_name : option string) (selected : list string)
    (runs : list Run) : M unit :=
  if should_be_executed real_name selected then
    do! foldM note_basename ∅ runs in ret tt
  else ret tt.

End RunSetParts.

(** ** Command lines: [cmdline_for_run], [Run.cmdline] *)

Section Cmdline.

(** [tool.working_directory], [tool.cmdline], and [os.path.isabs],
    [os.path.relpath], [os.path.expandvars], [os.path.expanduser]. *)
Variable working_directory : string -> string.
Variable tool_cmdline :
  string -> list string -> list string -> option string -> gmap string Z -> list string.
Variable isabs : string -> bool.
Variable os_relpath : string -> string -> string.
Variable expandvars expanduser : string -> string.

(** The local function [relpath] of [cmdline_for_run]; [os.path.relpath]
    raises a [ValueError] for the empty path. *)
Definition relpath_in (dir path : string) : M string :=
  if isabs path then ret path
  else if String.eqb path "" then fail RelpathValueError
  else ret (os_relpath path dir).

(** The executable that the tool info is given; [os.path.join(os.curdir, p)]
    for a path [p] without separator is [./p]. *)
Definition rel_executable (executable : string) : M string :=
  let! rel := relpath_in (working_directory executable) executable in
  if negb (has_sep rel) then ret ("./" +:+ rel) else ret rel.

(** [list(map(relpath, sourcefiles))] *)
Definition relpath_all (dir : string) (sourcefiles : list string) : M (list string) :=
  foldM (fun files path => let! rel := relpath_in dir path in ret (files ++ [rel]))
    [] sourcefiles.

(** [all(args)] for a list of strings *)
Definition all_nonempty (args : list string) : bool :=
  forallb (fun arg => negb (String.eqb arg "")) args.

(** [cmdline_for_run(tool, executable, options, sourcefiles, propertyfile, rlimits)] *)
Definition cmdline_for_run (executable : string) (options sourcefiles : list string)
    (propertyfile : option string) (rlimits : gmap string Z) : M (list string) :=
  let dir := working_directory executable in
  let! rel_exe := rel_executable executable in
  let! files := relpath_all dir sourcefiles in
  let! rel_propertyfile :=
    match propertyfile with
    | Some pf => if PyStr.truthy propertyfile
                 then let! rel := relpath_in dir pf in ret (Some rel)
                 else ret None
    | None => ret None
    end in
  let args := tool_cmdline rel_exe options files rel_propertyfile rlimits in
  if all_nonempty args then ret (map expanduser (map expandvars args))
  else fail AssertionError.

(** [Run.cmdline]; [executable] is [self.runSet.benchmark.executable]. *)
Definition Run_cmdline (run : Run) (executable : option string)
    (rlimits : gmap string Z) : M (list string) :=
  match executable with
  | None => fail AssertionError
  | Some exe =>
      cmdline_for_run exe (run_options run)
        (match run_sourcefiles run with
         | [] => [run_identifier run]
         | files => files
         end)
        (run_propertyfile run) rlimits
  end.

End Cmdline.

(** ** Requirements: [Requirements.__init__] *)

Definition _BYTE_FACTOR : Z := 1000.

(** The attributes of a [require] tag. *)
Record RequireTag := {
  req_cpuModel : option string;
  req_cpuCores : option string;
  req_memory : option string;
}.

Record Requirements := {
  cpu_model : option string;
  memory : option Z;
  cpu_cores : option Z;
}.

(** What ends [Requirements.__init__] early: a raised [Exception], or a
    [ValueError] of a parser that nothing catches. *)
Inductive req_failure :=
  | Exception (msg : string)
  | UncaughtValueError (msg : string).

(** Computations that log and may end with a [req_failure]. *)
Definition RM (A : Type) : Type := list event * (req_failure + A).

Definition rret {A} (a : A) : RM A := ([], inr a).
Definition rfail {A} (f : req_failure) : RM A := ([], inl f).

Definition rbind {A B} (m : RM A) (k : A -> RM B) : RM B :=
  match m with
  | (l, inr a) => let '(l', r) := k a in (l ++ l', r)
  | (l, inl f) => (l, inl f)
  end.

Notation "'let?' x ':=' m 'in' k" := (rbind m (fun x => k))
  (at level 10, x name, m at level 100, k at level 200, only parsing) : run_scope.

Fixpoint rfold {A S} (body : S -> A -> RM S) (acc : S) (xs : list A) : RM S :=
  match xs with
  | [] => rret acc
  | x :: xs' => let? acc' := body acc x in rfold body acc' xs'
  end.

Section Requirements.

(** The builtin [int] on strings and [util.parse_memory_value]. *)
Variable int : string -> parsed.
Variable parse_memory_value : string -> parsed.

Definition legacy_memory_warning (memory : string) : event :=
  EvWarning ("Value " +:+ quote +:+ memory +:+ quote
             +:+ " for memory requirement interpreted as MB for backwards "
             +:+ "compatibility, specify a unit to make this unambiguous.").

(** The three parts of the body of [for requireTag in tags]. *)
Definition require_cpu_model (self : Requirements) (requireTag : RequireTag)
  : RM Requirements :=
  match req_cpuModel requireTag with
  | Some model =>
      if PyStr.truthy (Some model) then
        match cpu_model self with
        | None => rret {| cpu_model := Some model; memory := memory self;
                          cpu_cores := cpu_cores self |}
        | Some _ => rfail (Exception "Double specification of required CPU model.")
        end
      else rret self
  | None => rret self
  end.

Definition require_cpu_cores (self : Requirements) (requireTag : RequireTag)
  : RM Requirements :=
  match req_cpuCores requireTag with
  | Some cores =>
      if PyStr.truthy (Some cores) then
        match cpu_cores self with
        | None =>
            match int cores with
            | Parsed n => rret {| cpu_model := cpu_model self; memory := memory self;
                                  cpu_cores := Some n |}
            | ValueError e => rfail (UncaughtValueError e)
            end
        | Some _ => rfail (Exception "Double specification of required CPU cores.")
        end
      else rret self
  | None => rret self
  end.

Definition require_memory (self : Requirements) (requireTag : RequireTag)
  : RM Requirements :=
  match req_memory requireTag with
  | Some mem =>
      if PyStr.truthy (Some mem) then
        match memory self with
        | None =>
            match int mem with
            | Parsed n =>
                ([legacy_memory_warning mem],
                 inr {| cpu_model := cpu_model self;
                        memory := Some (n * _BYTE_FACTOR * _BYTE_FACTOR);
                        cpu_cores := cpu_cores self |})
            | ValueError _ =>
                match parse_memory_value mem with
                | Parsed n => rret {| cpu_model := cpu_model self; memory := Some n;
                                      cpu_cores := cpu_cores self |}
                | ValueError e => rfail (UncaughtValueError e)
                end
            end
        | Some _ => rfail (Exception "Double specification of required memory.")
        end
      else rret self
  | None => rret self
  end.

Definition require_tag (self : Requirements) (requireTag : RequireTag)
  : RM Requirements :=
  let? self := require_cpu_model self requireTag in
  let? self := require_cpu_cores self requireTag in
  require_memory self requireTag.

(** [Requirements.__init__(tags, rlimits, config)]; [config_cpu_model] is
    [config.cpu_model], [None] also when [config] has no such attribute. *)
Definition Requirements_init (tags : list RequireTag) (rlimits : gmap string Z)
    (config_cpu_model : option string) : RM Requirements :=
  let? self := rfold require_tag
                 {| cpu_model := None; memory := None; cpu_cores := None |} tags in
  let cores :=
    match cpu_cores self with
    | None => rlimits !! CORELIMIT
    | Some n => Some n
    end in
  let mem :=
    match memory self with
    | None => rlimits !! MEMLIMIT
    | Some n => Some n
    end in
  let model :=
    match config_cpu_model with
    | Some m => Some m
    | None => cpu_model self
    end in
  let? _ :=
    match cores with
    | Some n =>
        if n <=? 0 then
          rfail (Exception ("Invalid value " +:+ PyStr.str_of_int n
                            +:+ " for required CPU cores."))
        else rret tt
    | None => rret tt
    end in
  let? _ :=
    match mem with
    | Some m =>
        if m <=? 0 then
          rfail (Exception ("Invalid value " +:+ PyStr.str_of_int m
                            +:+ " for required memory."))
        else rret tt
    | None => rret tt
    end in
  rret {| cpu_model := model; memory := mem; cpu_cores := cores |}.

(** The value of a declared memory requirement. *)
Definition memory_value (mem : string) (v : Z) : Prop :=
  match int mem with
  | Parsed n => v = n * _BYTE_FACTOR * _BYTE_FACTOR
  | ValueError _ => parse_memory_value mem = Parsed v
  end.

End Requirements.

(** The non-empty values that the tags declare for an attribute, in order. *)
Definition declared (field : RequireTag -> option string) (tags : list RequireTag)
  : list string :=
  omap (fun tag => match field tag with
                   | Some s => if PyStr.truthy (Some s) then Some s else None
                   | None => None
                   end) tags.

(** The warning that a tag with a unit-less memory requirement causes. *)
Definition legacy_warnings (int : string -> parsed) (tag : RequireTag) : list event :=
  match declared req_memory [tag] with
  | [mem] => match int mem with
             | Parsed _ => [legacy_memory_warning mem]
             | ValueError _ => []
             end
  | _ => []
  end.

(** ** Concrete collaborators used to run the definitions on examples *)

Module Sample.

(** An unspecific bucket and error label as a tool-independent result
    module would define them. *)
Definition RESULT_LIST_OTHER : list string := ["done"; "unknown"; "ERROR"].
Definition RESULT_ERROR : string := "ERROR".

(** A tool info whose [determine_result] always answers [verdict]. *)
Definition constant_tool (verdict : string) : Z -> Z -> list string -> bool -> string :=
  fun _ _ _ _ => verdict.

(** A category rule that only echoes whether there is a status. *)
Definition category_rule (status : option string) : string :=
  match status with Some _ => "unknown" | None => "error" end.

Definition exit_signal (n : Z) : ProcessExitCode :=
  {| ec_value := None; ec_signal := Some n |}.
Definition exit_value (n : Z) : ProcessExitCode :=
  {| ec_value := Some n; ec_signal := None |}.

Definition analyze (verdict : string) :=
  _analyze_result RESULT_LIST_OTHER RESULT_ERROR (constant_tool verdict).

(** A parser of unsigned and signed decimal numbers, standing for [int]
    and for a timespan parser that takes plain seconds. *)
Fixpoint digits (acc : Z) (s : string) : parsed :=
  match s with
  | EmptyString => Parsed acc
  | String c s' =>
      let n := N_of_ascii c in
      if ((48 <=? n) && (n <=? 57))%N
      then digits (10 * acc + Z.of_N n - 48) s'
      else ValueError "invalid literal"
  end.

Definition negate (p : parsed) : parsed :=
  match p with Parsed n => Parsed (- n) | ValueError e => ValueError e end.

Definition decimal (s : string) : parsed :=
  match s with
  | EmptyString => ValueError "invalid literal"
  | String "-" EmptyString => ValueError "invalid literal"
  | String "-" s' => negate (digits 0 s')
  | _ => digits 0 s
  end.

(** A memory parser that knows one value. *)
Definition memory (s : string) : parsed :=
  if String.eqb s "1 GB" then Parsed 1000000000 else ValueError "unknown unit".

Definition limits := resolve_limits decimal memory decimal.

(** A directory with [a.c], [b.c] and [b.txt], a list file and a file
    with code; paths are kept as they are and nothing is substituted. *)
Definition same (s : string) : string := s.
Definition here (s : string) : string := "".
Definition no_substitution (s : string) (kv : list (string * string)) : string := s.

Definition glob (pattern base_dir : string) : list string :=
  if String.eqb pattern "*.c" then ["b.c"; "a.c"]
  else if String.eqb pattern "*.yml" then ["t.yml"]
  else if PyStr.mem pattern
            ["a.c"; "b.c"; "b.txt"; "list.set"; "code.set"; "t.yml"; "p.prp"]
       then [pattern]
  else [].

Definition is_comment (line : string) : bool :=
  match line with
  | EmptyString => true
  | String c _ => Ascii.eqb c "#"
  end.

Definition file_lines (file : string) : option (list string) :=
  if String.eqb file "list.set" then Some ["a.c"; ""; "# tasks"; " b.c "]
  else if String.eqb file "code.set" then Some ["int main()"; "{ return 0; }"]
  else None.

(** A file looks like code when one of its lines starts with a brace. *)
Definition starts_with_brace (line : string) : bool :=
  match line with
  | EmptyString => false
  | String c _ => Ascii.eqb c "{"
  end.

Definition is_code (file : string) : bool :=
  match file_lines file with
  | Some lines => existsb starts_with_brace lines
  | None => false
  end.

Definition benchmark : Benchmark :=
  {| b_name := "bench"; b_instance := "2019-01-01_0000"; b_base_dir := "";
     b_benchmark_file := "bench.xml"; b_selected_sourcefile_sets := [] |}.

Definition runSet : RunSet :=
  {| rs_benchmark := benchmark; rs_real_name := None;
     rs_log_folder := "bench.logfiles/"; rs_options := [];
     rs_propertyfile := Some "p.prp" |}.

Definition tasks (include includesfile exclude : list string) : TasksTag :=
  {| tag_name := None; tag_include := include; tag_includesfile := includesfile;
     tag_exclude := exclude; tag_excludesfile := []; tag_append := [];
     tag_withoutfile := []; tag_requiredfiles := []; tag_options := [];
     tag_propertyfile := None |}.

Definition task_def_files (tag : TasksTag) : M (list string) :=
  get_task_def_files_from_xml same same here no_substitution glob
    is_code is_comment file_lines runSet tag "".

(** A task definition [t.yml] that lists the property file [p.prp] twice,
    with different verdicts. *)
Definition twice : TaskDef :=
  {| td_format_version := "1.0"; td_input_files := ["a.c"];
     td_required_files := [];
     td_properties := [ PropDict "p.prp" (VBool true) None;
                        PropDict "p.prp" (VBool false) None ] |}.

Definition yaml_load (file : string) : yaml_result :=
  if String.eqb file "t.yml" then YamlDoc twice
  else YamlOSError "No such file or directory".

Definition Property_create (file : string) (allow_unknown : bool)
  : Property + string :=
  inl {| prop_filename := file; prop_name := "unreach-call" |}.

Definition expected_results_of_file (file : string) : gmap string ExpectedResult :=
  ∅.

Definition relpath (path start : string) : string := path.
Definition isfile (path : string) : bool := PyStr.mem path ["p.prp"].
Definition wildcard_match (name pattern : string) : bool := String.eqb name pattern.

Definition create_run_from_task_definition :=
  create_run_from_task_definition same same here relpath isfile String.eqb
    no_substitution glob yaml_load Property_create.

Definition get_files (files : list string) : list string := files.

Definition run_for_identifier :=
  run_for_identifier same same here relpath isfile String.eqb no_substitution glob
    get_files yaml_load Property_create expected_results_of_file.

Definition extract_runs_from_xml :=
  extract_runs_from_xml same same here relpath isfile String.eqb no_substitution glob
    is_code is_comment file_lines get_files wildcard_match yaml_load Property_create
    expected_results_of_file.

Definition no_overrides : Config :=
  {| cfg_timelimit := None; cfg_walltimelimit := None;
     cfg_memorylimit := None; cfg_corelimit := None |}.

End Sample.

(** ** More concrete collaborators *)

Module Demo.

(** Result values as text; energy results are not used. *)
Definition of_int (n : option Z) : string := PyStr.str_of_int (default 0 n).
Definition is_text (value : string) : bool := true.
Definition no_energy (value : string) : list (string * string) := [].

Definition store := store_values string of_int is_text no_energy.

Definition results : list (string * string) :=
  [ ("cputime", "1.5"); ("walltime", "2.0"); ("host", "node1") ].

Definition requirements := Requirements_init Sample.decimal Sample.memory.

Definition require (model cores mem : option string) : RequireTag :=
  {| req_cpuModel := model; req_cpuCores := cores; req_memory := mem |}.

(** A block of the files [*.c] and of one run without file. *)
Definition tasks_without_file : TasksTag :=
  {| tag_name := None; tag_include := ["*.c"]; tag_includesfile := [];
     tag_exclude := []; tag_excludesfile := []; tag_append := [];
     tag_withoutfile := ["--version"]; tag_requiredfiles := []; tag_options := [];
     tag_propertyfile := None |}.

Definition block :=
  extract_block Sample.same Sample.same Sample.here Sample.relpath Sample.isfile
    String.eqb Sample.no_substitution Sample.glob Sample.is_code Sample.is_comment
    Sample.file_lines Sample.get_files Sample.wildcard_match Sample.yaml_load
    Sample.Property_create Sample.expected_results_of_file Sample.runSet.

(** A tool whose command line is the executable, the options and the
    input files; every path counts as absolute. *)
Definition tool_cmdline (executable : string) (options tasks : list string)
    (propertyfile : option string) (rlimits : gmap string Z) : list string :=
  executable :: options ++ tasks.
Definition isabs (path : string) : bool := true.

End Demo.

(** ** Notions used to state the properties *)

(** Events of [logging.warning]. *)
Definition is_warning (e : event) : Prop :=
  match e with EvWarning _ => True | _ => False end.

(** What a task file gives: a run with the file as identifier, or, for a
    task-definition file only, no run. *)
Definition run_of_file (file : string) (outcome : option Run) : Prop :=
  match outcome with
  | Some run => run_identifier run = file
  | None => PyStr.endswith file ".yml" = true
  end.

(** The name under which a block is matched and stored. *)
Definition block_name (index : nat) (tag : TasksTag) : string :=
  default (PyStr.str_of_int (Z.of_nat index)) (py_or (tag_name tag) None).

(** The last character of a string. *)
Fixpoint last_char (s : string) : option ascii :=
  match s with
  | EmptyString => None
  | String c EmptyString => Some c
  | String _ s' => last_char s'
  end.

(** Every limit is strictly positive. *)
Definition positive_limits (rlimits : gmap string Z) : Prop :=
  map_Forall (fun _ v => 0 < v) rlimits.

(** [sat P Q F m]: every event of [m] satisfies [P], a result satisfies [Q]
    and a failure satisfies [F]. *)
Definition sat {A} (P : event -> Prop) (Q : A -> Prop) (F : failure -> Prop)
    (m : M A) : Prop :=
  Forall P (trace m)
  /\ match result_of m with
     | Ok a => Q a
     | Fail f => F f
     end.


(** * Properties *)

(** ** Strings *)

Lemma mem_true x l : PyStr.mem x l = true <-> x ∈ l.
Proof.
  unfold PyStr.mem. rewrite existsb_exists. split.
  - intros (y & Hy & He). apply String.eqb_eq in He. subst y.
    by apply list_elem_of_In.
  - intros H. exists x. split; [by apply list_elem_of_In | apply String.eqb_refl].
Qed.

Lemma mem_false x l : PyStr.mem x l = false <-> x ∉ l.
Proof. rewrite <- mem_true. destruct (PyStr.mem x l); split; congruence. Qed.

Lemma truthy_Some s : PyStr.truthy (Some s) = true <-> s ≠ "".
Proof.
  simpl. destruct (String.eqb_spec s ""); simpl; split; congruence.
Qed.

Lemma last_char_append a b : b ≠ "" -> last_char (a +:+ b) = last_char b.
Proof.
  intros Hb. induction a as [|c a IH]; [done|].
  change (String c a +:+ b) with (String c (a +:+ b)).
  destruct (a +:+ b) eqn:E.
  - destruct a.
    + change ("" +:+ b) with b in E. congruence.
    + change (String a a0 +:+ b) with (String a (a0 +:+ b)) in E. discriminate.
  - exact IH.
Qed.

Lemma combined_last st ts : last_char (st +:+ " (" +:+ ts +:+ ")") = Some ")"%char.
Proof.
  rewrite last_char_append by (simpl; discriminate).
  change (" (" +:+ ts +:+ ")") with (String " " (String "(" (ts +:+ ")"))).
  assert (H : last_char (ts +:+ ")") = Some ")"%char)
    by (rewrite last_char_append; [done | discriminate]).
  simpl. destruct (ts +:+ ")") eqn:E; [by destruct ts | exact H].
Qed.

(** ** Result classification *)

Section ClassifierFacts.

Variable RESULT_LIST_OTHER : list string.
Variable RESULT_ERROR : string.
Variable determine_result : Z -> Z -> list string -> bool -> string.

Local Abbreviation refine := (refine_status RESULT_LIST_OTHER RESULT_ERROR).
Local Abbreviation verdict_of := (raw_verdict determine_result).
Local Abbreviation tool_status :=
  (tool_status_of RESULT_LIST_OTHER RESULT_ERROR determine_result).
Local Abbreviation analyze :=
  (_analyze_result RESULT_LIST_OTHER RESULT_ERROR determine_result).
Lemma refine_specific ec v : v ∉ RESULT_LIST_OTHER -> refine ec v = v.
Proof.
  intros Hv. unfold refine_status. apply mem_false in Hv. by rewrite Hv.
Qed.

Lemma limit_status_nonempty isTimeout tr st :
  limit_status isTimeout tr = Some st -> st ≠ "".
Proof.
  unfold limit_status. destruct isTimeout; [by intros [= <-]|].
  destruct tr as [r|]; simpl; [|done].
  destruct (String.eqb_spec r "") as [->|Hr]; simpl; [done|].
  intros [= <-]. unfold _ERROR_RESULTS_FOR_TERMINATION_REASON. simpl.
  repeat (case_match; [done|]). done.
Qed.

Lemma limit_status_None isTimeout tr :
  limit_status isTimeout tr = None <->
  isTimeout = false /\ PyStr.truthy tr = false.
Proof.
  unfold limit_status. destruct isTimeout; [split; [done | by intros [? _]]|].
  destruct tr as [r|]; simpl; [|by split].
  destruct (String.eqb r ""); simpl; split; try done; by intros [_ ?].
Qed.

(** Without a resource-limit condition the status is the tool status. *)
Lemma analyze_regular exitcode output tr :
  PyStr.truthy tr = false ->
  analyze exitcode output false tr = tool_status exitcode output false.
Proof.
  intros Htr. unfold _analyze_result.
  assert (E : limit_status false tr = None) by (by apply limit_status_None).
  by rewrite E.
Qed.

(** With a resource-limit condition the status is its label, alone or
    followed by the tool status in parentheses. *)
Lemma analyze_limited exitcode output isTimeout tr st :
  limit_status isTimeout tr = Some st ->
  analyze exitcode output isTimeout tr = Some st
  \/ exists ts, tool_status exitcode output isTimeout = Some ts
                /\ analyze exitcode output isTimeout tr
                   = Some (st +:+ " (" +:+ ts +:+ ")").
Proof.
  intros Hst. pose proof (limit_status_nonempty _ _ _ Hst) as Hne.
  unfold _analyze_result. rewrite Hst.
  rewrite (proj2 (truthy_Some st) Hne). simpl negb. cbv iota.
  destruct (tool_status exitcode output isTimeout) as [ts|]; [|by left].
  case_match; [right; by exists ts | by left].
Qed.

(** C1 (amended).  For a run with an exit code whose signal is 11, no
    timeout and no termination reason, the status is "SEGMENTATION FAULT"
    when the verdict of the tool info is in the unspecific bucket
    [RESULT_LIST_OTHER]; a verdict outside the bucket is the status
    unchanged. *)
Theorem analyze_signal_11 ec output tr :
  ec_signal ec = Some 11 ->
  PyStr.truthy tr = false ->
  (verdict_of ec output false ∈ RESULT_LIST_OTHER ->
   analyze (Some ec) output false tr = Some "SEGMENTATION FAULT")
  /\ (verdict_of ec output false ∉ RESULT_LIST_OTHER ->
      analyze (Some ec) output false tr = Some (verdict_of ec output false)).
Proof.
  intros Hsig Htr. rewrite analyze_regular by done. simpl. split; intros Hv.
  - unfold refine_status. apply mem_true in Hv. rewrite Hv, Hsig.
    rewrite decide_False by discriminate. by rewrite decide_True.
  - by rewrite refine_specific.
Qed.

(** C6.  When the status was set from a resource-limit condition (a
    timeout, or the label of a declared termination reason) and the tool
    info reported a verdict (the exit code is present and the verdict is
    not the empty string) that is not in the unspecific bucket, not the
    resource-limit label, and neither "KILLED" nor "KILLED BY SIGNAL 9",
    the final status is the label followed by the verdict in parentheses. *)
Theorem analyze_combined ec output isTimeout tr st :
  limit_status isTimeout tr = Some st ->
  verdict_of ec output isTimeout ≠ "" ->
  verdict_of ec output isTimeout ∉ RESULT_LIST_OTHER ->
  verdict_of ec output isTimeout ≠ st ->
  verdict_of ec output isTimeout ≠ "KILLED" ->
  verdict_of ec output isTimeout ≠ "KILLED BY SIGNAL 9" ->
  analyze (Some ec) output isTimeout tr
    = Some (st +:+ " (" +:+ verdict_of ec output isTimeout +:+ ")").
Proof.
  intros Hst Hne Hother Hlabel Hk Hk9.
  pose proof (limit_status_nonempty _ _ _ Hst) as Hst_ne.
  unfold _analyze_result. rewrite Hst.
  rewrite (proj2 (truthy_Some st) Hst_ne). simpl negb. cbv iota.
  unfold tool_status_of. rewrite refine_specific by done.
  rewrite (proj2 (truthy_Some _) Hne).
  assert (Hmem : PyStr.mem (verdict_of ec output isTimeout)
                   (RESULT_LIST_OTHER ++ [st; "KILLED"; "KILLED BY SIGNAL 9"]) = false).
  { apply mem_false. rewrite elem_of_app. intros [?|Hin]; [done|].
    rewrite !elem_of_cons in Hin. rewrite elem_of_nil in Hin.
    destruct Hin as [?|[?|[?|[]]]]; congruence. }
  by rewrite Hmem.
Qed.

Variable get_result_category : option string -> string.

Local Abbreviation classify :=
  (set_result RESULT_LIST_OTHER RESULT_ERROR determine_result get_result_category).

(** C2 (amended).  Classification yields a category and an optional
    status; the status is a string exactly when an exit code is present,
    or a timeout was detected, or a non-empty termination reason was
    declared, and it is [None] otherwise. *)
Theorem set_result_status rlimits values log :
  snd (classify rlimits values log)
    = get_result_category (fst (classify rlimits values log))
  /\ (is_Some (fst (classify rlimits values log)) <->
      is_Some (v_exitcode values)
      \/ isTimeout_of rlimits values = true
      \/ PyStr.truthy (v_terminationreason values) = true).
Proof.
  split; [done|]. unfold set_result. simpl.
  destruct (limit_status (isTimeout_of rlimits values) (v_terminationreason values))
    as [st|] eqn:Hst.
  - split.
    + intros _. destruct (isTimeout_of rlimits values) eqn:Ht; [tauto|].
      right; right. destruct (PyStr.truthy (v_terminationreason values)) eqn:E; [done|].
      assert (limit_status false (v_terminationreason values) = None)
        by (by apply limit_status_None).
      congruence.
    + intros _.
      destruct (analyze_limited (v_exitcode values) (read_output log) _ _ _ Hst)
        as [-> | (ts & _ & ->)]; by eexists.
  - apply limit_status_None in Hst as [Ht Htr]. rewrite Ht, Htr.
    rewrite analyze_regular by done.
    destruct (v_exitcode values); simpl; split.
    + intros _. left. by eexists.
    + intros _. by eexists.
    + by intros [? [=]].
    + intros [[? [=]] | [[=] | [=]]].
Qed.

Lemma exceeds_true measured limit :
  exceeds measured limit = true <->
  exists t l, measured = Some t /\ limit = Some l /\ (inject_Z l < t)%Q.
Proof.
  unfold exceeds, Qgtb. destruct measured as [t|], limit as [l|];
    try (split; [done | by intros (? & ? & ? & ? & ?)]).
  rewrite negb_true_iff, <- not_true_iff_false, Qle_bool_iff. split.
  - intros H. exists t, l. by auto using Qnot_le_lt.
  - intros (? & ? & [= <-] & [= <-] & H). by apply Qlt_not_le.
Qed.

(** The limit the CPU time is compared with: the soft limit if there is
    one, else the primary limit, else none. *)
Lemma cpu_limit_spec rlimits l :
  cpu_limit rlimits = Some l <->
  rlimits !! SOFTTIMELIMIT = Some l
  \/ (rlimits !! SOFTTIMELIMIT = None /\ rlimits !! TIMELIMIT = Some l).
Proof. unfold cpu_limit. destruct (rlimits !! SOFTTIMELIMIT); intuition congruence. Qed.

(** C7 (amended).  The timeout condition holds exactly when the
    termination reason is cputime, cputime-soft or walltime, or the measured
    CPU time exceeds the effective time limit (soft limit if present, else
    primary limit, else unbounded), or the measured wall time exceeds the
    wall-time limit.  When it holds, the label chosen is "TIMEOUT" whatever
    termination reason was declared, and the final status is "TIMEOUT" or
    "TIMEOUT" followed by the tool status in parentheses.  When it does not hold, the final status is
    "TIMEOUT" only if the termination reason or the tool status is itself
    the string "TIMEOUT". *)
Theorem set_result_timeout rlimits values log :
  (isTimeout_of rlimits values = true <->
     (exists r, v_terminationreason values = Some r
                /\ r ∈ ["cputime"; "cputime-soft"; "walltime"])
     \/ (exists t l, v_cputime values = Some t
                     /\ (rlimits !! SOFTTIMELIMIT = Some l
                         \/ (rlimits !! SOFTTIMELIMIT = None
                             /\ rlimits !! TIMELIMIT = Some l))
                     /\ (inject_Z l < t)%Q)
     \/ (exists t l, v_walltime values = Some t
                     /\ rlimits !! WALLTIMELIMIT = Some l
                     /\ (inject_Z l < t)%Q))
  /\ (isTimeout_of rlimits values = true ->
      limit_status true (v_terminationreason values) = Some "TIMEOUT"
      /\ (fst (classify rlimits values log) = Some "TIMEOUT"
          \/ exists ts,
               tool_status (v_exitcode values) (read_output log) true = Some ts
               /\ fst (classify rlimits values log)
                  = Some ("TIMEOUT" +:+ " (" +:+ ts +:+ ")")))
  /\ (isTimeout_of rlimits values = false ->
      fst (classify rlimits values log) = Some "TIMEOUT" ->
      v_terminationreason values = Some "TIMEOUT"
      \/ tool_status (v_exitcode values) (read_output log) false = Some "TIMEOUT").
Proof.
  split; [|split].
  - unfold isTimeout_of, _is_timeout. rewrite !orb_true_iff, !exceeds_true.
    assert (Hreason : is_time_reason (v_terminationreason values) = true <->
              exists r, v_terminationreason values = Some r
                        /\ r ∈ ["cputime"; "cputime-soft"; "walltime"]).
    { unfold is_time_reason. destruct (v_terminationreason values) as [r|].
      - rewrite mem_true. split; [by exists r | by intros (? & [= <-] & ?)].
      - split; [done | by intros (? & ? & ?)]. }
    rewrite Hreason. setoid_rewrite cpu_limit_spec. tauto.
  - intros Ht. split; [done|]. unfold set_result. simpl. rewrite Ht.
    by apply analyze_limited.
  - intros Ht. unfold set_result. simpl. rewrite Ht. intros Hst.
    destruct (limit_status false (v_terminationreason values)) as [st|] eqn:Hl.
    + left.
      destruct (analyze_limited (v_exitcode values) (read_output log) _ _ _ Hl)
        as [E | (ts & _ & E)]; rewrite E in Hst.
      * injection Hst as ->. unfold limit_status in Hl.
        destruct (v_terminationreason values) as [r|]; simpl in Hl; [|done].
        destruct (String.eqb r ""); simpl in Hl; [done|].
        injection Hl as Hl. f_equal. revert Hl.
        unfold _ERROR_RESULTS_FOR_TERMINATION_REASON. simpl.
        repeat (case_match; [done|]). done.
      * injection Hst as Hst. apply (f_equal last_char) in Hst.
        rewrite combined_last in Hst. done.
    + right. apply limit_status_None in Hl as [_ Htr].
      by rewrite analyze_regular in Hst.
Qed.

End ClassifierFacts.

(** C1, as stated, fails: a tool verdict outside the unspecific bucket is
    kept although the signal is 11. *)
Lemma analyze_signal_11_keeps_verdict :
  Sample.analyze "true" (Some (Sample.exit_signal 11)) [] false None = Some "true"
  /\ Sample.analyze "true" (Some (Sample.exit_signal 11)) [] false None
     ≠ Some "SEGMENTATION FAULT".
Proof. split; [reflexivity | discriminate]. Qed.

Lemma analyze_signal_11_witness :
  Sample.analyze "unknown" (Some (Sample.exit_signal 11)) [] false None
    = Some "SEGMENTATION FAULT".
Proof.
  refine (proj1 (analyze_signal_11 Sample.RESULT_LIST_OTHER Sample.RESULT_ERROR
                   (Sample.constant_tool "unknown") (Sample.exit_signal 11) [] None
                   _ _) _).
  - reflexivity.
  - reflexivity.
  - apply mem_true. reflexivity.
Defined.

(** C2, as stated, fails: without exit code, timeout and termination reason
    there is no status string. *)
Lemma set_result_without_status :
  fst (set_result Sample.RESULT_LIST_OTHER Sample.RESULT_ERROR
         (Sample.constant_tool "true") Sample.category_rule ∅
         {| v_exitcode := None; v_cputime := None; v_walltime := None;
            v_terminationreason := None |} None) = None.
Proof. reflexivity. Qed.

Lemma analyze_combined_witness :
  Sample.analyze "FALSE(reach)" (Some (Sample.exit_value 0)) [] false (Some "memory")
    = Some "OUT OF MEMORY (FALSE(reach))".
Proof.
  refine (analyze_combined Sample.RESULT_LIST_OTHER Sample.RESULT_ERROR
            (Sample.constant_tool "FALSE(reach)") (Sample.exit_value 0) [] false
            (Some "memory") "OUT OF MEMORY" _ _ _ _ _ _).
  - reflexivity.
  - discriminate.
  - apply mem_false. reflexivity.
  - discriminate.
  - discriminate.
  - discriminate.
Defined.

(** C7, as stated, fails: with termination reason cputime the timeout
    condition holds, yet the status is not "TIMEOUT" but "TIMEOUT (true)". *)
Lemma set_result_timeout_with_verdict :
  is_time_reason (Some "cputime") = true
  /\ fst (set_result Sample.RESULT_LIST_OTHER Sample.RESULT_ERROR
            (Sample.constant_tool "true") Sample.category_rule ∅
            {| v_exitcode := Some (Sample.exit_value 0); v_cputime := None;
               v_walltime := None; v_terminationreason := Some "cputime" |} None)
     = Some "TIMEOUT (true)".
Proof. split; reflexivity. Qed.

Lemma set_result_timeout_witness :
  fst (set_result Sample.RESULT_LIST_OTHER Sample.RESULT_ERROR
         (Sample.constant_tool "unknown") Sample.category_rule
         {[ TIMELIMIT := 10 ]}
         {| v_exitcode := Some (Sample.exit_value 0); v_cputime := Some (21 # 2)%Q;
            v_walltime := None; v_terminationreason := Some "memory" |} None)
    = Some "TIMEOUT"
  \/ exists ts,
       tool_status_of Sample.RESULT_LIST_OTHER Sample.RESULT_ERROR
         (Sample.constant_tool "unknown") (Some (Sample.exit_value 0))
         (read_output None) true = Some ts
       /\ fst (set_result Sample.RESULT_LIST_OTHER Sample.RESULT_ERROR
                 (Sample.constant_tool "unknown") Sample.category_rule
                 {[ TIMELIMIT := 10 ]}
                 {| v_exitcode := Some (Sample.exit_value 0);
                    v_cputime := Some (21 # 2)%Q;
                    v_walltime := None; v_terminationreason := Some "memory" |} None)
          = Some ("TIMEOUT" +:+ " (" +:+ ts +:+ ")").
Proof.
  refine (proj2 (proj1 (proj2 (set_result_timeout Sample.RESULT_LIST_OTHER
            Sample.RESULT_ERROR (Sample.constant_tool "unknown") Sample.category_rule
            {[ TIMELIMIT := 10 ]}
            {| v_exitcode := Some (Sample.exit_value 0); v_cputime := Some (21 # 2)%Q;
               v_walltime := None; v_terminationreason := Some "memory" |} None)) _)).
  vm_compute. reflexivity.
Defined.

(** ** The monad *)

Lemma bind_Ok {A B} (m : M A) (k : A -> M B) log b :
  bind m k = (log, Ok b) ->
  exists l1 a l2, m = (l1, Ok a) /\ k a = (l2, Ok b) /\ log = l1 ++ l2.
Proof.
  unfold bind. destruct m as [l1 [a|f]]; [|done].
  destruct (k a) as [l2 r] eqn:E. intros [= <- ->]. by exists l1, a, l2.
Qed.

Lemma bind_Fail {A B} (m : M A) (k : A -> M B) log f :
  bind m k = (log, Fail f) ->
  m = (log, Fail f)
  \/ exists l1 a l2, m = (l1, Ok a) /\ k a = (l2, Fail f) /\ log = l1 ++ l2.
Proof.
  unfold bind. destruct m as [l1 [a|f']]; [|intros [= <- <-]; by left].
  destruct (k a) as [l2 r] eqn:E. intros [= <- ->]. right. by exists l1, a, l2.
Qed.

Lemma result_of_eq {A} (m : M A) : m = (trace m, result_of m).
Proof. by destruct m. Qed.

(** ** Limit resolution *)

Section LimitFacts.

Variable parse_timespan_value : string -> parsed.
Variable parse_memory_value : string -> parsed.
Variable int : string -> parsed.

Local Abbreviation resolve :=
  (resolve_limits parse_timespan_value parse_memory_value int).

Lemma handle_limit_value_Ok attrs name key cmd parse_fn rl log rl' :
  handle_limit_value attrs name key cmd parse_fn rl = (log, Ok rl') ->
  log = []
  /\ ((effective_value attrs key cmd = None /\ rl' = rl)
      \/ exists s n, effective_value attrs key cmd = Some s
                     /\ parse_fn s = Parsed n /\ 0 < n /\ rl' = <[key := n]> rl).
Proof.
  unfold handle_limit_value.
  destruct (effective_value attrs key cmd) as [s|]; [|intros [= <- <-]; auto].
  destruct (parse_fn s) as [n|e] eqn:Hp; [|done].
  destruct (Z.leb_spec n 0); [done|]. intros [= <- <-].
  split; [done|]. right. by exists s, n.
Qed.

Lemma handle_limit_value_Fail attrs name key cmd parse_fn rl log f :
  handle_limit_value attrs name key cmd parse_fn rl = (log, Fail f) ->
  exists msg, f = SysExit msg.
Proof.
  unfold handle_limit_value.
  destruct (effective_value attrs key cmd) as [s|]; [|done].
  destruct (parse_fn s) as [n|e]; [|intros [= <- <-]; by eexists].
  destruct (n <=? 0); [intros [= <- <-]; by eexists | done].
Qed.

(** A resolved value that is zero or negative makes the call exit. *)
Lemma handle_limit_value_nonpositive attrs name key cmd parse_fn rl s n :
  effective_value attrs key cmd = Some s -> parse_fn s = Parsed n -> n <= 0 ->
  exists msg,
    handle_limit_value attrs name key cmd parse_fn rl = ([], Fail (SysExit msg)).
Proof.
  intros He Hp Hn. unfold handle_limit_value. rewrite He, Hp.
  destruct (Z.leb_spec n 0); [by eexists | lia].
Qed.

Lemma handle_limit_value_positive attrs name key cmd parse_fn rl log rl' :
  handle_limit_value attrs name key cmd parse_fn rl = (log, Ok rl') ->
  positive_limits rl -> positive_limits rl'.
Proof.
  intros H Hpos. apply handle_limit_value_Ok in H as [_ [[_ ->] | (s & n & _ & _ & ? & ->)]].
  - done.
  - by apply map_Forall_insert_2.
Qed.

Lemma handle_limit_value_other attrs name key cmd parse_fn rl log rl' k :
  handle_limit_value attrs name key cmd parse_fn rl = (log, Ok rl') ->
  k ≠ key -> rl' !! k = rl !! k.
Proof.
  intros H Hk. apply handle_limit_value_Ok in H as [_ [[_ ->] | (s & n & _ & _ & ? & ->)]].
  - done.
  - by rewrite lookup_insert_ne.
Qed.

(** The sentinel [-1] on the command line leaves the limits untouched. *)
Lemma handle_limit_value_disabled attrs name key c parse_fn rl log rl' :
  PyStr.strip c = "-1" ->
  handle_limit_value attrs name key (Some c) parse_fn rl = (log, Ok rl') ->
  rl' = rl.
Proof.
  intros Hc H. apply handle_limit_value_Ok in H as [_ [[_ ->] | (s & n & He & _)]].
  - done.
  - unfold effective_value in He. rewrite Hc in He. done.
Qed.

Lemma reconcile_hardtimelimit_Ok rl :
  exists log rl', reconcile_hardtimelimit rl = (log, Ok rl').
Proof.
  unfold reconcile_hardtimelimit. destruct (rl !! HARDTIMELIMIT) as [h|]; [|by eexists _, _].
  destruct (delete HARDTIMELIMIT rl !! TIMELIMIT) as [t|]; [|by eexists _, _].
  destruct (h <? t); [by eexists _, _|]. destruct (h >? t); by eexists _, _.
Qed.

Lemma reconcile_hardtimelimit_no_hard rl log rl' :
  reconcile_hardtimelimit rl = (log, Ok rl') -> rl' !! HARDTIMELIMIT = None.
Proof.
  unfold reconcile_hardtimelimit.
  destruct (rl !! HARDTIMELIMIT) as [h|] eqn:Hh; [|by intros [= <- <-]].
  destruct (delete HARDTIMELIMIT rl !! TIMELIMIT) as [t|].
  - destruct (h <? t); [|destruct (h >? t)]; intros [= <- <-];
      by simplify_map_eq.
  - intros [= <- <-]. by simplify_map_eq.
Qed.

Lemma reconcile_hardtimelimit_positive rl log rl' :
  reconcile_hardtimelimit rl = (log, Ok rl') ->
  positive_limits rl -> positive_limits rl'.
Proof.
  unfold reconcile_hardtimelimit. intros H Hpos.
  destruct (rl !! HARDTIMELIMIT) as [h|] eqn:Hh; [|by injection H as <- <-].
  assert (0 < h) by (by apply (Hpos _ _ Hh)).
  assert (Hdel : positive_limits (delete HARDTIMELIMIT rl))
    by (by apply map_Forall_delete).
  destruct (delete HARDTIMELIMIT rl !! TIMELIMIT) as [t|] eqn:Ht.
  - assert (0 < t) by (by apply (Hdel _ _ Ht)).
    destruct (h <? t); [|destruct (h >? t)]; injection H as <- <-;
      repeat apply map_Forall_insert_2; done.
  - injection H as <- <-. by apply map_Forall_insert_2.
Qed.

Lemma reconcile_hardtimelimit_absent rl log rl' :
  rl !! HARDTIMELIMIT = None ->
  reconcile_hardtimelimit rl = (log, Ok rl') -> rl' = rl.
Proof. unfold reconcile_hardtimelimit. intros ->. by intros [= <- <-]. Qed.

Lemma reconcile_hardtimelimit_other rl log rl' k :
  reconcile_hardtimelimit rl = (log, Ok rl') ->
  k ≠ HARDTIMELIMIT -> k ≠ TIMELIMIT -> k ≠ SOFTTIMELIMIT ->
  rl' !! k = rl !! k.
Proof.
  unfold reconcile_hardtimelimit. intros H ? ? ?.
  destruct (rl !! HARDTIMELIMIT) as [h|] eqn:Hh; [|by injection H as <- <-].
  destruct (delete HARDTIMELIMIT rl !! TIMELIMIT) as [t|].
  - destruct (h <? t); [|destruct (h >? t)]; injection H as <- <-;
      by simplify_map_eq.
  - injection H as <- <-. by simplify_map_eq.
Qed.

Lemma resolve_limits_Ok attrs config log rl :
  resolve attrs config = (log, Ok rl) ->
  exists rl1 rl2 rl3 rl4 rl5,
    handle_limit_value attrs "Time" TIMELIMIT (cfg_timelimit config)
      parse_timespan_value ∅ = ([], Ok rl1)
    /\ handle_limit_value attrs "Hard time" HARDTIMELIMIT (cfg_timelimit config)
         parse_timespan_value rl1 = ([], Ok rl2)
    /\ handle_limit_value attrs "Wall time" WALLTIMELIMIT (cfg_walltimelimit config)
         parse_timespan_value rl2 = ([], Ok rl3)
    /\ handle_limit_value attrs "Memory" MEMLIMIT (cfg_memorylimit config)
         (parse_memory_limit parse_memory_value int) rl3 = ([], Ok rl4)
    /\ handle_limit_value attrs "Core" CORELIMIT (cfg_corelimit config) int rl4
         = ([], Ok rl5)
    /\ reconcile_hardtimelimit rl5 = (log, Ok rl).
Proof.
  unfold resolve_limits. intros H.
  apply bind_Ok in H as (l1 & rl1 & l1' & H1 & H & ->).
  destruct (handle_limit_value_Ok _ _ _ _ _ _ _ _ H1) as [-> _].
  apply bind_Ok in H as (l2 & rl2 & l2' & H2 & H & ->).
  destruct (handle_limit_value_Ok _ _ _ _ _ _ _ _ H2) as [-> _].
  apply bind_Ok in H as (l3 & rl3 & l3' & H3 & H & ->).
  destruct (handle_limit_value_Ok _ _ _ _ _ _ _ _ H3) as [-> _].
  apply bind_Ok in H as (l4 & rl4 & l4' & H4 & H & ->).
  destruct (handle_limit_value_Ok _ _ _ _ _ _ _ _ H4) as [-> _].
  apply bind_Ok in H as (l5 & rl5 & l5' & H5 & H & ->).
  destruct (handle_limit_value_Ok _ _ _ _ _ _ _ _ H5) as [-> _].
  by exists rl1, rl2, rl3, rl4, rl5.
Qed.

Lemma resolve_limits_Fail attrs config log f :
  resolve attrs config = (log, Fail f) -> exists msg, f = SysExit msg.
Proof.
  unfold resolve_limits. intros H.
  repeat (apply bind_Fail in H as [H | (? & ? & ? & _ & H & _)];
          [by eapply handle_limit_value_Fail|]).
  match type of H with
  | reconcile_hardtimelimit ?rl = _ =>
      destruct (reconcile_hardtimelimit_Ok rl) as (? & ? & E); congruence
  end.
Qed.

(** C5.  Reconciliation of the hard time limit: without a primary time
    limit the hard limit becomes the primary one; a hard limit below the
    primary one is dropped with a warning; a hard limit above it makes the
    primary limit the soft limit and becomes the primary limit itself; and
    the limits resolved for a benchmark never keep the hard-limit key. *)
Theorem hardtimelimit_reconciliation attrs config :
  (forall rlimits hard,
      rlimits !! HARDTIMELIMIT = Some hard ->
      (rlimits !! TIMELIMIT = None ->
       reconcile_hardtimelimit rlimits
         = ([], Ok (<[TIMELIMIT := hard]> (delete HARDTIMELIMIT rlimits))))
      /\ (forall primary,
            rlimits !! TIMELIMIT = Some primary -> hard < primary ->
            exists msg,
              reconcile_hardtimelimit rlimits
                = ([EvWarning msg], Ok (delete HARDTIMELIMIT rlimits)))
      /\ (forall primary,
            rlimits !! TIMELIMIT = Some primary -> primary < hard ->
            reconcile_hardtimelimit rlimits
              = ([], Ok (<[TIMELIMIT := hard]>
                           (<[SOFTTIMELIMIT := primary]>
                              (delete HARDTIMELIMIT rlimits))))))
  /\ (forall log rl,
        resolve attrs config = (log, Ok rl) -> rl !! HARDTIMELIMIT = None).
Proof.
  split.
  - intros rlimits hard Hh. unfold reconcile_hardtimelimit. rewrite Hh.
    rewrite lookup_delete_ne by done. repeat split.
    + by intros ->.
    + intros primary -> Hlt. apply Z.ltb_lt in Hlt. rewrite Hlt. by eexists.
    + intros primary -> Hlt.
      destruct (Z.ltb_spec hard primary); [lia|].
      destruct (Z.gtb_spec hard primary); [done | lia].
  - intros log rl H. apply resolve_limits_Ok in H as (? & ? & ? & ? & ? & H).
    destruct H as (_ & _ & _ & _ & _ & H).
    by eapply reconcile_hardtimelimit_no_hard.
Qed.

(** C8.  In limits that were resolved successfully every value is
    strictly positive, and a limit whose command-line value is [-1] is
    absent; a limit whose value resolves to zero or a negative number makes
    the resolution exit. *)
Theorem resolve_limits_positive attrs config :
  (forall log rl,
      resolve attrs config = (log, Ok rl) ->
      (forall key value, rl !! key = Some value -> 0 < value)
      /\ (forall c, cfg_timelimit config = Some c -> PyStr.strip c = "-1" ->
                    rl !! TIMELIMIT = None)
      /\ (forall c, cfg_walltimelimit config = Some c -> PyStr.strip c = "-1" ->
                    rl !! WALLTIMELIMIT = None)
      /\ (forall c, cfg_memorylimit config = Some c -> PyStr.strip c = "-1" ->
                    rl !! MEMLIMIT = None)
      /\ (forall c, cfg_corelimit config = Some c -> PyStr.strip c = "-1" ->
                    rl !! CORELIMIT = None))
  /\ (forall key cmdline_value parse_fn value n,
        (key, cmdline_value, parse_fn)
          ∈ handled_limits parse_timespan_value parse_memory_value int config ->
        effective_value attrs key cmdline_value = Some value ->
        parse_fn value = Parsed n ->
        n <= 0 ->
        exists log msg, resolve attrs config = (log, Fail (SysExit msg))).
Proof.
  split.
  - intros log rl H.
    apply resolve_limits_Ok in H as (rl1 & rl2 & rl3 & rl4 & rl5 & H).
    destruct H as (H1 & H2 & H3 & H4 & H5 & H6).
    repeat split.
    + assert (Hpos : positive_limits rl).
      { eapply reconcile_hardtimelimit_positive; [done|].
        repeat (eapply handle_limit_value_positive; [done|]).
        apply map_Forall_empty. }
      intros key value. apply Hpos.
    + intros c Hc Hs. rewrite Hc in H1, H2.
      apply (handle_limit_value_disabled _ _ _ _ _ _ _ _ Hs) in H1 as ->.
      apply (handle_limit_value_disabled _ _ _ _ _ _ _ _ Hs) in H2 as ->.
      assert (E5 : forall k, k ≠ WALLTIMELIMIT -> k ≠ MEMLIMIT -> k ≠ CORELIMIT ->
                             rl5 !! k = None).
      { intros k ? ? ?.
        rewrite (handle_limit_value_other _ _ _ _ _ _ _ _ k H5) by done.
        rewrite (handle_limit_value_other _ _ _ _ _ _ _ _ k H4) by done.
        by rewrite (handle_limit_value_other _ _ _ _ _ _ _ _ k H3) by done. }
      apply reconcile_hardtimelimit_absent in H6 as ->; by apply E5.
    + intros c Hc Hs. rewrite Hc in H3.
      apply (handle_limit_value_disabled _ _ _ _ _ _ _ _ Hs) in H3 as ->.
      rewrite (reconcile_hardtimelimit_other _ _ _ WALLTIMELIMIT H6) by done.
      rewrite (handle_limit_value_other _ _ _ _ _ _ _ _ WALLTIMELIMIT H5) by done.
      rewrite (handle_limit_value_other _ _ _ _ _ _ _ _ WALLTIMELIMIT H4) by done.
      rewrite (handle_limit_value_other _ _ _ _ _ _ _ _ WALLTIMELIMIT H2) by done.
      by rewrite (handle_limit_value_other _ _ _ _ _ _ _ _ WALLTIMELIMIT H1) by done.
    + intros c Hc Hs. rewrite Hc in H4.
      apply (handle_limit_value_disabled _ _ _ _ _ _ _ _ Hs) in H4 as ->.
      rewrite (reconcile_hardtimelimit_other _ _ _ MEMLIMIT H6) by done.
      rewrite (handle_limit_value_other _ _ _ _ _ _ _ _ MEMLIMIT H5) by done.
      rewrite (handle_limit_value_other _ _ _ _ _ _ _ _ MEMLIMIT H3) by done.
      rewrite (handle_limit_value_other _ _ _ _ _ _ _ _ MEMLIMIT H2) by done.
      by rewrite (handle_limit_value_other _ _ _ _ _ _ _ _ MEMLIMIT H1) by done.
    + intros c Hc Hs. rewrite Hc in H5.
      apply (handle_limit_value_disabled _ _ _ _ _ _ _ _ Hs) in H5 as ->.
      rewrite (reconcile_hardtimelimit_other _ _ _ CORELIMIT H6) by done.
      rewrite (handle_limit_value_other _ _ _ _ _ _ _ _ CORELIMIT H4) by done.
      rewrite (handle_limit_value_other _ _ _ _ _ _ _ _ CORELIMIT H3) by done.
      rewrite (handle_limit_value_other _ _ _ _ _ _ _ _ CORELIMIT H2) by done.
      by rewrite (handle_limit_value_other _ _ _ _ _ _ _ _ CORELIMIT H1) by done.
  - intros key cmdline_value parse_fn value n Hin He Hp Hn.
    destruct (resolve attrs config) as [log [rl|f]] eqn:E.
    + exfalso.
      apply resolve_limits_Ok in E as (rl1 & rl2 & rl3 & rl4 & rl5 & H).
      destruct H as (H1 & H2 & H3 & H4 & H5 & _).
      unfold handled_limits in Hin. rewrite !elem_of_cons, elem_of_nil in Hin.
      destruct Hin as [[= -> -> ->] | [[= -> -> ->] | [[= -> -> ->]
                      | [[= -> -> ->] | [[= -> -> ->] | []]]]]].
      * destruct (handle_limit_value_nonpositive attrs "Time" _ _ _ ∅ _ _ He Hp Hn).
        congruence.
      * destruct (handle_limit_value_nonpositive attrs "Hard time" _ _ _ rl1 _ _ He Hp Hn).
        congruence.
      * destruct (handle_limit_value_nonpositive attrs "Wall time" _ _ _ rl2 _ _ He Hp Hn).
        congruence.
      * destruct (handle_limit_value_nonpositive attrs "Memory" _ _ _ rl3 _ _ He Hp Hn).
        congruence.
      * destruct (handle_limit_value_nonpositive attrs "Core" _ _ _ rl4 _ _ He Hp Hn).
        congruence.
    + exists log. destruct (resolve_limits_Fail _ _ _ _ E) as [msg ->]. by exists msg.
Qed.

End LimitFacts.

(** The examples of hard-time reconciliation: primary 10 and hard 5;
    primary 10 and hard 20; no primary and hard 20. *)
Example limits_hard_smaller :
  exists msg,
    Sample.limits {[ TIMELIMIT := "10"; HARDTIMELIMIT := "5" ]} Sample.no_overrides
      = ([EvWarning msg], Ok {[ TIMELIMIT := 10 ]}).
Proof. eexists. vm_compute. reflexivity. Qed.

Example limits_hard_larger :
  Sample.limits {[ TIMELIMIT := "10"; HARDTIMELIMIT := "20" ]} Sample.no_overrides
    = ([], Ok {[ TIMELIMIT := 20; SOFTTIMELIMIT := 10 ]}).
Proof. vm_compute. reflexivity. Qed.

Example limits_hard_only :
  Sample.limits {[ HARDTIMELIMIT := "20" ]} Sample.no_overrides
    = ([], Ok {[ TIMELIMIT := 20 ]}).
Proof. vm_compute. reflexivity. Qed.

Example limits_zero_exits :
  exists msg,
    Sample.limits {[ CORELIMIT := "0" ]} Sample.no_overrides = ([], Fail (SysExit msg)).
Proof. eexists. vm_compute. reflexivity. Qed.

Example limits_minus_one :
  Sample.limits {[ TIMELIMIT := "10"; MEMLIMIT := "1 GB" ]}
    {| cfg_timelimit := Some " -1 "; cfg_walltimelimit := None;
       cfg_memorylimit := None; cfg_corelimit := Some "4" |}
    = ([], Ok {[ MEMLIMIT := 1000000000; CORELIMIT := 4 ]}).
Proof. vm_compute. reflexivity. Qed.

Lemma hardtimelimit_reconciliation_witness :
  reconcile_hardtimelimit {[ TIMELIMIT := 10; HARDTIMELIMIT := 20 ]}
    = ([], Ok (<[TIMELIMIT := 20]>
                 (<[SOFTTIMELIMIT := 10]>
                    (delete HARDTIMELIMIT {[ TIMELIMIT := 10; HARDTIMELIMIT := 20 ]})))).
Proof.
  refine (proj2 (proj2 (proj1 (hardtimelimit_reconciliation Sample.decimal Sample.memory
            Sample.decimal ∅ Sample.no_overrides)
            {[ TIMELIMIT := 10; HARDTIMELIMIT := 20 ]} 20 _)) 10 _ _).
  - reflexivity.
  - reflexivity.
  - lia.
Defined.

Lemma resolve_limits_positive_witness :
  exists log msg,
    Sample.limits {[ TIMELIMIT := "0" ]} Sample.no_overrides = (log, Fail (SysExit msg)).
Proof.
  refine (proj2 (resolve_limits_positive Sample.decimal Sample.memory Sample.decimal
            {[ TIMELIMIT := "0" ]} Sample.no_overrides)
            TIMELIMIT None Sample.decimal "0" 0 _ _ _ _).
  - apply list_elem_of_here.
  - reflexivity.
  - reflexivity.
  - lia.
Defined.

(** ** Reasoning about computations in [M] *)

Lemma sat_ret {A} P (Q : A -> Prop) F a : Q a -> sat P Q F (ret a).
Proof. intros H. split; [constructor | exact H]. Qed.

Lemma sat_fail {A} P (Q : A -> Prop) (F : failure -> Prop) f :
  F f -> sat P Q F (fail f).
Proof. intros H. split; [constructor | exact H]. Qed.

Lemma sat_emit P (Q : unit -> Prop) F e : P e -> Q tt -> sat P Q F (emit e).
Proof. intros He Hq. split; [by repeat constructor | exact Hq]. Qed.

Lemma sat_bind {A B} P (Q : A -> Prop) (R : B -> Prop) F (m : M A) (k : A -> M B) :
  sat P Q F m -> (forall a, Q a -> sat P R F (k a)) -> sat P R F (bind m k).
Proof.
  intros [Ht Hr] Hk. destruct m as [l [a|f]]; simpl in *; [|by split].
  destruct (Hk a Hr) as [Ht' Hr']. destruct (k a) as [l' r]. simpl in *.
  split; [by apply Forall_app | done].
Qed.

Lemma sat_weaken {A} (P P' : event -> Prop) (Q Q' : A -> Prop)
    (F F' : failure -> Prop) m :
  sat P Q F m ->
  (forall e, P e -> P' e) -> (forall a, Q a -> Q' a) -> (forall f, F f -> F' f) ->
  sat P' Q' F' m.
Proof.
  intros [Ht Hr] HP HQ HF. split.
  - eapply Forall_impl; [exact Ht | exact HP].
  - destruct (result_of m); auto.
Qed.

Lemma sat_foldM {A S} P (I : S -> Prop) F (body : S -> A -> M S) xs acc :
  I acc ->
  (forall acc x, x ∈ xs -> I acc -> sat P I F (body acc x)) ->
  sat P I F (foldM body acc xs).
Proof.
  revert acc. induction xs as [|x xs IH]; intros acc Hacc Hbody; simpl.
  - by apply sat_ret.
  - eapply sat_bind.
    + apply Hbody; [apply list_elem_of_here | done].
    + intros acc' Hacc'. apply IH; [done|].
      intros acc'' y Hy. apply Hbody. by apply list_elem_of_further.
Qed.

Lemma foldM_app {A S} (body : S -> A -> M S) acc xs ys :
  foldM body acc (xs ++ ys)
  = bind (foldM body acc xs) (fun acc' => foldM body acc' ys).
Proof.
  revert acc. induction xs as [|x xs IH]; intros acc; simpl.
  - unfold bind, ret. by destruct (foldM body acc ys).
  - unfold bind at 1 3. destruct (body acc x) as [l [a|f]]; [|done].
    rewrite IH. unfold bind. destruct (foldM body a xs) as [l1 [a1|f1]]; [|done].
    destruct (foldM body a1 ys) as [l2 r2]. by rewrite app_assoc.
Qed.

(** A loop one of whose iterations always fails, fails. *)
Lemma sat_foldM_fails {A S} P F (body : S -> A -> M S) xs acc x :
  x ∈ xs ->
  (forall acc y, y ∈ xs -> sat P (fun _ => True) F (body acc y)) ->
  (forall acc, sat P (fun _ => False) F (body acc x)) ->
  sat P (fun _ => False) F (foldM body acc xs).
Proof.
  intros Hx Hall Hfail. apply list_elem_of_split in Hx as (pre & post & ->).
  rewrite foldM_app. eapply sat_bind.
  - apply (sat_foldM P (fun _ => True)); [done|].
    intros acc' y Hy _. apply Hall. apply elem_of_app. by left.
  - intros acc' _. simpl. eapply sat_bind; [apply Hfail | done].
Qed.

(** The result of a loop whose body computes a pure step. *)
Lemma foldM_Ok_foldl {A S} (body : S -> A -> M S) (step : S -> A -> S) xs acc log r :
  (forall acc x log r, x ∈ xs -> body acc x = (log, Ok r) -> r = step acc x) ->
  foldM body acc xs = (log, Ok r) -> r = foldl step acc xs.
Proof.
  revert acc log. induction xs as [|x xs IH]; intros acc log Hbody; simpl.
  - by intros [= <- <-].
  - intros H. apply bind_Ok in H as (l1 & a & l2 & H1 & H2 & ->).
    apply Hbody in H1 as ->; [|apply list_elem_of_here].
    eapply IH; [|exact H2]. intros ? ? ? ? ?. apply Hbody. by apply list_elem_of_further.
Qed.

(** ** The order on strings and sorting *)

Lemma compare_not_Gt_trans a b c :
  String.compare a b ≠ Gt -> String.compare b c ≠ Gt -> String.compare a c ≠ Gt.
Proof.
  revert b c. induction a as [|x a IH]; intros [|y b] [|z c]; simpl; try done.
  unfold Ascii.compare.
  destruct (N.compare_spec (N_of_ascii x) (N_of_ascii y)) as [Exy|Lxy|Lxy];
    [| |done];
    destruct (N.compare_spec (N_of_ascii y) (N_of_ascii z)) as [Eyz|Lyz|Lyz];
    try done; intros Hab Hbc.
  - rewrite Exy, Eyz, N.compare_refl. by eapply IH.
  - rewrite Exy. by rewrite (proj2 (N.compare_lt_iff _ _) Lyz).
  - rewrite <- Eyz. by rewrite (proj2 (N.compare_lt_iff _ _) Lxy).
  - assert (Lxz : (N_of_ascii x < N_of_ascii z)%N) by lia.
    by rewrite (proj2 (N.compare_lt_iff _ _) Lxz).
Qed.

Lemma str_le_compare a b : str_le a b <-> String.compare a b ≠ Gt.
Proof. unfold str_le, String.leb. destruct (String.compare a b); split; done. Qed.

#[global] Instance str_le_trans : Transitive str_le.
Proof. intros a b c. rewrite !str_le_compare. apply compare_not_Gt_trans. Qed.

#[global] Instance str_le_total : Total str_le.
Proof. intros a b. apply String.leb_total. Qed.

#[global] Instance str_le_antisym : AntiSymm eq str_le.
Proof. intros a b. apply String.leb_antisym. Qed.

Lemma sort_sorted l : StronglySorted str_le (sort l).
Proof. apply StronglySorted_merge_sort; apply _. Qed.

Lemma sort_perm l : sort l ≡ₚ l.
Proof. apply merge_sort_Permutation. Qed.

(** ** Lists built by the loops *)

Lemma filter_all (P : string -> Prop) `{!forall x, Decision (P x)} (l : list string) :
  (forall x, P x) -> filter P l = l.
Proof.
  intros HP. induction l as [|x l IH]; [done|].
  rewrite filter_cons_True by done. by rewrite IH.
Qed.

Lemma remove_each_filter (acc l : list string) :
  remove_each acc l = filter (fun x => x ∉ l) acc.
Proof.
  unfold remove_each. revert acc. induction l as [|e l IH]; intros acc; simpl.
  - symmetry. apply filter_all. intros x. apply not_elem_of_nil.
  - rewrite IH. unfold remove_all. rewrite list_filter_filter.
    apply list_filter_iff. intros x. rewrite not_elem_of_cons. tauto.
Qed.

Lemma foldl_append {A} (g : A -> list string) acc xs :
  foldl (fun acc x => acc ++ g x) acc xs = acc ++ concat (map g xs).
Proof.
  revert acc. induction xs as [|x xs IH]; intros acc; simpl.
  - by rewrite app_nil_r.
  - by rewrite IH, app_assoc.
Qed.

Lemma foldl_remove {A} (g : A -> list string) acc xs :
  foldl (fun acc x => remove_each acc (g x)) acc xs
  = filter (fun x => x ∉ concat (map g xs)) acc.
Proof.
  revert acc. induction xs as [|x xs IH]; intros acc; simpl.
  - symmetry. apply filter_all. intros y. apply not_elem_of_nil.
  - rewrite IH, remove_each_filter, list_filter_filter.
    apply list_filter_iff. intros y. rewrite elem_of_app. tauto.
Qed.

Lemma sat_Ok {A} P (Q : A -> Prop) F m log a : sat P Q F m -> m = (log, Ok a) -> Q a.
Proof. intros [_ H] ->. exact H. Qed.

Lemma sat_foldM_foldl {A S} P F (body : S -> A -> M S) (step : S -> A -> S) xs acc :
  (forall acc x, x ∈ xs -> sat P (fun r => r = step acc x) F (body acc x)) ->
  sat P (fun r => r = foldl step acc xs) F (foldM body acc xs).
Proof.
  revert acc. induction xs as [|x xs IH]; intros acc Hbody; simpl.
  - by apply sat_ret.
  - eapply sat_bind; [apply Hbody, list_elem_of_here|].
    intros ? ->. apply IH. intros acc' y Hy. apply Hbody. by apply list_elem_of_further.
Qed.

(** ** Task sets *)

(** The assertion of [substitute_vars]: no key is used twice. *)
Lemma keyValueList_NoDup abspath basename dirname runSet task_file :
  NoDup (map fst (keyValueList abspath basename dirname runSet task_file)).
Proof.
  unfold keyValueList, task_vars, var_prefix.
  destruct runSet as [rs|], task_file as [tf|]; simpl;
    try destruct (negb (String.eqb tf ""));
    try destruct (PyStr.endswith tf ".yml");
    apply (bool_decide_unpack _); vm_compute; exact I.
Qed.

Section TaskSetFacts.

Variable abspath basename dirname : string -> string.
Variable util_substitute_vars : string -> list (string * string) -> string.
Variable util_expand_filename_pattern : string -> string -> list string.
Variable is_code : string -> bool.
Variable is_comment : string -> bool.
Variable file_lines : string -> option (list string).

Local Abbreviation expand :=
  (expand_filename_pattern abspath basename dirname util_substitute_vars
     util_expand_filename_pattern).
Local Abbreviation matches :=
  (expansion abspath basename dirname util_substitute_vars
     util_expand_filename_pattern).
Local Abbreviation line_matches :=
  (line_expansion abspath basename dirname util_substitute_vars
     util_expand_filename_pattern is_comment).
Local Abbreviation list_file_matches :=
  (list_file_expansion abspath basename dirname util_substitute_vars
     util_expand_filename_pattern is_comment file_lines).
Local Abbreviation list_files_matches :=
  (list_files_expansion abspath basename dirname util_substitute_vars
     util_expand_filename_pattern is_comment file_lines).
Local Abbreviation task_def_files :=
  (get_task_def_files_from_xml abspath basename dirname util_substitute_vars
     util_expand_filename_pattern is_code is_comment file_lines).

(** A pattern expands to its sorted matches and never fails. *)
Lemma expand_sat self pattern base_dir sourcefile :
  sat plain (fun l => l = matches self pattern base_dir sourcefile)
    (fun _ => False) (expand self pattern base_dir sourcefile).
Proof.
  unfold expand_filename_pattern, substitute_vars. cbn [map].
  eapply (sat_bind _ (fun _ => True)).
  { case_decide; [by apply sat_emit | by apply sat_ret]. }
  intros _ _. eapply (sat_bind _ (fun _ => True)); [by apply sat_emit|].
  intros _ _. eapply (sat_bind _ (fun _ => True)).
  { case_decide; [by apply sat_emit | by apply sat_ret]. }
  intros _ _. by apply sat_ret.
Qed.

Lemma include_line_sat self file acc line :
  sat plain (fun r => r = acc ++ line_matches self file line) (fun _ => False)
    (include_line abspath basename dirname util_substitute_vars
       util_expand_filename_pattern is_comment self file acc line).
Proof.
  unfold include_line, line_expansion.
  destruct (is_comment (PyStr.strip line)); simpl.
  - apply sat_ret. by rewrite app_nil_r.
  - eapply sat_bind; [apply expand_sat|]. intros ? ->. by apply sat_ret.
Qed.

Lemma exclude_line_sat self file acc line :
  sat plain (fun r => r = remove_each acc (line_matches self file line))
    (fun _ => False)
    (exclude_line abspath basename dirname util_substitute_vars
       util_expand_filename_pattern is_comment self file acc line).
Proof.
  unfold exclude_line, line_expansion.
  destruct (is_comment (PyStr.strip line)); simpl.
  - by apply sat_ret.
  - eapply sat_bind; [apply expand_sat|]. intros ? ->. by apply sat_ret.
Qed.

Lemma open_sat file :
  sat (fun e => e = EvOpen file) (fun lines => file_lines file = Some lines)
    (fun f => f = IOError file /\ file_lines file = None)
    (open file_lines file).
Proof.
  unfold open. eapply (sat_bind _ (fun _ => True)); [by apply sat_emit|].
  intros _ _. destruct (file_lines file); [by apply sat_ret | by apply sat_fail].
Qed.

Lemma line_matches_concat self file lines :
  file_lines file = Some lines ->
  concat (map (line_matches self file) lines) = list_file_matches self file.
Proof.
  intros Hl. unfold list_file_expansion, pattern_lines. rewrite Hl. simpl.
  clear Hl. induction lines as [|line lines IH]; [done|]. simpl.
  unfold line_expansion at 1. rewrite filter_cons.
  destruct (is_comment (PyStr.strip line)) eqn:E.
  - rewrite decide_False by done. by rewrite IH.
  - rewrite decide_True by done. simpl. by rewrite IH.
Qed.

(** A list file of an [includesfile] tag: rejected if it has code, else
    its lines are expanded. *)
Lemma include_list_file_sat self acc file :
  sat (no_code_opened is_code)
    (fun r => is_code file = false /\ r = acc ++ list_file_matches self file)
    (include_failure is_code file_lines)
    (include_list_file abspath basename dirname util_substitute_vars
       util_expand_filename_pattern is_code is_comment file_lines self acc file).
Proof.
  unfold include_list_file.
  eapply (sat_bind _ (fun _ => True)); [by apply sat_emit|]. intros _ _.
  destruct (is_code file) eqn:Hcode.
  - eapply (sat_bind _ (fun _ => True)); [by apply sat_emit|]. intros _ _.
    apply sat_fail. by left.
  - eapply sat_bind.
    + eapply sat_weaken; [apply open_sat | | intros lines H; exact H |].
      * by intros ? ->.
      * intros f [-> Hnone]. right. by exists file.
    + intros lines Hlines. simpl in Hlines.
      eapply sat_weaken;
        [apply (sat_foldM_foldl plain (fun _ => False) _
                  (fun acc line => acc ++ line_matches self file line))
        | by intros [] | | done].
      * intros acc' line _. apply include_line_sat.
      * intros r ->. split; [done|]. rewrite foldl_append. f_equal.
        by apply line_matches_concat.
Qed.

Lemma plain_no_code_opened e : plain e -> no_code_opened is_code e.
Proof. by destruct e. Qed.

(** The loop over the [include] tags. *)
Lemma include_patterns_sat self base_dir acc patterns :
  sat plain
    (fun r => r = acc ++ concat (map (fun p => matches self p base_dir None) patterns))
    (fun _ => False)
    (foldM (fun sourcefiles includedFiles =>
              bind (expand self includedFiles base_dir None)
                (fun files => ret (sourcefiles ++ files)))
       acc patterns).
Proof.
  eapply sat_weaken;
    [apply (sat_foldM_foldl plain (fun _ => False) _
              (fun acc p => acc ++ matches self p base_dir None))
    | done | | done].
  - intros acc' p _. eapply sat_bind; [apply expand_sat|].
    intros ? ->. by apply sat_ret.
  - intros r ->. apply foldl_append.
Qed.

(** The loop over the files that one [includesfile] tag names. *)
Lemma include_list_files_sat self acc files :
  sat (no_code_opened is_code)
    (fun r => r = acc ++ concat (map (list_file_matches self) files))
    (include_failure is_code file_lines)
    (foldM (include_list_file abspath basename dirname util_substitute_vars
              util_expand_filename_pattern is_code is_comment file_lines self)
       acc files).
Proof.
  eapply sat_weaken;
    [apply (sat_foldM_foldl (no_code_opened is_code)
              (include_failure is_code file_lines) _
              (fun acc file => acc ++ list_file_matches self file))
    | done | | done].
  - intros acc' file _.
    eapply sat_weaken; [apply include_list_file_sat | done | | done].
    by intros r [_ ->].
  - intros r ->. apply foldl_append.
Qed.

(** One [includesfile] tag. *)
Lemma includesfile_sat self base_dir acc pattern :
  sat (no_code_opened is_code)
    (fun r => r = acc ++ concat (map (list_file_matches self)
                                   (matches self pattern base_dir None)))
    (include_failure is_code file_lines)
    (bind (expand self pattern base_dir None)
       (fun files =>
          foldM (include_list_file abspath basename dirname util_substitute_vars
                   util_expand_filename_pattern is_code is_comment file_lines self)
            acc files)).
Proof.
  eapply sat_bind.
  - eapply sat_weaken;
      [apply expand_sat | apply plain_no_code_opened | intros l H; exact H | done].
  - intros ? ->. apply include_list_files_sat.
Qed.

(** One [includesfile] tag that names a file with code. *)
Lemma includesfile_code_sat self base_dir acc pattern file :
  file ∈ matches self pattern base_dir None ->
  is_code file = true ->
  sat (no_code_opened is_code) (fun _ => False)
    (include_failure is_code file_lines)
    (bind (expand self pattern base_dir None)
       (fun files =>
          foldM (include_list_file abspath basename dirname util_substitute_vars
                   util_expand_filename_pattern is_code is_comment file_lines self)
            acc files)).
Proof.
  intros Hin Hcode. eapply sat_bind.
  - eapply sat_weaken;
      [apply expand_sat | apply plain_no_code_opened | intros l H; exact H | done].
  - intros ? ->. apply (sat_foldM_fails _ _ _ _ _ file Hin).
    + intros acc' f _.
      eapply sat_weaken; [apply include_list_file_sat | done | done | done].
    + intros acc'.
      eapply sat_weaken; [apply include_list_file_sat | done | | done].
      intros r [Hno _]. congruence.
Qed.

(** The loop over the [exclude] tags. *)
Lemma exclude_patterns_sat self base_dir acc patterns :
  sat plain
    (fun r => r = filter (fun x => x ∉ concat (map (fun p => matches self p base_dir None)
                                                 patterns)) acc)
    (fun _ => False)
    (foldM (fun sourcefiles excludedFiles =>
              bind (expand self excludedFiles base_dir None)
                (fun excludedFilesList =>
                   ret (remove_each sourcefiles excludedFilesList)))
       acc patterns).
Proof.
  eapply sat_weaken;
    [apply (sat_foldM_foldl plain (fun _ => False) _
              (fun acc p => remove_each acc (matches self p base_dir None)))
    | done | | done].
  - intros acc' p _. eapply sat_bind; [apply expand_sat|].
    intros ? ->. by apply sat_ret.
  - intros r ->. apply foldl_remove.
Qed.

(** One list file of an [excludesfile] tag. *)
Lemma exclude_list_file_sat self acc file :
  sat (fun _ => True)
    (fun r => r = remove_each acc (list_file_matches self file))
    (fun _ => True)
    (bind (open file_lines file)
       (fun fileWithList =>
          foldM (exclude_line abspath basename dirname util_substitute_vars
                   util_expand_filename_pattern is_comment self file)
            acc fileWithList)).
Proof.
  eapply sat_bind.
  - eapply sat_weaken; [apply open_sat | done | intros lines H; exact H | done].
  - intros lines Hlines. simpl in Hlines.
    eapply sat_weaken;
      [apply (sat_foldM_foldl plain (fun _ => False) _
                (fun acc line => remove_each acc (line_matches self file line)))
      | done | | done].
    + intros acc' line _. apply exclude_line_sat.
    + intros r ->. rewrite foldl_remove, remove_each_filter.
      by rewrite (line_matches_concat _ _ _ Hlines).
Qed.

(** The loop over the [excludesfile] tags. *)
Lemma exclude_list_files_sat self base_dir acc patterns :
  sat (fun _ => True)
    (fun r => r = filter (fun x => x ∉ list_files_matches self base_dir patterns) acc)
    (fun _ => True)
    (foldM (fun sourcefiles excludesFilesFile =>
              bind (expand self excludesFilesFile base_dir None)
                (fun files =>
                   foldM (fun sourcefiles file =>
                            bind (open file_lines file)
                              (fun fileWithList =>
                                 foldM (exclude_line abspath basename dirname
                                          util_substitute_vars
                                          util_expand_filename_pattern is_comment
                                          self file)
                                   sourcefiles fileWithList))
                     sourcefiles files))
       acc patterns).
Proof.
  eapply sat_weaken;
    [apply (sat_foldM_foldl (fun _ => True) (fun _ => True) _
              (fun acc p =>
                 remove_each acc
                   (concat (map (list_file_matches self)
                              (matches self p base_dir None)))))
    | done | | done].
  - intros acc' p _. eapply sat_bind.
    + eapply sat_weaken; [apply expand_sat | done | intros l H; exact H | done].
    + intros ? ->.
      eapply sat_weaken;
        [apply (sat_foldM_foldl (fun _ => True) (fun _ => True) _
                  (fun acc file => remove_each acc (list_file_matches self file)))
        | done | | done].
      * intros acc'' file _. apply exclude_list_file_sat.
      * intros r ->. by rewrite foldl_remove, remove_each_filter.
  - intros r ->. apply foldl_remove.
Qed.

(** C3 (amended).  Every pattern expands, without failing, to the matches
    of the glob primitive sorted by the order on strings.  The list of a
    block, when its expansion succeeds, is the concatenation, in the order
    of the declarations, of the sorted expansions of the include patterns
    and of the lines of the includes-files, from which every identifier
    matched by an exclusion has been removed.  (The list is not
    deduplicated.) *)
Theorem get_task_def_files_ordered self :
  (forall pattern base_dir sourcefile,
      (exists log, expand self pattern base_dir sourcefile
                   = (log, Ok (matches self pattern base_dir sourcefile)))
      /\ StronglySorted str_le (matches self pattern base_dir sourcefile)
      /\ matches self pattern base_dir sourcefile
         ≡ₚ util_expand_filename_pattern
              (util_substitute_vars pattern
                 (keyValueList abspath basename dirname (Some self) sourcefile))
              base_dir)
  /\ (forall tag base_dir log l,
        task_def_files self tag base_dir = (log, Ok l) ->
        l = filter
              (fun x => x ∉ excluded abspath basename dirname util_substitute_vars
                              util_expand_filename_pattern is_comment file_lines
                              self tag base_dir)
              (included abspath basename dirname util_substitute_vars
                 util_expand_filename_pattern is_comment file_lines
                 self tag base_dir)).
Proof.
  split.
  - intros pattern base_dir sourcefile. repeat split.
    + destruct (expand_sat self pattern base_dir sourcefile) as [_ H].
      destruct (expand self pattern base_dir sourcefile) as [log [l|f]];
        simpl in H; [subst l; by exists log | done].
    + apply sort_sorted.
    + apply sort_perm.
  - intros tag base_dir log l Hm.
    refine (sat_Ok (fun _ => True) (fun r => r = _) (fun _ => True) _ log l _ Hm).
    unfold get_task_def_files_from_xml, included, excluded.
    eapply sat_bind.
    { eapply sat_weaken;
        [apply include_patterns_sat | done | intros r H; exact H | done]. }
    intros ? ->. eapply sat_bind.
    { eapply sat_weaken;
        [apply (sat_foldM_foldl (no_code_opened is_code)
                  (include_failure is_code file_lines) _
                  (fun acc p =>
                     acc ++ concat (map (list_file_matches self)
                                      (matches self p base_dir None))))
        | done | intros r H; exact H | done].
      intros acc p _. apply includesfile_sat. }
    intros ? ->. rewrite foldl_append. eapply sat_bind.
    { eapply sat_weaken;
        [apply exclude_patterns_sat | done | intros r H; exact H | done]. }
    intros ? ->.
    eapply sat_weaken; [apply exclude_list_files_sat | done | | done].
    intros r ->. rewrite list_filter_filter. simpl.
    apply list_filter_iff. intros x. rewrite elem_of_app. tauto.
Qed.

(** C9.  When an [includesfile] tag names a list file that [is_code] takes
    for code, task expansion does not return: it exits, or a list file
    before that one could not be opened; no file with code is opened, so no
    line of it is read or expanded.  If every list file without code can be
    opened, the outcome is the exit. *)
Theorem includesfile_code_rejected self tag base_dir pattern file :
  pattern ∈ tag_includesfile tag ->
  file ∈ matches self pattern base_dir None ->
  is_code file = true ->
  (result_of (task_def_files self tag base_dir) = Fail (SysExit "")
   \/ exists g, is_code g = false /\ file_lines g = None
                /\ result_of (task_def_files self tag base_dir) = Fail (IOError g))
  /\ (forall f, EvOpen f ∈ trace (task_def_files self tag base_dir) ->
                is_code f = false)
  /\ ((forall g, is_code g = false -> is_Some (file_lines g)) ->
      result_of (task_def_files self tag base_dir) = Fail (SysExit "")).
Proof.
  intros Hpat Hfile Hcode.
  assert (H : sat (no_code_opened is_code) (fun _ => False)
                (include_failure is_code file_lines)
                (task_def_files self tag base_dir)).
  { unfold get_task_def_files_from_xml.
    eapply (sat_bind _ (fun _ => True)).
    { eapply sat_weaken;
        [apply include_patterns_sat | apply plain_no_code_opened | done | done]. }
    intros acc _. eapply (sat_bind _ (fun _ => False)); [|by intros ? []].
    apply (sat_foldM_fails _ _ _ _ _ pattern Hpat).
    - intros acc' p _.
      eapply sat_weaken; [apply includesfile_sat | done | done | done].
    - intros acc'. by eapply includesfile_code_sat. }
  destruct H as [Ht Hr].
  assert (Hres : result_of (task_def_files self tag base_dir) = Fail (SysExit "")
            \/ exists g, is_code g = false /\ file_lines g = None
                /\ result_of (task_def_files self tag base_dir) = Fail (IOError g)).
  { destruct (result_of (task_def_files self tag base_dir)) as [l|f]; [done|].
    destruct Hr as [-> | (g & -> & ? & ?)]; [by left | right; by exists g]. }
  repeat split.
  - exact Hres.
  - intros f Hf. rewrite Forall_forall in Ht. exact (Ht _ Hf).
  - intros Hread. destruct Hres as [?|(g & Hg & Hnone & _)]; [done|].
    destruct (Hread g Hg) as [? ?]. congruence.
Qed.

End TaskSetFacts.

(** The example of the task-set expander: the pattern [*.c] over a directory
    with [a.c], [b.c] and [b.txt], then without [b.c]; and a list file. *)
Example task_def_files_sorted :
  Sample.task_def_files (Sample.tasks ["*.c"] [] [])
    = ([EvGlob "*.c" ""], Ok ["a.c"; "b.c"]).
Proof. vm_compute. reflexivity. Qed.

Example task_def_files_excluded :
  result_of (Sample.task_def_files (Sample.tasks ["*.c"] [] ["b.c"])) = Ok ["a.c"].
Proof. vm_compute. reflexivity. Qed.

Example task_def_files_list_file :
  Sample.task_def_files (Sample.tasks [] ["list.set"] [])
    = ([EvGlob "list.set" ""; EvIsCode "list.set"; EvOpen "list.set";
        EvGlob "a.c" ""; EvGlob "b.c" ""],
       Ok ["a.c"; "b.c"]).
Proof. vm_compute. reflexivity. Qed.

(** C3, as stated, fails: a file matched by two include patterns is listed
    twice. *)
Lemma task_def_files_duplicate :
  result_of (Sample.task_def_files (Sample.tasks ["*.c"; "a.c"] [] []))
    = Ok ["a.c"; "b.c"; "a.c"]
  /\ ~ NoDup ["a.c"; "b.c"; "a.c"].
Proof.
  split; [vm_compute; reflexivity|].
  intros H. apply NoDup_cons_1_1 in H. apply H.
  apply list_elem_of_further, list_elem_of_here.
Qed.

Lemma get_task_def_files_ordered_witness :
  ["a.c"]
  = filter (fun x => x ∉ excluded Sample.same Sample.same Sample.here
                          Sample.no_substitution Sample.glob Sample.is_comment
                          Sample.file_lines Sample.runSet
                          (Sample.tasks ["*.c"] [] ["b.c"]) "")
      (included Sample.same Sample.same Sample.here Sample.no_substitution
         Sample.glob Sample.is_comment Sample.file_lines Sample.runSet
         (Sample.tasks ["*.c"] [] ["b.c"]) "").
Proof.
  refine (proj2 (get_task_def_files_ordered Sample.same Sample.same Sample.here
                   Sample.no_substitution Sample.glob Sample.is_code Sample.is_comment
                   Sample.file_lines Sample.runSet)
            (Sample.tasks ["*.c"] [] ["b.c"]) ""
            [EvGlob "*.c" ""; EvGlob "b.c" ""] ["a.c"] _).
  vm_compute. reflexivity.
Defined.

Lemma includesfile_code_rejected_witness :
  result_of (Sample.task_def_files (Sample.tasks ["*.c"] ["list.set"; "code.set"] []))
    = Fail (SysExit "")
  \/ exists g, Sample.is_code g = false /\ Sample.file_lines g = None
               /\ result_of (Sample.task_def_files
                               (Sample.tasks ["*.c"] ["list.set"; "code.set"] []))
                  = Fail (IOError g).
Proof.
  refine (proj1 (includesfile_code_rejected Sample.same Sample.same Sample.here
                   Sample.no_substitution Sample.glob Sample.is_code Sample.is_comment
                   Sample.file_lines Sample.runSet
                   (Sample.tasks ["*.c"] ["list.set"; "code.set"] []) ""
                   "code.set" "code.set" _ _ _)).
  - apply list_elem_of_further, list_elem_of_here.
  - vm_compute. apply list_elem_of_here.
  - reflexivity.
Defined.

Example task_def_files_code :
  Sample.task_def_files (Sample.tasks ["*.c"] ["list.set"; "code.set"] [])
    = ([EvGlob "*.c" ""; EvGlob "list.set" ""; EvIsCode "list.set"; EvOpen "list.set";
        EvGlob "a.c" ""; EvGlob "b.c" "";
        EvGlob "code.set" ""; EvIsCode "code.set";
        EvError ("'code.set' seems to contain code instead of a set of source file names."
                 +:+ newline
                 +:+ "Please check your benchmark definition file "
                 +:+ "or remove bracket '{' from this file.")],
       Fail (SysExit "")).
Proof. vm_compute. reflexivity. Qed.

(** ** Runs *)

Lemma trace_bind {A B} (m : M A) (k : A -> M B) :
  trace (bind m k)
  = trace m ++ match result_of m with
               | Ok a => trace (k a)
               | Fail _ => []
               end.
Proof.
  destruct m as [l [a|f]]; simpl; [|by rewrite app_nil_r].
  by destruct (k a).
Qed.

Lemma plain_not_load e : plain e -> not_load e.
Proof. by destruct e. Qed.

Lemma list_ascii_of_string_append a b :
  String.list_ascii_of_string (a +:+ b)
  = String.list_ascii_of_string a ++ String.list_ascii_of_string b.
Proof.
  induction a as [|c a IH]; [done|].
  change (String c a +:+ b) with (String c (a +:+ b)). simpl. by rewrite IH.
Qed.

(** A name with the extension [.yaml] does not end with [.yml]. *)
Lemma endswith_yaml stem : PyStr.endswith (stem +:+ ".yaml") ".yml" = false.
Proof.
  unfold PyStr.endswith. rewrite list_ascii_of_string_append, rev_app_distr.
  reflexivity.
Qed.

Section RunFacts.

Variable abspath basename dirname : string -> string.
Variable relpath : string -> string -> string.
Variable isfile : string -> bool.
Variable samefile : string -> string -> bool.
Variable util_substitute_vars : string -> list (string * string) -> string.
Variable util_expand_filename_pattern : string -> string -> list string.
Variable util_get_files : list string -> list string.
Variable yaml_load : string -> yaml_result.
Variable Property_create : string -> bool -> Property + string.
Variable expected_results_of_file : string -> gmap string ExpectedResult.

Local Abbreviation init :=
  (Run_init abspath basename dirname relpath isfile util_substitute_vars
     util_expand_filename_pattern).
Local Abbreviation from_task_definition :=
  (create_run_from_task_definition abspath basename dirname relpath isfile samefile
     util_substitute_vars util_expand_filename_pattern yaml_load Property_create).
Local Abbreviation for_input_file :=
  (create_run_for_input_file abspath basename dirname relpath isfile
     util_substitute_vars util_expand_filename_pattern util_get_files
     Property_create expected_results_of_file).
Local Abbreviation for_identifier :=
  (run_for_identifier abspath basename dirname relpath isfile samefile
     util_substitute_vars util_expand_filename_pattern util_get_files yaml_load
     Property_create expected_results_of_file).
Local Abbreviation prefix_of := (var_prefix).

Lemma glob_sat pattern base_dir :
  sat plain (fun _ => True) (fun _ => False)
    (glob util_expand_filename_pattern pattern base_dir).
Proof.
  unfold glob. eapply (sat_bind _ (fun _ => True)); [by apply sat_emit|].
  intros _ _. by apply sat_ret.
Qed.

Lemma resolve_propertyfile_sat runSet identifier propertyfile :
  sat plain (fun _ => True) (fun _ => True)
    (resolve_propertyfile abspath basename dirname isfile util_substitute_vars
       util_expand_filename_pattern runSet identifier propertyfile).
Proof.
  unfold resolve_propertyfile.
  destruct (py_or propertyfile (rs_propertyfile runSet)) as [pf|].
  - eapply (sat_bind _ (fun _ => True)).
    { eapply sat_weaken; [apply glob_sat | done | done | done]. }
    intros expanded _. unfold substitute_vars. cbn [map].
    destruct expanded as [|first rest].
    + destruct (isfile _); [by apply sat_ret|].
      eapply (sat_bind _ (fun _ => True)); [by apply sat_emit|].
      intros _ _. by apply sat_ret.
    + eapply (sat_bind _ (fun _ => True)).
      { case_decide; [by apply sat_emit | by apply sat_ret]. }
      intros _ _. by apply sat_ret.
  - eapply (sat_bind _ (fun _ => True)); [by apply sat_emit|].
    intros _ _. by apply sat_ret.
Qed.

(** A new run logs and globs only, and has no expected results. *)
Lemma Run_init_sat identifier sourcefiles fileOptions runSet propertyfile
    patterns required_files :
  sat plain (fun run => run_expected_results run = ∅) (fun _ => True)
    (init identifier sourcefiles fileOptions runSet propertyfile patterns
       required_files).
Proof.
  unfold Run_init. destruct (String.eqb identifier ""); [by apply sat_fail|].
  eapply (sat_bind _ (fun _ => True)).
  { apply (sat_foldM plain (fun _ => True)); [done|].
    intros acc pattern _ _. eapply (sat_bind _ (fun _ => True)).
    - eapply sat_weaken; [apply expand_sat | done | done | done].
    - intros files _. eapply (sat_bind _ (fun _ => True)).
      + case_decide; [by apply sat_emit | by apply sat_ret].
      + intros _ _. by apply sat_ret. }
  intros required _. eapply (sat_bind _ (fun _ => True)).
  { apply resolve_propertyfile_sat. }
  intros pf _. by apply sat_ret.
Qed.

(** A run for a plain input file logs and globs only. *)
Lemma create_run_for_input_file_sat self input_file options property_file
    patterns append_file_tags :
  sat plain (fun _ => True) (fun _ => True)
    (for_input_file self input_file options property_file patterns
       append_file_tags).
Proof.
  unfold create_run_for_input_file.
  eapply (sat_bind _ (fun _ => True)).
  { apply (sat_foldM plain (fun _ => True)); [done|].
    intros acc append_file _ _. eapply (sat_bind _ (fun _ => True)).
    - eapply sat_weaken; [apply expand_sat | done | done | done].
    - intros files _. by apply sat_ret. }
  intros input_files _. eapply (sat_bind _ (fun _ => True)).
  { eapply sat_weaken; [apply Run_init_sat | done | done | done]. }
  intros run _. destruct (run_propertyfile run) as [pf|]; [|by apply sat_ret].
  destruct (negb _); [by apply sat_ret|].
  destruct (Property_create pf false) as [prop|e]; [|by apply sat_fail].
  destruct (_ !! _); by apply sat_ret.
Qed.

(** The property loop writes expected results under one key only. *)
Lemma match_property_dom task_def_file prop props run :
  dom (run_expected_results run) ⊆ {[ prop_filename prop ]} ->
  sat (fun _ => True)
    (fun run' => dom (run_expected_results run') ⊆ ({[ prop_filename prop ]} : gset string))
    (fun _ => True)
    (foldM (match_property dirname samefile util_expand_filename_pattern
              task_def_file prop) run props).
Proof.
  intros Hrun. apply sat_foldM; [done|]. clear run Hrun.
  intros run prop_dict _ Hrun. unfold match_property.
  destruct prop_dict as [|property_file expected_verdict subproperty];
    [by apply sat_fail|].
  eapply (sat_bind _ (fun _ => True)).
  { eapply sat_weaken; [apply glob_sat | done | done | done]. }
  intros expanded _. destruct expanded as [|expanded0 [|]]; try by apply sat_fail.
  destruct (_ || _); [|by apply sat_ret].
  destruct expected_verdict; [| |by apply sat_fail];
    apply sat_ret; simpl; rewrite dom_insert_L; by apply union_least.
Qed.

(** After the property loop a run has at most one expected result, so the
    check [len(run.expected_results) > 1] never fires. *)
Lemma expected_results_at_most_one task_def_file prop props run log run' :
  run_expected_results run = ∅ ->
  foldM (match_property dirname samefile util_expand_filename_pattern
           task_def_file prop) (set_properties run [prop]) props = (log, Ok run') ->
  (size (run_expected_results run') <= 1)%nat.
Proof.
  intros Hempty Hloop.
  assert (Hdom : dom (run_expected_results run')
                 ⊆ ({[ prop_filename prop ]} : gset string)).
  { refine (sat_Ok _ (fun r => dom (run_expected_results r) ⊆ _) _ _ log run'
              (match_property_dom task_def_file prop props _ _) Hloop).
    simpl. rewrite Hempty, dom_empty_L. set_solver. }
  apply subseteq_size in Hdom. rewrite size_dom, size_singleton in Hdom. exact Hdom.
Qed.

(** C10.  An identifier is handled as a task definition exactly when it
    ends with [.yml]: then the variable prefix is [taskdef_], a block with
    [append] tags is rejected, and otherwise the run is built from the
    task-definition file, which is parsed first; and the variables that
    [substitute_vars] registers for the file are [taskdef_name],
    [taskdef_path] and [taskdef_path_abs].  Any other identifier, one
    ending with [.yaml] too, gets the prefix [inputfile_] and a run for a
    plain input file, and no task-definition file is parsed; the variables
    registered for it, if it is not empty, are [inputfile_name],
    [inputfile_path] and [inputfile_path_abs]. *)
Theorem task_definition_by_extension self fileOptions propertyfile patterns
    appendFileTags identifier :
  (PyStr.endswith identifier ".yml" = true ->
   prefix_of identifier = "taskdef_"
   /\ (appendFileTags ≠ [] ->
       for_identifier self fileOptions propertyfile patterns appendFileTags identifier
       = fail (BenchExecException
                 "Cannot combine <append> and task-definition files in the same <tasks> tag."))
   /\ (appendFileTags = [] ->
       for_identifier self fileOptions propertyfile patterns appendFileTags identifier
       = from_task_definition self identifier fileOptions propertyfile patterns
       /\ exists rest,
           trace (for_identifier self fileOptions propertyfile patterns
                    appendFileTags identifier)
           = EvLoadTaskDef identifier :: rest)
   /\ (forall runSet,
         keyValueList abspath basename dirname runSet (Some identifier)
         = keyValueList abspath basename dirname runSet None
           ++ [ ("taskdef_name", basename identifier);
                ("taskdef_path", or_dot (dirname identifier));
                ("taskdef_path_abs", dirname (abspath identifier)) ]))
  /\ (PyStr.endswith identifier ".yml" = false ->
      prefix_of identifier = "inputfile_"
      /\ for_identifier self fileOptions propertyfile patterns appendFileTags identifier
         = bind (for_input_file self identifier fileOptions propertyfile patterns
                   appendFileTags)
             (fun run => ret (Some run))
      /\ (forall file,
            EvLoadTaskDef file
            ∉ trace (for_identifier self fileOptions propertyfile patterns
                       appendFileTags identifier))
      /\ (identifier ≠ "" ->
          forall runSet,
            keyValueList abspath basename dirname runSet (Some identifier)
            = keyValueList abspath basename dirname runSet None
              ++ [ ("inputfile_name", basename identifier);
                   ("inputfile_path", or_dot (dirname identifier));
                   ("inputfile_path_abs", dirname (abspath identifier)) ]))
  /\ (forall stem, PyStr.endswith (stem +:+ ".yaml") ".yml" = false).
Proof.
  split; [|split].
  - intros Hyml. split; [|split; [|split]].
    + unfold var_prefix. by rewrite Hyml.
    + intros Happend. unfold run_for_identifier. rewrite Hyml.
      by rewrite decide_True.
    + intros ->. unfold run_for_identifier. rewrite Hyml.
      rewrite decide_False by auto. split; [done|].
      unfold create_run_from_task_definition, load_task_definition_file.
      rewrite !trace_bind. simpl. by eexists.
    + intros runSet. unfold keyValueList, task_vars, var_prefix. rewrite Hyml.
      rewrite app_nil_r.
      destruct identifier as [|c rest]; [by vm_compute in Hyml|]. reflexivity.
  - intros Hother. split; [|split; [|split]].
    + unfold var_prefix. by rewrite Hother.
    + unfold run_for_identifier. by rewrite Hother.
    + intros file Hin. unfold run_for_identifier in Hin. rewrite Hother in Hin.
      assert (Hsat : sat not_load (fun _ : option Run => True) (fun _ => True)
                (bind (for_input_file self identifier fileOptions propertyfile
                         patterns appendFileTags)
                   (fun run => ret (Some run)))).
      { eapply (sat_bind _ (fun _ => True)).
        - eapply sat_weaken;
            [apply create_run_for_input_file_sat | apply plain_not_load | done | done].
        - intros run _. by apply sat_ret. }
      destruct Hsat as [Ht _]. rewrite Forall_forall in Ht. exact (Ht _ Hin).
    + intros Hne runSet. unfold keyValueList, task_vars, var_prefix. rewrite Hother.
      rewrite app_nil_r.
      destruct identifier as [|c rest]; [done|]. reflexivity.
  - apply endswith_yaml.
Qed.

End RunFacts.

Lemma task_definition_by_extension_witness :
  Sample.run_for_identifier Sample.runSet [] None ∅ ["b.c"] "t.yml"
  = fail (BenchExecException
            "Cannot combine <append> and task-definition files in the same <tasks> tag.").
Proof.
  refine (proj1 (proj2 (proj1 (task_definition_by_extension Sample.same Sample.same
            Sample.here Sample.relpath Sample.isfile String.eqb Sample.no_substitution
            Sample.glob Sample.get_files Sample.yaml_load Sample.Property_create
            Sample.expected_results_of_file Sample.runSet [] None ∅ ["b.c"] "t.yml")
            _)) _).
  - reflexivity.
  - discriminate.
Defined.

Example run_for_yaml_identifier :
  exists run,
    Sample.run_for_identifier Sample.runSet [] None ∅ [] "t.yaml"
      = ([EvGlob "p.prp" ""], Ok (Some run))
    /\ run_sourcefiles run = ["t.yaml"].
Proof. eexists. split; vm_compute; reflexivity. Qed.

(** C4, on the code.  The task definition [t.yml] lists the property file
    [p.prp] twice, with the verdicts true and false, and both entries match
    the property file of the run.  No error is raised: the run is built, and
    the second entry has replaced the first. *)
Theorem create_run_duplicate_property :
  td_properties Sample.twice
    = [ PropDict "p.prp" (VBool true) None; PropDict "p.prp" (VBool false) None ]
  /\ exists log run,
      Sample.create_run_from_task_definition Sample.runSet "t.yml" [] None ∅
        = (log, Ok (Some run))
      /\ run_propertyfile run = Some "p.prp"
      /\ run_expected_results run
         = {[ "p.prp" := {| er_result := Some false; er_subproperty := None |} ]}.
Proof.
  split; [reflexivity|]. eexists _, _. repeat split; vm_compute; reflexivity.
Qed.

(** A block with the pattern [*.yml]: the file [t.yml] is parsed as a task
    definition and gives the one run of the block. *)
Example extract_runs_yml :
  exists log run,
    Sample.extract_runs_from_xml Sample.runSet [Sample.tasks ["*.yml"] [] []] ∅
      = (EvGlob "*.yml" "" :: EvLoadTaskDef "t.yml" :: log,
         Ok [ {| sfs_real_name := None; sfs_name := "0"; sfs_runs := [run] |} ])
    /\ run_identifier run = "t.yml"
    /\ run_sourcefiles run = ["a.c"].
Proof. eexists _, _. repeat split; vm_compute; reflexivity. Qed.

(** An empty verdict is no verdict: the status of a timeout stays as it is. *)
Example analyze_empty_verdict :
  Sample.analyze "" (Some (Sample.exit_value 0)) [] true None = Some "TIMEOUT".
Proof. reflexivity. Qed.

(** The first example of the classifier: exit value 0 and the verdict
    [true], without signal, termination reason and timeout. *)
Example analyze_regular_verdict :
  Sample.analyze "true" (Some (Sample.exit_value 0)) [] false None = Some "true".
Proof. reflexivity. Qed.

(** ** More on result classification *)

Section ClassifierMore.

Variable RESULT_LIST_OTHER : list string.
Variable RESULT_ERROR : string.
Variable determine_result : Z -> Z -> list string -> bool -> string.

Local Abbreviation verdict_of := (raw_verdict determine_result).
Local Abbreviation tool_status :=
  (tool_status_of RESULT_LIST_OTHER RESULT_ERROR determine_result).
Local Abbreviation analyze :=
  (_analyze_result RESULT_LIST_OTHER RESULT_ERROR determine_result).

(** X1.  Without timeout and termination reason, an unspecific verdict is
    replaced by what the exit code tells: signal 6 is "ABORTED", 15 is
    "KILLED", any other signal but 0 and 11 is "KILLED BY SIGNAL n"; without
    signal a return value other than 0 gives the error label with the value
    in parentheses, and a return value of 0 or none leaves the verdict. *)
Theorem analyze_unspecific_refined ec output tr :
  PyStr.truthy tr = false ->
  verdict_of ec output false ∈ RESULT_LIST_OTHER ->
  (ec_signal ec = Some 6 -> analyze (Some ec) output false tr = Some "ABORTED")
  /\ (ec_signal ec = Some 15 -> analyze (Some ec) output false tr = Some "KILLED")
  /\ (forall n, ec_signal ec = Some n -> n ≠ 0 -> n ≠ 6 -> n ≠ 11 -> n ≠ 15 ->
                analyze (Some ec) output false tr
                = Some ("KILLED BY SIGNAL " +:+ PyStr.str_of_int n))
  /\ (forall v, PyStr.truthy_int (ec_signal ec) = false ->
                ec_value ec = Some v -> v ≠ 0 ->
                analyze (Some ec) output false tr
                = Some (RESULT_ERROR +:+ " (" +:+ PyStr.str_of_int v +:+ ")"))
  /\ (PyStr.truthy_int (ec_signal ec) = false ->
      PyStr.truthy_int (ec_value ec) = false ->
      analyze (Some ec) output false tr = Some (verdict_of ec output false)).
Proof.
  intros Htr Hv. rewrite analyze_regular by done. simpl.
  unfold refine_status. apply mem_true in Hv. rewrite Hv.
  split; [|split; [|split; [|split]]].
  - intros ->. by rewrite decide_True.
  - intros ->. rewrite !decide_False by discriminate. by rewrite decide_True.
  - intros n -> H0 H6 H11 H15.
    rewrite !decide_False by congruence. simpl.
    by rewrite (proj2 (Z.eqb_neq n 0) H0).
  - intros v Hs Hval Hv0.
    assert (H6 : ec_signal ec ≠ Some 6) by (by intros E; rewrite E in Hs).
    assert (H11 : ec_signal ec ≠ Some 11) by (by intros E; rewrite E in Hs).
    assert (H15 : ec_signal ec ≠ Some 15) by (by intros E; rewrite E in Hs).
    rewrite !decide_False by done. rewrite Hs, Hval. simpl.
    by rewrite (proj2 (Z.eqb_neq v 0) Hv0).
  - intros Hs Hval.
    assert (H6 : ec_signal ec ≠ Some 6) by (by intros E; rewrite E in Hs).
    assert (H11 : ec_signal ec ≠ Some 11) by (by intros E; rewrite E in Hs).
    assert (H15 : ec_signal ec ≠ Some 15) by (by intros E; rewrite E in Hs).
    rewrite !decide_False by done. by rewrite Hs, Hval.
Qed.

(** X2.  Without an exit code the status is the label of the resource-limit
    condition alone: "TIMEOUT" for a timeout whatever reason is declared,
    else the label of the table for a reason it maps, else the reason
    itself. *)
Theorem analyze_without_exitcode output :
  (forall tr, analyze None output true tr = Some "TIMEOUT")
  /\ (forall r label,
        (r, label) ∈ _ERROR_RESULTS_FOR_TERMINATION_REASON ->
        analyze None output false (Some r) = Some label)
  /\ (forall r,
        r ≠ "" -> r ∉ map fst _ERROR_RESULTS_FOR_TERMINATION_REASON ->
        analyze None output false (Some r) = Some r).
Proof.
  split; [done|]. split.
  - intros r label Hin. unfold _ERROR_RESULTS_FOR_TERMINATION_REASON in Hin.
    rewrite !elem_of_cons, elem_of_nil in Hin.
    destruct Hin as [[= -> ->]|[[= -> ->]|[[= -> ->]|[[= -> ->]|[[= -> ->]|[]]]]]];
      reflexivity.
  - intros r Hne Hnot.
    assert (Hst : limit_status false (Some r) = Some r).
    { unfold limit_status. rewrite (proj2 (truthy_Some r) Hne). f_equal.
      unfold _ERROR_RESULTS_FOR_TERMINATION_REASON in *. simpl in Hnot.
      rewrite !not_elem_of_cons in Hnot.
      destruct Hnot as (H1 & H2 & H3 & H4 & H5 & _). simpl.
      by rewrite !(proj2 (String.eqb_neq _ _)) by done. }
    unfold _analyze_result. rewrite Hst. simpl tool_status_of.
    by rewrite (proj2 (truthy_Some r) Hne).
Qed.

(** X3.  A status set from a resource-limit condition is left as it is when
    the tool status is empty, unspecific, equal to the label, "KILLED" or
    "KILLED BY SIGNAL 9". *)
Theorem analyze_label_kept exitcode output isTimeout tr st ts :
  limit_status isTimeout tr = Some st ->
  tool_status exitcode output isTimeout = Some ts ->
  ts = "" \/ ts ∈ RESULT_LIST_OTHER \/ ts = st \/ ts = "KILLED"
  \/ ts = "KILLED BY SIGNAL 9" ->
  analyze exitcode output isTimeout tr = Some st.
Proof.
  intros Hst Hts Hcase.
  pose proof (limit_status_nonempty _ _ _ Hst) as Hne.
  unfold _analyze_result. rewrite Hst, Hts.
  rewrite (proj2 (truthy_Some st) Hne). simpl negb. cbv iota.
  destruct (decide (ts = "")) as [->|Hts_ne]; [done|].
  rewrite (proj2 (truthy_Some ts) Hts_ne).
  assert (Hmem : PyStr.mem ts
                   (RESULT_LIST_OTHER ++ [st; "KILLED"; "KILLED BY SIGNAL 9"]) = true).
  { apply mem_true. rewrite elem_of_app, !elem_of_cons.
    destruct Hcase as [?|[?|[?|[?|?]]]]; [done|tauto..]. }
  by rewrite Hmem.
Qed.

End ClassifierMore.

Lemma analyze_unspecific_refined_witness :
  Sample.analyze "unknown" (Some (Sample.exit_signal 9)) [] false None
  = Some "KILLED BY SIGNAL 9".
Proof.
  refine (proj1 (proj2 (proj2 (analyze_unspecific_refined Sample.RESULT_LIST_OTHER
            Sample.RESULT_ERROR (Sample.constant_tool "unknown")
            (Sample.exit_signal 9) [] None _ _))) 9 _ _ _ _ _).
  - reflexivity.
  - apply mem_true. reflexivity.
  - reflexivity.
  - discriminate.
  - discriminate.
  - discriminate.
  - discriminate.
Defined.

Lemma analyze_label_kept_witness :
  Sample.analyze "unknown" (Some (Sample.exit_signal 9)) [] true None = Some "TIMEOUT".
Proof.
  refine (analyze_label_kept Sample.RESULT_LIST_OTHER Sample.RESULT_ERROR
            (Sample.constant_tool "unknown") (Some (Sample.exit_signal 9)) [] true None
            "TIMEOUT" "KILLED BY SIGNAL 9" _ _ _).
  - reflexivity.
  - reflexivity.
  - right; right; right; right. reflexivity.
Defined.

(** ** The stored result values *)

Lemma hidden_not_measured rest key :
  key ∈ ["walltime"; "cputime"; "memory"] -> "@" +:+ rest ≠ key.
Proof.
  rewrite !elem_of_cons, elem_of_nil.
  change ("@" +:+ rest) with (String "@" rest).
  intros [->|[->|[->|[]]]]; discriminate.
Qed.

Section ValueFacts.

Variable V : Type.
Variable of_int : option Z -> V.
Variable is_text : V -> bool.
Variable format_energy_results : V -> list (string * V).

Local Abbreviation store := (store_values V of_int is_text format_energy_results).
Local Abbreviation store_one := (store_value V is_text format_energy_results).

Lemma store_energy_other acc entries key :
  key ∈ ["walltime"; "cputime"; "memory"] ->
  foldl (store_energy V) acc entries !! key = acc !! key.
Proof.
  intros Hkey. revert acc. induction entries as [|e entries IH]; intros acc; [done|].
  simpl. rewrite IH. unfold store_energy. apply lookup_insert_ne.
  case_decide as Hc.
  - by apply hidden_not_measured.
  - rewrite Hc. intros <-.
    rewrite !elem_of_cons, elem_of_nil in Hkey.
    destruct Hkey as [?|[?|[?|[]]]]; discriminate.
Qed.

Lemma store_value_other visible acc k v key :
  key ∈ ["walltime"; "cputime"; "memory"] -> k ≠ key ->
  store_one visible acc (k, v) !! key = acc !! key.
Proof.
  intros Hkey Hk. unfold store_value. cbn [fst snd].
  destruct (_ && _); [by apply store_energy_other|].
  destruct (PyStr.mem k ["walltime"; "cputime"; "memory"; "cpuenergy"]);
    [by apply lookup_insert_ne|].
  case_decide; [by apply lookup_insert_ne|].
  apply lookup_insert_ne. by apply hidden_not_measured.
Qed.

Lemma store_value_same visible acc v key :
  key ∈ ["walltime"; "cputime"; "memory"] ->
  store_one visible acc (key, v) !! key = Some v.
Proof.
  rewrite !elem_of_cons, elem_of_nil.
  intros [->|[->|[->|[]]]]; unfold store_value; simpl; apply lookup_insert_eq.
Qed.

Lemma foldl_store_lookup visible values acc key :
  key ∈ ["walltime"; "cputime"; "memory"] ->
  NoDup values.*1 ->
  foldl (store_one visible) acc values !! key
  = match (list_to_map values : gmap string V) !! key with
    | Some x => Some x
    | None => acc !! key
    end.
Proof.
  intros Hkey. revert acc.
  induction values as [|[k v] values IH]; intros acc Hnd; [done|].
  apply NoDup_cons in Hnd as [Hk Hnd]. simpl. rewrite IH by done.
  destruct (decide (k = key)) as [->|Hne].
  - rewrite lookup_insert_eq.
    rewrite (not_elem_of_list_to_map_1 _ _ Hk). by apply store_value_same.
  - rewrite lookup_insert_ne by done. by rewrite store_value_other.
Qed.



(** X4.  The measured values [walltime], [cputime] and [memory] are kept
    under their own keys: what [self.values] holds for such a key after
    [set_result] is what the results dictionary holds for it. *)
Theorem store_values_measured exitcode values visible key :
  key ∈ ["walltime"; "cputime"; "memory"] ->
  NoDup values.*1 ->
  store exitcode values visible !! key = (list_to_map values : gmap string V) !! key.
Proof.
  intros Hkey Hnd. unfold store_values. rewrite foldl_store_lookup by done.
  destruct (list_to_map values !! key); [done|].
  unfold store_exitcode. destruct exitcode as [ec|]; [|done].
  destruct (PyStr.truthy_int _); rewrite lookup_insert_ne; try done;
    by apply (hidden_not_measured _ key).
Qed.


End ValueFacts.

Lemma store_values_measured_witness :
  Demo.store (Some (Sample.exit_value 0)) Demo.results ∅ !! "cputime"
  = (list_to_map Demo.results : gmap string string) !! "cputime".
Proof.
  refine (store_values_measured string Demo.of_int Demo.is_text Demo.no_energy
            (Some (Sample.exit_value 0)) Demo.results ∅ "cputime" _ _).
  - apply list_elem_of_further, list_elem_of_here.
  - apply (bool_decide_unpack _). vm_compute. exact I.
Defined.


(** ** More on limit resolution *)

Section LimitMore.

Variable parse_timespan_value : string -> parsed.
Variable parse_memory_value : string -> parsed.
Variable int : string -> parsed.

Local Abbreviation resolve :=
  (resolve_limits parse_timespan_value parse_memory_value int).

Lemma effective_value_override attrs key c :
  PyStr.strip c ≠ "-1" -> effective_value attrs key (Some c) = Some c.
Proof.
  intros Hc. unfold effective_value.
  by rewrite (proj2 (String.eqb_neq _ _) Hc).
Qed.

Lemma handle_limit_value_override attrs name key c parse_fn rl log rl' :
  PyStr.strip c ≠ "-1" ->
  handle_limit_value attrs name key (Some c) parse_fn rl = (log, Ok rl') ->
  exists n, parse_fn c = Parsed n /\ 0 < n /\ rl' = <[key := n]> rl.
Proof.
  intros Hc H. apply handle_limit_value_Ok in H as [_ [[He _] | (s & n & He & Hp & Hn & ->)]];
    rewrite effective_value_override in He by done; [done|].
  injection He as <-. by exists n.
Qed.

Lemma handle_limit_value_keys attrs name key cmd parse_fn rl log rl' k :
  handle_limit_value attrs name key cmd parse_fn rl = (log, Ok rl') ->
  is_Some (rl' !! k) -> k = key \/ is_Some (rl !! k).
Proof.
  intros H. apply handle_limit_value_Ok in H as [_ [[_ ->] | (s & n & _ & _ & _ & ->)]].
  - by right.
  - rewrite lookup_insert_is_Some. intros [<-|[_ ?]]; [by left | by right].
Qed.

(** X6.  A memory limit must have a unit: a value that [int] accepts as a
    number makes the resolution of the limits exit. *)
Theorem memory_limit_needs_unit attrs config value n :
  effective_value attrs MEMLIMIT (cfg_memorylimit config) = Some value ->
  int value = Parsed n ->
  exists log msg, resolve attrs config = (log, Fail (SysExit msg)).
Proof.
  intros He Hint. destruct (resolve attrs config) as [log [rl|f]] eqn:E.
  - exfalso. apply resolve_limits_Ok in E as (rl1 & rl2 & rl3 & rl4 & rl5 & H).
    destruct H as (_ & _ & _ & H4 & _).
    apply handle_limit_value_Ok in H4 as [_ [[He' _] | (s & m & He' & Hp & _)]];
      rewrite He in He'; [done|].
    injection He' as <-. unfold parse_memory_limit in Hp. by rewrite Hint in Hp.
  - exists log. destruct (resolve_limits_Fail _ _ _ _ _ _ _ E) as [msg ->]. by exists msg.
Qed.

(** X7.  A value on the command line other than [-1] replaces the value of
    the benchmark definition: the resolved wall-time, memory and core limits
    are the parsed command-line values, and a command-line time limit is the
    resolved time limit, without any soft limit, whatever time limit and hard
    time limit the definition declares. *)
Theorem command_line_overrides attrs config log rl :
  resolve attrs config = (log, Ok rl) ->
  (forall c, cfg_timelimit config = Some c -> PyStr.strip c ≠ "-1" ->
             exists n, parse_timespan_value c = Parsed n
                       /\ rl !! TIMELIMIT = Some n /\ rl !! SOFTTIMELIMIT = None)
  /\ (forall c, cfg_walltimelimit config = Some c -> PyStr.strip c ≠ "-1" ->
                exists n, parse_timespan_value c = Parsed n
                          /\ rl !! WALLTIMELIMIT = Some n)
  /\ (forall c, cfg_memorylimit config = Some c -> PyStr.strip c ≠ "-1" ->
                exists n, parse_memory_value c = Parsed n
                          /\ rl !! MEMLIMIT = Some n)
  /\ (forall c, cfg_corelimit config = Some c -> PyStr.strip c ≠ "-1" ->
                exists n, int c = Parsed n /\ rl !! CORELIMIT = Some n).
Proof.
  intros H. apply resolve_limits_Ok in H as (rl1 & rl2 & rl3 & rl4 & rl5 & H).
  destruct H as (H1 & H2 & H3 & H4 & H5 & H6).
  split; [|split; [|split]].
  - intros c Hc Hs. rewrite Hc in H1, H2.
    apply (handle_limit_value_override _ _ _ _ _ _ _ _ Hs) in H1 as (n & Hp & _ & ->).
    apply (handle_limit_value_override _ _ _ _ _ _ _ _ Hs) in H2 as (n' & Hp' & _ & ->).
    rewrite Hp in Hp'. injection Hp' as <-. exists n. split; [done|].
    assert (E5 : forall k, k ≠ WALLTIMELIMIT -> k ≠ MEMLIMIT -> k ≠ CORELIMIT ->
                   rl5 !! k = (<[HARDTIMELIMIT := n]> (<[TIMELIMIT := n]> ∅) : gmap string Z) !! k).
    { intros k ? ? ?.
      rewrite (handle_limit_value_other _ _ _ _ _ _ _ _ k H5) by done.
      rewrite (handle_limit_value_other _ _ _ _ _ _ _ _ k H4) by done.
      by rewrite (handle_limit_value_other _ _ _ _ _ _ _ _ k H3) by done. }
    unfold reconcile_hardtimelimit in H6.
    rewrite (E5 HARDTIMELIMIT) in H6 by done. rewrite lookup_insert_eq in H6.
    rewrite lookup_delete_ne in H6 by done.
    rewrite (E5 TIMELIMIT) in H6 by done.
    rewrite lookup_insert_ne, lookup_insert_eq in H6 by done.
    rewrite Z.ltb_irrefl in H6.
    rewrite Z.gtb_ltb, Z.ltb_irrefl in H6.
    injection H6 as _ <-.
    rewrite !lookup_delete_ne by done. rewrite (E5 TIMELIMIT), (E5 SOFTTIMELIMIT) by done.
    by simplify_map_eq.
  - intros c Hc Hs. rewrite Hc in H3.
    apply (handle_limit_value_override _ _ _ _ _ _ _ _ Hs) in H3 as (n & Hp & _ & ->).
    exists n. split; [done|].
    rewrite (reconcile_hardtimelimit_other _ _ _ WALLTIMELIMIT H6) by done.
    rewrite (handle_limit_value_other _ _ _ _ _ _ _ _ WALLTIMELIMIT H5) by done.
    rewrite (handle_limit_value_other _ _ _ _ _ _ _ _ WALLTIMELIMIT H4) by done.
    apply lookup_insert_eq.
  - intros c Hc Hs. rewrite Hc in H4.
    apply (handle_limit_value_override _ _ _ _ _ _ _ _ Hs) in H4 as (n & Hp & _ & ->).
    exists n. split.
    { unfold parse_memory_limit in Hp. by destruct (int c). }
    rewrite (reconcile_hardtimelimit_other _ _ _ MEMLIMIT H6) by done.
    rewrite (handle_limit_value_other _ _ _ _ _ _ _ _ MEMLIMIT H5) by done.
    apply lookup_insert_eq.
  - intros c Hc Hs. rewrite Hc in H5.
    apply (handle_limit_value_override _ _ _ _ _ _ _ _ Hs) in H5 as (n & Hp & _ & ->).
    exists n. split; [done|].
    rewrite (reconcile_hardtimelimit_other _ _ _ CORELIMIT H6) by done.
    apply lookup_insert_eq.
Qed.

(** X8.  Resolved limits have no other keys than the time limit, the soft
    time limit, the wall-time limit, the memory limit and the core limit; and
    a soft time limit is only there together with a larger time limit. *)
Theorem resolved_limits_shape attrs config log rl :
  resolve attrs config = (log, Ok rl) ->
  (forall key, is_Some (rl !! key) ->
               key ∈ [TIMELIMIT; SOFTTIMELIMIT; WALLTIMELIMIT; MEMLIMIT; CORELIMIT])
  /\ (forall soft, rl !! SOFTTIMELIMIT = Some soft ->
                   exists primary, rl !! TIMELIMIT = Some primary /\ soft < primary).
Proof.
  intros H. apply resolve_limits_Ok in H as (rl1 & rl2 & rl3 & rl4 & rl5 & H).
  destruct H as (H1 & H2 & H3 & H4 & H5 & H6).
  assert (K5 : forall k, is_Some (rl5 !! k) ->
                 k ∈ [TIMELIMIT; HARDTIMELIMIT; WALLTIMELIMIT; MEMLIMIT; CORELIMIT]).
  { intros k Hk. rewrite !elem_of_cons.
    apply (handle_limit_value_keys _ _ _ _ _ _ _ _ _ H5) in Hk as [->|Hk]; [tauto|].
    apply (handle_limit_value_keys _ _ _ _ _ _ _ _ _ H4) in Hk as [->|Hk]; [tauto|].
    apply (handle_limit_value_keys _ _ _ _ _ _ _ _ _ H3) in Hk as [->|Hk]; [tauto|].
    apply (handle_limit_value_keys _ _ _ _ _ _ _ _ _ H2) in Hk as [->|Hk]; [tauto|].
    apply (handle_limit_value_keys _ _ _ _ _ _ _ _ _ H1) in Hk as [->|Hk]; [tauto|].
    rewrite lookup_empty in Hk. by destruct Hk. }
  assert (S5 : rl5 !! SOFTTIMELIMIT = None).
  { destruct (rl5 !! SOFTTIMELIMIT) eqn:E; [|done].
    assert (Hin : SOFTTIMELIMIT ∈ [TIMELIMIT; HARDTIMELIMIT; WALLTIMELIMIT; MEMLIMIT;
                                   CORELIMIT]) by (apply K5; by eexists).
    rewrite !elem_of_cons, elem_of_nil in Hin.
    destruct Hin as [?|[?|[?|[?|[?|[]]]]]]; discriminate. }
  unfold reconcile_hardtimelimit in H6.
  destruct (rl5 !! HARDTIMELIMIT) as [h|] eqn:Hh.
  - rewrite lookup_delete_ne in H6 by done.
    assert (Kdel : forall k, is_Some (delete HARDTIMELIMIT rl5 !! k) ->
              k ∈ [TIMELIMIT; SOFTTIMELIMIT; WALLTIMELIMIT; MEMLIMIT; CORELIMIT]).
    { intros k. destruct (decide (k = HARDTIMELIMIT)) as [->|Hk].
      - rewrite lookup_delete_eq. by intros [? ?].
      - rewrite lookup_delete_ne by done. intros Hs. apply K5 in Hs.
        rewrite !elem_of_cons, elem_of_nil in *. tauto. }
    destruct (rl5 !! TIMELIMIT) as [t|] eqn:Ht.
    + destruct (Z.ltb_spec h t); [|destruct (Z.gtb_spec h t)]; injection H6 as _ <-.
      * split; [exact Kdel|]. intros soft. rewrite lookup_delete_ne by done.
        by rewrite S5.
      * split.
        { intros k. rewrite !lookup_insert_is_Some.
          intros [<-|[_ [<-|[_ Hk]]]]; [| |by apply Kdel];
            rewrite !elem_of_cons; tauto. }
        intros soft. rewrite lookup_insert_ne, lookup_insert_eq by done.
        intros [= <-]. exists h. by rewrite lookup_insert_eq.
      * split; [exact Kdel|]. intros soft. rewrite lookup_delete_ne by done.
        by rewrite S5.
    + injection H6 as _ <-. split.
      * intros k. rewrite lookup_insert_is_Some.
        intros [<-|[_ Hk]]; [|by apply Kdel]. rewrite !elem_of_cons; tauto.
      * intros soft. rewrite lookup_insert_ne, lookup_delete_ne by done.
        by rewrite S5.
  - injection H6 as _ <-. split.
    + intros k Hk. pose proof (K5 k Hk) as Hin.
      rewrite !elem_of_cons, elem_of_nil in *.
      destruct Hin as [?|[->|?]]; [tauto| |tauto].
      rewrite Hh in Hk. by destruct Hk.
    + intros soft. by rewrite S5.
Qed.

End LimitMore.

Lemma memory_limit_needs_unit_witness :
  exists log msg,
    Sample.limits {[ MEMLIMIT := "1000" ]} Sample.no_overrides
    = (log, Fail (SysExit msg)).
Proof.
  refine (memory_limit_needs_unit Sample.decimal Sample.memory Sample.decimal
            {[ MEMLIMIT := "1000" ]} Sample.no_overrides "1000" 1000 _ _).
  - reflexivity.
  - reflexivity.
Defined.

Lemma command_line_overrides_witness :
  exists n, Sample.decimal "5" = Parsed n
            /\ ({[ TIMELIMIT := 5 ]} : gmap string Z) !! TIMELIMIT = Some n
            /\ ({[ TIMELIMIT := 5 ]} : gmap string Z) !! SOFTTIMELIMIT = None.
Proof.
  refine (proj1 (command_line_overrides Sample.decimal Sample.memory Sample.decimal
                   {[ TIMELIMIT := "10"; HARDTIMELIMIT := "20" ]}
                   {| cfg_timelimit := Some "5"; cfg_walltimelimit := None;
                      cfg_memorylimit := None; cfg_corelimit := None |}
                   [] {[ TIMELIMIT := 5 ]} _) "5" _ _).
  - vm_compute. reflexivity.
  - reflexivity.
  - vm_compute. discriminate.
Defined.

Lemma resolved_limits_shape_witness :
  exists primary,
    ({[ TIMELIMIT := 20; SOFTTIMELIMIT := 10 ]} : gmap string Z) !! TIMELIMIT
    = Some primary
    /\ 10 < primary.
Proof.
  refine (proj2 (resolved_limits_shape Sample.decimal Sample.memory Sample.decimal
                   {[ TIMELIMIT := "10"; HARDTIMELIMIT := "20" ]} Sample.no_overrides
                   [] {[ TIMELIMIT := 20; SOFTTIMELIMIT := 10 ]} _) 10 _).
  - vm_compute. reflexivity.
  - vm_compute. reflexivity.
Defined.

(** ** Requirements *)

Lemma rbind_inr {A B} (m : RM A) (k : A -> RM B) log b :
  rbind m k = (log, inr b) ->
  exists l1 a l2, m = (l1, inr a) /\ k a = (l2, inr b) /\ log = l1 ++ l2.
Proof.
  unfold rbind. destruct m as [l1 [f|a]]; [done|].
  destruct (k a) as [l2 r] eqn:E. intros [= <- ->]. by exists l1, a, l2.
Qed.

Lemma declared_cons field tag tags :
  declared field (tag :: tags) = declared field [tag] ++ declared field tags.
Proof. unfold declared. simpl. by destruct (field tag) as [s|]; [destruct (negb _)|]. Qed.

Lemma declared_one field tag :
  declared field [tag] = []
  \/ exists s, declared field [tag] = [s] /\ field tag = Some s /\ s ≠ "".
Proof.
  unfold declared. simpl. destruct (field tag) as [s|]; [|by left].
  destruct (String.eqb_spec s "") as [->|Hs]; simpl; [by left|].
  right. by exists s.
Qed.

Section RequirementFacts.

Variable int : string -> parsed.
Variable parse_memory_value : string -> parsed.

Local Abbreviation step := (require_tag int parse_memory_value).
Local Abbreviation init := (Requirements_init int parse_memory_value).
Local Abbreviation mem_value := (memory_value int parse_memory_value).

Lemma require_cpu_model_inr self tag log self' :
  require_cpu_model self tag = (log, inr self') ->
  log = [] /\ memory self' = memory self /\ cpu_cores self' = cpu_cores self
  /\ ((declared req_cpuModel [tag] = [] /\ cpu_model self' = cpu_model self)
      \/ exists s, declared req_cpuModel [tag] = [s]
                   /\ cpu_model self = None /\ cpu_model self' = Some s).
Proof.
  unfold require_cpu_model, declared. simpl.
  destruct (req_cpuModel tag) as [s|]; [|intros [= <- <-]; tauto].
  destruct (negb (String.eqb s "")); [|intros [= <- <-]; tauto].
  destruct (cpu_model self) eqn:E; [done|]. intros [= <- <-]. simpl.
  repeat split; try done. right. by exists s.
Qed.

Lemma require_cpu_cores_inr self tag log self' :
  require_cpu_cores int self tag = (log, inr self') ->
  log = [] /\ memory self' = memory self /\ cpu_model self' = cpu_model self
  /\ ((declared req_cpuCores [tag] = [] /\ cpu_cores self' = cpu_cores self)
      \/ exists s n, declared req_cpuCores [tag] = [s]
                     /\ cpu_cores self = None /\ cpu_cores self' = Some n
                     /\ int s = Parsed n).
Proof.
  unfold require_cpu_cores, declared. simpl.
  destruct (req_cpuCores tag) as [s|]; [|intros [= <- <-]; tauto].
  destruct (negb (String.eqb s "")); [|intros [= <- <-]; tauto].
  destruct (cpu_cores self) eqn:E; [done|].
  destruct (int s) as [n|e] eqn:Hn; [|done]. intros [= <- <-]. simpl.
  repeat split; try done. right. by exists s, n.
Qed.

Lemma require_memory_inr self tag log self' :
  require_memory int parse_memory_value self tag = (log, inr self') ->
  log = legacy_warnings int tag
  /\ cpu_cores self' = cpu_cores self /\ cpu_model self' = cpu_model self
  /\ ((declared req_memory [tag] = [] /\ memory self' = memory self)
      \/ exists s v, declared req_memory [tag] = [s]
                     /\ memory self = None /\ memory self' = Some v
                     /\ mem_value s v).
Proof.
  unfold require_memory, legacy_warnings, memory_value, declared. simpl.
  destruct (req_memory tag) as [s|]; [|intros [= <- <-]; tauto].
  destruct (negb (String.eqb s "")); [|intros [= <- <-]; tauto]. simpl.
  destruct (memory self) eqn:E; [done|].
  destruct (int s) as [n|e] eqn:Hn.
  - intros [= <- <-]. simpl. repeat split; try done.
    right. exists s, (n * _BYTE_FACTOR * _BYTE_FACTOR). by rewrite Hn.
  - destruct (parse_memory_value s) as [v|e'] eqn:Hv; [|done].
    intros [= <- <-]. simpl. repeat split; try done.
    right. exists s, v. by rewrite Hn.
Qed.

(** What one tag does to the requirements when it raises nothing. *)
Lemma require_tag_inr self tag log self' :
  step self tag = (log, inr self') ->
  log = legacy_warnings int tag
  /\ ((declared req_cpuModel [tag] = [] /\ cpu_model self' = cpu_model self)
      \/ exists s, declared req_cpuModel [tag] = [s]
                   /\ cpu_model self = None /\ cpu_model self' = Some s)
  /\ ((declared req_cpuCores [tag] = [] /\ cpu_cores self' = cpu_cores self)
      \/ exists s n, declared req_cpuCores [tag] = [s]
                     /\ cpu_cores self = None /\ cpu_cores self' = Some n
                     /\ int s = Parsed n)
  /\ ((declared req_memory [tag] = [] /\ memory self' = memory self)
      \/ exists s v, declared req_memory [tag] = [s]
                     /\ memory self = None /\ memory self' = Some v
                     /\ mem_value s v).
Proof.
  unfold require_tag. intros H.
  apply rbind_inr in H as (l1 & s1 & l1' & H1 & H & ->).
  apply rbind_inr in H as (l2 & s2 & l2' & H2 & H3 & ->).
  apply require_cpu_model_inr in H1 as (-> & Hm1 & Hc1 & Hmodel).
  apply require_cpu_cores_inr in H2 as (-> & Hm2 & Hd2 & Hcores).
  apply require_memory_inr in H3 as (-> & Hc3 & Hd3 & Hmem).
  rewrite Hd3, Hd2, Hc3, <- Hc1. rewrite <- Hm1, <- Hm2. by repeat split.
Qed.

(** The loop over the tags, for one attribute. *)
Lemma rfold_declared {B} (get : Requirements -> option B)
    (field : RequireTag -> option string) (val : string -> B -> Prop) :
  (forall self tag log self',
      step self tag = (log, inr self') ->
      (declared field [tag] = [] /\ get self' = get self)
      \/ exists s b, declared field [tag] = [s]
                     /\ get self = None /\ get self' = Some b /\ val s b) ->
  forall tags self log self',
    rfold step self tags = (log, inr self') ->
    (declared field tags = [] /\ get self' = get self)
    \/ exists s b, declared field tags = [s]
                   /\ get self = None /\ get self' = Some b /\ val s b.
Proof.
  intros Hstep tags. induction tags as [|tag tags IH]; intros self log self'.
  - intros [= <- <-]. by left.
  - rewrite declared_cons. intros H. cbn [rfold] in H.
    apply rbind_inr in H as (l1 & s1 & l2 & H1 & H2 & ->).
    apply Hstep in H1 as [[-> E1] | (s & b & -> & E0 & E1 & Hv)];
      apply IH in H2 as [[-> E2] | (s' & b' & -> & E0' & E2 & Hv')]; simpl.
    + left. split; [done | congruence].
    + right. exists s', b'. repeat split; try done. congruence.
    + right. exists s, b. repeat split; try done. congruence.
    + congruence.
Qed.

Lemma rfold_warnings tags self log self' :
  rfold step self tags = (log, inr self') ->
  log = concat (map (legacy_warnings int) tags).
Proof.
  revert self log. induction tags as [|tag tags IH]; intros self log.
  - by intros [= <- <-].
  - simpl. intros H. apply rbind_inr in H as (l1 & s1 & l2 & H1 & H2 & ->).
    apply require_tag_inr in H1 as [-> _]. by rewrite (IH _ _ H2).
Qed.

Lemma warnings_of_declared tags mem :
  declared req_memory tags = [mem] ->
  concat (map (legacy_warnings int) tags)
  = match int mem with
    | Parsed _ => [legacy_memory_warning mem]
    | ValueError _ => []
    end.
Proof.
  assert (Hnone : forall ts, declared req_memory ts = [] ->
                             concat (map (legacy_warnings int) ts) = []).
  { induction ts as [|t ts IH]; [done|]. rewrite declared_cons.
    intros [E1 E2]%app_eq_nil. cbn [map concat]. rewrite (IH E2).
    unfold legacy_warnings. by rewrite E1. }
  induction tags as [|tag tags IH]; [done|]. rewrite declared_cons.
  cbn [map concat].
  destruct (declared_one req_memory tag) as [E | (s & E & _)].
  - rewrite E. intros H. rewrite (IH H).
    unfold legacy_warnings. by rewrite E.
  - rewrite E. intros [= -> Hts]. rewrite (Hnone _ Hts).
    unfold legacy_warnings. rewrite E. by rewrite app_nil_r.
Qed.

(** The requirements after the loop over the tags. *)
Lemma init_inr tags rlimits config_cpu_model log self' :
  init tags rlimits config_cpu_model = (log, inr self') ->
  exists self,
    rfold step {| cpu_model := None; memory := None; cpu_cores := None |} tags
    = (log, inr self)
    /\ cpu_cores self' = match cpu_cores self with
                         | None => rlimits !! CORELIMIT
                         | Some n => Some n
                         end
    /\ memory self' = match memory self with
                      | None => rlimits !! MEMLIMIT
                      | Some n => Some n
                      end
    /\ cpu_model self' = match config_cpu_model with
                         | Some m => Some m
                         | None => cpu_model self
                         end
    /\ (forall n, cpu_cores self' = Some n -> 0 < n)
    /\ (forall n, memory self' = Some n -> 0 < n).
Proof.
  unfold Requirements_init. intros H.
  apply rbind_inr in H as (l1 & self & l2 & H1 & H & ->).
  apply rbind_inr in H as (l3 & [] & l4 & H3 & H & ->).
  apply rbind_inr in H as (l5 & [] & l6 & H5 & H6 & ->).
  injection H6 as <- <-. exists self. simpl.
  assert (l3 = [] /\ forall n, match cpu_cores self with
                               | None => rlimits !! CORELIMIT
                               | Some n => Some n
                               end = Some n -> 0 < n) as [-> Hc].
  { destruct (match cpu_cores self with None => _ | Some n => _ end) as [n|];
      [|injection H3 as <-; by split].
    destruct (Z.leb_spec n 0); [done|]. injection H3 as <-.
    split; [done|]. by intros ? [= <-]. }
  assert (l5 = [] /\ forall n, match memory self with
                               | None => rlimits !! MEMLIMIT
                               | Some n => Some n
                               end = Some n -> 0 < n) as [-> Hm].
  { destruct (match memory self with None => _ | Some n => _ end) as [n|];
      [|injection H5 as <-; by split].
    destruct (Z.leb_spec n 0); [done|]. injection H5 as <-.
    split; [done|]. by intros ? [= <-]. }
  rewrite !app_nil_r. by repeat split.
Qed.

(** X9.  Requirements that were built have positive values: the number of
    cores and the memory, when present, are greater than zero, also when they
    come from the limits. *)
Theorem requirements_positive tags rlimits config_cpu_model log self :
  init tags rlimits config_cpu_model = (log, inr self) ->
  (forall n, cpu_cores self = Some n -> 0 < n)
  /\ (forall n, memory self = Some n -> 0 < n).
Proof.
  intros H. apply init_inr in H as (? & _ & _ & _ & _ & Hc & Hm). by split.
Qed.

(** X10.  Requirements are built only if the tags declare each of the CPU
    model, the number of cores and the memory at most once; a second
    declaration raises. *)
Theorem requirements_declared_once tags rlimits config_cpu_model log self :
  init tags rlimits config_cpu_model = (log, inr self) ->
  (length (declared req_cpuModel tags) <= 1)%nat
  /\ (length (declared req_cpuCores tags) <= 1)%nat
  /\ (length (declared req_memory tags) <= 1)%nat.
Proof.
  intros H. apply init_inr in H as (self0 & H & _).
  repeat split.
  - destruct (rfold_declared cpu_model req_cpuModel (fun _ _ => True)) with
      (tags := tags) (self := {| cpu_model := None; memory := None; cpu_cores := None |})
      (log := log) (self' := self0) as [[-> _] | (s & b & -> & _)]; simpl; try done; [|lia..].
    intros ? ? ? ? Hs. apply require_tag_inr in Hs as (_ & [?|(s & ? & ? & ?)] & _);
      [by left | right; by exists s, s].
  - destruct (rfold_declared cpu_cores req_cpuCores (fun _ _ => True)) with
      (tags := tags) (self := {| cpu_model := None; memory := None; cpu_cores := None |})
      (log := log) (self' := self0) as [[-> _] | (s & b & -> & _)]; simpl; try done; [|lia..].
    intros ? ? ? ? Hs.
    apply require_tag_inr in Hs as (_ & _ & [?|(s & n & ? & ? & ? & ?)] & _);
      [by left | right; by exists s, n].
  - destruct (rfold_declared memory req_memory (fun _ _ => True)) with
      (tags := tags) (self := {| cpu_model := None; memory := None; cpu_cores := None |})
      (log := log) (self' := self0) as [[-> _] | (s & b & -> & _)]; simpl; try done; [|lia..].
    intros ? ? ? ? Hs.
    apply require_tag_inr in Hs as (_ & _ & _ & [?|(s & n & ? & ? & ? & ?)]);
      [by left | right; by exists s, n].
Qed.

Lemma warnings_none tags :
  declared req_memory tags = [] -> concat (map (legacy_warnings int) tags) = [].
Proof.
  induction tags as [|t ts IH]; [done|]. rewrite declared_cons.
  intros [E1 E2]%app_eq_nil. cbn [map concat]. rewrite (IH E2).
  unfold legacy_warnings. by rewrite E1.
Qed.

Lemma rfold_memory tags self log self' :
  rfold step self tags = (log, inr self') ->
  (declared req_memory tags = [] /\ memory self' = memory self)
  \/ exists s v, declared req_memory tags = [s]
                 /\ memory self = None /\ memory self' = Some v /\ mem_value s v.
Proof.
  apply (rfold_declared memory req_memory mem_value).
  intros ? ? ? ? Hs. by apply require_tag_inr in Hs as (_ & _ & _ & ?).
Qed.

Lemma rfold_cpu_cores tags self log self' :
  rfold step self tags = (log, inr self') ->
  (declared req_cpuCores tags = [] /\ cpu_cores self' = cpu_cores self)
  \/ exists s n, declared req_cpuCores tags = [s]
                 /\ cpu_cores self = None /\ cpu_cores self' = Some n
                 /\ int s = Parsed n.
Proof.
  apply (rfold_declared cpu_cores req_cpuCores (fun s n => int s = Parsed n)).
  intros ? ? ? ? Hs. by apply require_tag_inr in Hs as (_ & _ & ? & _).
Qed.

Lemma rfold_cpu_model tags self log self' :
  rfold step self tags = (log, inr self') ->
  (declared req_cpuModel tags = [] /\ cpu_model self' = cpu_model self)
  \/ exists s m, declared req_cpuModel tags = [s]
                 /\ cpu_model self = None /\ cpu_model self' = Some m /\ m = s.
Proof.
  apply (rfold_declared cpu_model req_cpuModel (fun s m => m = s)).
  intros ? ? ? ? Hs. apply require_tag_inr in Hs as (_ & [?|(s & ? & ? & ?)] & _);
    [by left | right; by exists s, s].
Qed.

(** X11.  The memory requirement: a value without unit that [int] accepts
    counts as megabytes, with one warning; any other declared value is what
    [util.parse_memory_value] makes of it; without a declaration the memory
    limit is the requirement. *)
Theorem requirements_memory tags rlimits config_cpu_model log self :
  init tags rlimits config_cpu_model = (log, inr self) ->
  (forall mem n,
      declared req_memory tags = [mem] -> int mem = Parsed n ->
      memory self = Some (n * 1000 * 1000) /\ log = [legacy_memory_warning mem])
  /\ (forall mem e,
        declared req_memory tags = [mem] -> int mem = ValueError e ->
        exists v, parse_memory_value mem = Parsed v
                  /\ memory self = Some v /\ log = [])
  /\ (declared req_memory tags = [] ->
      memory self = rlimits !! MEMLIMIT /\ log = []).
Proof.
  intros H. apply init_inr in H as (self0 & H & _ & Hmem & _).
  pose proof (rfold_warnings _ _ _ _ H) as Hlog.
  apply rfold_memory in H as [[Hd H0] | (s & v & Hd & _ & H0 & Hv)];
    rewrite H0 in Hmem; rewrite Hd; (split; [|split]); try done.
  - intros _. simpl in Hmem. split; [done|]. by rewrite Hlog, warnings_none.
  - intros mem n [= <-] Hint. unfold memory_value in Hv. rewrite Hint in Hv.
    subst v. split; [done|]. by rewrite Hlog, (warnings_of_declared _ _ Hd), Hint.
  - intros mem e [= <-] Hint. unfold memory_value in Hv. rewrite Hint in Hv.
    exists v. repeat split; try done.
    by rewrite Hlog, (warnings_of_declared _ _ Hd), Hint.
Qed.

(** X12.  The number of cores is the declared one, read by [int], or else
    the core limit; the CPU model is the one of the configuration if there is
    one, whatever the tags declare, or else the declared one. *)
Theorem requirements_cores_and_model tags rlimits config_cpu_model log self :
  init tags rlimits config_cpu_model = (log, inr self) ->
  (forall cores, declared req_cpuCores tags = [cores] ->
                 exists n, int cores = Parsed n /\ cpu_cores self = Some n)
  /\ (declared req_cpuCores tags = [] -> cpu_cores self = rlimits !! CORELIMIT)
  /\ (forall model, config_cpu_model = Some model -> cpu_model self = Some model)
  /\ (config_cpu_model = None ->
      cpu_model self = head (declared req_cpuModel tags)).
Proof.
  intros H. apply init_inr in H as (self0 & H & Hcores & _ & Hmodel & _).
  split; [|split; [|split]].
  - intros cores Hd. apply rfold_cpu_cores in H as [[Hd' _] | (s & n & Hd' & _ & H0 & Hn)];
      rewrite Hd in Hd'; [done|]. injection Hd' as ->.
    exists n. split; [done|]. by rewrite Hcores, H0.
  - intros Hd. apply rfold_cpu_cores in H as [[_ H0] | (s & n & Hd' & _)];
      [|by rewrite Hd in Hd']. by rewrite Hcores, H0.
  - intros model ->. exact Hmodel.
  - intros ->. rewrite Hmodel.
    apply rfold_cpu_model in H as [[-> H0] | (s & m & -> & _ & H0 & ->)]; by rewrite H0.
Qed.

End RequirementFacts.

Lemma requirements_positive_witness : 0 < 8 /\ 0 < 1000000000.
Proof.
  refine (conj
            (proj1 (requirements_positive Sample.decimal Sample.memory
                      [Demo.require None None (Some "1 GB")] {[ CORELIMIT := 8 ]}
                      (Some "AMD") []
                      {| cpu_model := Some "AMD"; memory := Some 1000000000;
                         cpu_cores := Some 8 |} _) 8 _)
            (proj2 (requirements_positive Sample.decimal Sample.memory
                      [Demo.require None None (Some "1 GB")] {[ CORELIMIT := 8 ]}
                      (Some "AMD") []
                      {| cpu_model := Some "AMD"; memory := Some 1000000000;
                         cpu_cores := Some 8 |} _) 1000000000 _));
    vm_compute; reflexivity.
Defined.

Lemma requirements_declared_once_witness :
  (length (declared req_cpuModel [Demo.require (Some "Intel") (Some "4") (Some "512")])
   <= 1)%nat
  /\ (length (declared req_cpuCores [Demo.require (Some "Intel") (Some "4") (Some "512")])
      <= 1)%nat
  /\ (length (declared req_memory [Demo.require (Some "Intel") (Some "4") (Some "512")])
      <= 1)%nat.
Proof.
  refine (requirements_declared_once Sample.decimal Sample.memory
            [Demo.require (Some "Intel") (Some "4") (Some "512")] ∅ None
            [legacy_memory_warning "512"]
            {| cpu_model := Some "Intel"; memory := Some 512000000;
               cpu_cores := Some 4 |} _).
  vm_compute. reflexivity.
Defined.

Lemma requirements_memory_witness :
  Some 512000000 = Some (512 * 1000 * 1000)
  /\ [legacy_memory_warning "512"] = [legacy_memory_warning "512"].
Proof.
  refine (proj1 (requirements_memory Sample.decimal Sample.memory
                   [Demo.require (Some "Intel") (Some "4") (Some "512")] ∅ None
                   [legacy_memory_warning "512"]
                   {| cpu_model := Some "Intel"; memory := Some 512000000;
                      cpu_cores := Some 4 |} _) "512" 512 _ _).
  - vm_compute. reflexivity.
  - reflexivity.
  - reflexivity.
Defined.

Lemma requirements_cores_and_model_witness :
  Some 8 = ({[ CORELIMIT := 8 ]} : gmap string Z) !! CORELIMIT.
Proof.
  refine (proj1 (proj2 (requirements_cores_and_model Sample.decimal Sample.memory
            [Demo.require None None (Some "1 GB")] {[ CORELIMIT := 8 ]} (Some "AMD") []
            {| cpu_model := Some "AMD"; memory := Some 1000000000;
               cpu_cores := Some 8 |} _)) _).
  - vm_compute. reflexivity.
  - reflexivity.
Defined.

(** Two tags that both declare the number of cores. *)
Example requirements_double_cores :
  Demo.requirements [Demo.require None (Some "4") None; Demo.require None (Some "2") None]
    ∅ None
  = ([], inl (Exception "Double specification of required CPU cores.")).
Proof. reflexivity. Qed.

(** ** More on task sets *)

Lemma sat_top {A} (m : M A) : sat (fun _ => True) (fun _ => True) (fun _ => True) m.
Proof.
  split; [by apply Forall_forall | by destruct (result_of m)].
Qed.

Lemma sat_Fail {A} P (Q : A -> Prop) F m log f :
  sat P Q F m -> m = (log, Fail f) -> F f.
Proof. intros [_ H] ->. exact H. Qed.

Lemma sat_trace {A} P (Q : A -> Prop) F m : sat P Q F m -> Forall P (trace m).
Proof. by intros [H _]. Qed.

Section TaskSetMore.

Variable abspath basename dirname : string -> string.
Variable util_substitute_vars : string -> list (string * string) -> string.
Variable util_expand_filename_pattern : string -> string -> list string.
Variable is_code : string -> bool.
Variable is_comment : string -> bool.
Variable file_lines : string -> option (list string).

Local Abbreviation expand :=
  (expand_filename_pattern abspath basename dirname util_substitute_vars
     util_expand_filename_pattern).
Local Abbreviation matches :=
  (expansion abspath basename dirname util_substitute_vars
     util_expand_filename_pattern).
Local Abbreviation task_def_files :=
  (get_task_def_files_from_xml abspath basename dirname util_substitute_vars
     util_expand_filename_pattern is_code is_comment file_lines).

Lemma or_dot_nonempty s : or_dot s ≠ "".
Proof. unfold or_dot. by destruct (String.eqb_spec s ""). Qed.

(** X13.  The variables that [substitute_vars] replaces: no key is used
    twice, so its assertion never fails and there is one result for each
    string of the list; a variable whose name ends in [_path] never has
    the empty string as value; and a task-definition file gets no
    [inputfile_] variable, any other file no [taskdef_] variable. *)
Theorem substitute_vars_keys oldList runSet task_file :
  NoDup (map fst (keyValueList abspath basename dirname runSet task_file))
  /\ length (substitute_vars abspath basename dirname util_substitute_vars
               oldList runSet task_file) = length oldList
  /\ (forall k v, (k, v) ∈ keyValueList abspath basename dirname runSet task_file ->
                  PyStr.endswith k "_path" = true -> v ≠ "")
  /\ (forall tf k v,
        task_file = Some tf ->
        (k, v) ∈ keyValueList abspath basename dirname runSet task_file ->
        startswith k (if PyStr.endswith tf ".yml" then "inputfile_" else "taskdef_")
        = false).
Proof.
  split; [|split; [|split]].
  - unfold keyValueList, task_vars, var_prefix.
    destruct runSet as [rs|], task_file as [tf|]; simpl;
      try destruct (negb (String.eqb tf ""));
      try destruct (PyStr.endswith tf ".yml");
      apply (bool_decide_unpack _); vm_compute; exact I.
  - unfold substitute_vars. apply length_map.
  - intros k v Hin Hk. unfold keyValueList, runset_vars, task_vars, var_prefix in Hin.
    apply elem_of_app in Hin as [Hin|Hin].
    + destruct runSet as [rs|]; [|by apply elem_of_nil in Hin].
      repeat (apply elem_of_cons in Hin as [[= -> ->]|Hin]);
        try (vm_compute in Hk; discriminate Hk);
        try apply or_dot_nonempty.
      by apply elem_of_nil in Hin.
    + destruct task_file as [tf|]; [|by apply elem_of_nil in Hin].
      destruct (PyStr.truthy (Some tf)); [|by apply elem_of_nil in Hin].
      destruct (PyStr.endswith tf ".yml");
        repeat (apply elem_of_cons in Hin as [[= -> ->]|Hin]);
        try (vm_compute in Hk; discriminate Hk);
        try apply or_dot_nonempty;
        by apply elem_of_nil in Hin.
  - intros tf k v -> Hin. unfold keyValueList, runset_vars, task_vars, var_prefix in Hin.
    apply elem_of_app in Hin as [Hin|Hin].
    + destruct runSet as [rs|]; [|by apply elem_of_nil in Hin].
      repeat (apply elem_of_cons in Hin as [[= -> ->]|Hin]);
        try (by destruct (PyStr.endswith tf ".yml"));
        by apply elem_of_nil in Hin.
    + destruct (PyStr.truthy (Some tf)); [|by apply elem_of_nil in Hin].
      destruct (PyStr.endswith tf ".yml");
        repeat (apply elem_of_cons in Hin as [[= -> ->]|Hin]);
        try (vm_compute; reflexivity);
        by apply elem_of_nil in Hin.
Qed.

(** X14.  Expanding a pattern never fails and gives the sorted matches of
    the substituted pattern; the only glob is that of the substituted
    pattern in the given directory; the warning that no files were found,
    which names the pattern as [%r] prints it, is logged exactly when
    nothing matches, and the debug message about expanded variables exactly
    when the substitution changes the pattern. *)
Theorem expand_warns_when_empty self pattern base_dir sourcefile :
  exists log,
    expand self pattern base_dir sourcefile
    = (log, Ok (matches self pattern base_dir sourcefile))
    /\ (forall p b,
          EvGlob p b ∈ log <->
          p = util_substitute_vars pattern
                (keyValueList abspath basename dirname (Some self) sourcefile)
          /\ b = base_dir)
    /\ (EvWarning ("No files found matching " +:+ py_repr pattern +:+ ".") ∈ log
        <-> matches self pattern base_dir sourcefile = [])
    /\ (EvDebug ("Expanded variables in expression " +:+ py_repr pattern +:+ " to "
                 +:+ py_repr (util_substitute_vars pattern
                                (keyValueList abspath basename dirname (Some self)
                                   sourcefile)) +:+ ".") ∈ log
        <-> util_substitute_vars pattern
              (keyValueList abspath basename dirname (Some self) sourcefile)
            ≠ pattern).
Proof.
  unfold expand_filename_pattern, substitute_vars, expansion. cbn [map].
  set (p' := util_substitute_vars pattern _).
  set (l := sort (util_expand_filename_pattern p' base_dir)).
  set (warning := EvWarning _). set (debug := EvDebug _).
  destruct (decide (p' ≠ pattern)) as [Hp|Hp], (decide (l = [])) as [Hl|Hl];
    eexists; (split; [reflexivity|]); cbn [bind emit ret app fst snd]; split;
    try (intros p b; rewrite !elem_of_cons, elem_of_nil; split;
         [intros H; repeat (destruct H as [H|H]; try done); by injection H
         |intros [-> ->]; tauto]);
    rewrite !elem_of_cons, ?elem_of_nil; split; split; try tauto;
    intros H; repeat (destruct H as [H|H]; try done).
Qed.

(** X15.  A block without list files, each of whose [include] and
    [exclude] tags has a text, is expanded without failure, and nothing but
    logging and globbing happens: no file is checked for code, opened, or
    parsed. *)
Theorem task_def_files_without_list_files self tag base_dir :
  tag_includesfile tag = [] ->
  tag_excludesfile tag = [] ->
  exists log l,
    task_def_files self tag base_dir = (log, Ok l) /\ Forall plain log.
Proof.
  intros Hi He.
  assert (H : sat plain (fun _ => True) (fun _ => False)
                (task_def_files self tag base_dir)).
  { unfold get_task_def_files_from_xml. rewrite Hi, He.
    eapply (sat_bind _ (fun _ => True)).
    { eapply sat_weaken; [apply include_patterns_sat | done | done | done]. }
    intros acc1 _. eapply (sat_bind _ (fun _ => True)); [by apply sat_ret|].
    intros acc2 _. eapply (sat_bind _ (fun _ => True)).
    { eapply sat_weaken; [apply exclude_patterns_sat | done | done | done]. }
    intros acc3 _. by apply sat_ret. }
  destruct H as [Ht Hr].
  destruct (task_def_files self tag base_dir) as [log [l|f]]; [|done].
  by exists log, l.
Qed.

End TaskSetMore.

Lemma task_def_files_without_list_files_witness :
  exists log l,
    Sample.task_def_files (Sample.tasks ["*.c"] [] ["b.c"]) = (log, Ok l)
    /\ Forall plain log.
Proof.
  refine (task_def_files_without_list_files Sample.same Sample.same Sample.here
            Sample.no_substitution Sample.glob Sample.is_code Sample.is_comment
            Sample.file_lines Sample.runSet (Sample.tasks ["*.c"] [] ["b.c"]) "" _ _).
  - reflexivity.
  - reflexivity.
Defined.

(** ** More on runs *)

Lemma foldl_union_acc {A} (g : A -> gset string) (acc : gset string) xs :
  acc ⊆ foldl (fun acc x => acc ∪ g x) acc xs.
Proof.
  revert acc. induction xs as [|x xs IH]; intros acc; simpl; [done|].
  etrans; [|apply IH]. apply union_subseteq_l.
Qed.

Lemma foldl_union_elem {A} (g : A -> gset string) (acc : gset string) xs x :
  x ∈ xs -> g x ⊆ foldl (fun acc x => acc ∪ g x) acc xs.
Proof.
  revert acc. induction xs as [|y xs IH]; intros acc Hx; simpl.
  - by apply elem_of_nil in Hx.
  - apply elem_of_cons in Hx as [->|Hx]; [|by apply IH].
    etrans; [|apply foldl_union_acc]. apply union_subseteq_r.
Qed.

Section RunMore.

Variable abspath basename dirname : string -> string.
Variable relpath : string -> string -> string.
Variable isfile : string -> bool.
Variable samefile : string -> string -> bool.
Variable util_substitute_vars : string -> list (string * string) -> string.
Variable util_expand_filename_pattern : string -> string -> list string.
Variable util_get_files : list string -> list string.
Variable yaml_load : string -> yaml_result.
Variable Property_create : string -> bool -> Property + string.
Variable expected_results_of_file : string -> gmap string ExpectedResult.

Local Abbreviation matches :=
  (expansion abspath basename dirname util_substitute_vars
     util_expand_filename_pattern).
Local Abbreviation init :=
  (Run_init abspath basename dirname relpath isfile util_substitute_vars
     util_expand_filename_pattern).
Local Abbreviation load := (load_task_definition_file yaml_load).
Local Abbreviation expand_patterns :=
  (expand_patterns_from_tag dirname util_expand_filename_pattern).
Local Abbreviation from_task_definition :=
  (create_run_from_task_definition abspath basename dirname relpath isfile samefile
     util_substitute_vars util_expand_filename_pattern yaml_load Property_create).
Local Abbreviation for_input_file :=
  (create_run_for_input_file abspath basename dirname relpath isfile
     util_substitute_vars util_expand_filename_pattern util_get_files
     Property_create expected_results_of_file).


Lemma load_task_definition_file_Ok task_def_file log task_def :
  load task_def_file = (log, Ok task_def) ->
  yaml_load task_def_file = YamlDoc task_def
  /\ td_format_version task_def ∈ ["0.1"; "1.0"].
Proof.
  unfold load_task_definition_file.
  destruct (yaml_load task_def_file) as [e|e|d|]; [done|done| |done].
  destruct (PyStr.mem (td_format_version d) ["0.1"; "1.0"]) eqn:Hv; [|done].
  intros [= _ <-]. by apply mem_true in Hv.
Qed.

Lemma expand_task_pattern_sat task_def_file acc pattern :
  sat plain
    (fun r => util_expand_filename_pattern pattern (dirname task_def_file) ≠ []
              /\ r = acc ++ sort (util_expand_filename_pattern pattern
                                    (dirname task_def_file)))
    (fun f => exists msg, f = BenchExecException msg)
    (expand_task_pattern dirname util_expand_filename_pattern task_def_file acc
       pattern).
Proof.
  unfold expand_task_pattern, glob.
  eapply (sat_bind _ (fun l => l = util_expand_filename_pattern pattern
                                    (dirname task_def_file))).
  - eapply (sat_bind _ (fun _ => True)); [by apply sat_emit | intros _ _; by apply sat_ret].
  - intros ? ->. case_decide as He; [apply sat_fail; by eexists | by apply sat_ret].
Qed.

Lemma expand_patterns_fold task_def_file patterns acc :
  (forall p, p ∈ patterns ->
             util_expand_filename_pattern p (dirname task_def_file) ≠ []) ->
  result_of (foldM (expand_task_pattern dirname util_expand_filename_pattern
                      task_def_file) acc patterns)
  = Ok (acc ++ concat (map (fun p => sort (util_expand_filename_pattern p
                                             (dirname task_def_file))) patterns)).
Proof.
  revert acc. induction patterns as [|p patterns IH]; intros acc Hall; simpl.
  - by rewrite app_nil_r.
  - unfold expand_task_pattern at 1. unfold glob. simpl.
    rewrite decide_False by (apply Hall, list_elem_of_here). simpl.
    specialize (IH (acc ++ sort (util_expand_filename_pattern p (dirname task_def_file)))).
    rewrite <- app_assoc in IH.
    destruct (foldM _ _ patterns) as [l r] eqn:E. simpl in *.
    apply IH. intros q Hq. apply Hall. by apply list_elem_of_further.
Qed.

(** X17.  The patterns of a task definition: when every pattern matches a
    path, the result is the concatenation of the sorted matches, in the order
    of the patterns; a pattern that matches nothing raises a
    [BenchExecException]. *)
Theorem expand_patterns_from_tag_spec task_def_file patterns :
  ((forall p, p ∈ patterns ->
              util_expand_filename_pattern p (dirname task_def_file) ≠ []) ->
   result_of (expand_patterns task_def_file patterns)
   = Ok (concat (map (fun p => sort (util_expand_filename_pattern p
                                       (dirname task_def_file))) patterns)))
  /\ (forall p, p ∈ patterns ->
                util_expand_filename_pattern p (dirname task_def_file) = [] ->
                exists msg,
                  result_of (expand_patterns task_def_file patterns)
                  = Fail (BenchExecException msg)).
Proof.
  unfold expand_patterns_from_tag. split.
  - intros Hall. by rewrite expand_patterns_fold.
  - intros p Hp Hempty.
    assert (H : sat plain (fun _ : list string => False)
                  (fun f => exists msg, f = BenchExecException msg)
                  (foldM (expand_task_pattern dirname util_expand_filename_pattern
                            task_def_file) [] patterns)).
    { apply (sat_foldM_fails _ _ _ _ _ p Hp).
      - intros acc q _.
        eapply sat_weaken; [apply expand_task_pattern_sat | done | done | done].
      - intros acc.
        eapply sat_weaken; [apply expand_task_pattern_sat | done | | done].
        by intros r [Hne _]. }
    destruct H as [_ H]. destruct (result_of _) as [l|f]; [done|].
    destruct H as [msg ->]. by exists msg.
Qed.

(** The resolution of the property file never fails. *)
Lemma resolve_propertyfile_total runSet identifier propertyfile :
  sat plain (fun _ => True) (fun _ => False)
    (resolve_propertyfile abspath basename dirname isfile util_substitute_vars
       util_expand_filename_pattern runSet identifier propertyfile).
Proof.
  unfold resolve_propertyfile.
  destruct (py_or propertyfile (rs_propertyfile runSet)) as [pf|].
  - eapply (sat_bind _ (fun _ => True)); [apply glob_sat|].
    intros expanded _. unfold substitute_vars. cbn [map].
    destruct expanded as [|first rest].
    + destruct (isfile _); [by apply sat_ret|].
      eapply (sat_bind _ (fun _ => True)); [by apply sat_emit|].
      intros _ _. by apply sat_ret.
    + eapply (sat_bind _ (fun _ => True)).
      { case_decide; [by apply sat_emit | by apply sat_ret]. }
      intros _ _. by apply sat_ret.
  - eapply (sat_bind _ (fun _ => True)); [by apply sat_emit|].
    intros _ _. by apply sat_ret.
Qed.

Lemma Run_init_fields_sat identifier sourcefiles fileOptions runSet propertyfile
    patterns required_files :
  sat plain
    (fun run =>
       identifier ≠ ""
       /\ run_identifier run = identifier
       /\ run_sourcefiles run = sourcefiles
       /\ run_specific_options run = fileOptions
       /\ run_expected_results run = ∅
       /\ run_properties run = []
       /\ (forall f, f ∈ required_files -> f ∈ run_required_files run)
       /\ (forall pattern f,
             pattern ∈ patterns ->
             f ∈ matches runSet pattern (b_base_dir (rs_benchmark runSet))
                   (Some (relpath identifier (b_base_dir (rs_benchmark runSet)))) ->
             f ∈ run_required_files run)
       /\ (forall pf, run_propertyfile run = Some pf -> pf ≠ "" ->
                      pf ∈ run_required_files run))
    (fun f => f = AssertionError /\ identifier = "")
    (init identifier sourcefiles fileOptions runSet propertyfile patterns
       required_files).
Proof.
  unfold Run_init.
  destruct (String.eqb_spec identifier "") as [->|Hid]; [by apply sat_fail|].
  set (base := b_base_dir (rs_benchmark runSet)).
  set (g := fun pattern : string =>
              (list_to_set (matches runSet pattern base
                              (Some (relpath identifier base))) : gset string)).
  eapply (sat_bind _ (fun r => r = foldl (fun acc p => acc ∪ g p)
                                     (list_to_set required_files)
                                     (elements patterns))).
  { apply sat_foldM_foldl. intros acc pattern _.
    eapply sat_bind;
      [eapply sat_weaken; [apply expand_sat | done | intros l H; exact H | done]|].
    intros ? ->.
    eapply (sat_bind _ (fun _ => True)).
    - case_decide; [by apply sat_emit | by apply sat_ret].
    - intros _ _. by apply sat_ret. }
  intros required ->.
  eapply (sat_bind _ (fun _ => True)).
  { eapply sat_weaken; [apply resolve_propertyfile_total | done | done | done]. }
  intros pf _. apply sat_ret. simpl.
  assert (Hsub : forall x (S : gset string),
            x ∈ S -> x ∈ match pf with
                         | Some pf0 => if PyStr.truthy pf then S ∪ {[pf0]} else S
                         | None => S
                         end).
  { intros x S Hx. destruct pf as [pf0|]; [|done].
    destruct (PyStr.truthy _); [|done]. apply elem_of_union. by left. }
  repeat split; try done.
  - intros f Hf. apply Hsub.
    apply (foldl_union_acc g (list_to_set required_files) (elements patterns)).
    by apply elem_of_list_to_set.
  - intros pattern f Hp Hf. apply Hsub.
    apply (foldl_union_elem g (list_to_set required_files) (elements patterns) pattern).
    + by apply elem_of_elements.
    + unfold g. by apply elem_of_list_to_set.
  - intros pf0 -> Hne. rewrite (proj2 (truthy_Some pf0) Hne).
    apply elem_of_union. right. by apply elem_of_singleton.
Qed.

(** X18.  A run needs an identifier: [Run.__init__] fails its assertion
    exactly for the empty identifier.  Otherwise the run is built, with
    logging and globbing only; it has the given identifier, input files and
    options and no expected result yet, and its required files contain the
    given required files, the matches of every required-files pattern and the
    resolved property file. *)
Theorem Run_init_fields identifier sourcefiles fileOptions runSet propertyfile
    patterns required_files :
  (identifier = "" ->
   init identifier sourcefiles fileOptions runSet propertyfile patterns required_files
   = ([], Fail AssertionError))
  /\ (identifier ≠ "" ->
      exists log run,
        init identifier sourcefiles fileOptions runSet propertyfile patterns
          required_files = (log, Ok run)
        /\ Forall plain log
        /\ run_identifier run = identifier
        /\ run_sourcefiles run = sourcefiles
        /\ run_specific_options run = fileOptions
        /\ run_expected_results run = ∅
        /\ (forall f, f ∈ required_files -> f ∈ run_required_files run)
        /\ (forall pattern f,
              pattern ∈ patterns ->
              f ∈ matches runSet pattern (b_base_dir (rs_benchmark runSet))
                    (Some (relpath identifier (b_base_dir (rs_benchmark runSet)))) ->
              f ∈ run_required_files run)
        /\ (forall pf, run_propertyfile run = Some pf -> pf ≠ "" ->
                       pf ∈ run_required_files run)).
Proof.
  split.
  - intros ->. reflexivity.
  - intros Hid.
    destruct (Run_init_fields_sat identifier sourcefiles fileOptions runSet
                propertyfile patterns required_files) as [Ht Hr].
    destruct (init identifier sourcefiles fileOptions runSet propertyfile patterns
                required_files) as [log [run|f]]; simpl in *.
    + exists log, run. destruct Hr as (_ & ? & ? & ? & ? & _ & ? & ? & ?).
      by repeat split.
    + by destruct Hr as [_ ?].
Qed.

Lemma Run_init_Ok identifier sourcefiles fileOptions runSet propertyfile
    patterns required_files log run :
  init identifier sourcefiles fileOptions runSet propertyfile patterns required_files
  = (log, Ok run) ->
  run_identifier run = identifier /\ run_sourcefiles run = sourcefiles
  /\ run_expected_results run = ∅ /\ run_properties run = [].
Proof.
  intros H.
  pose proof (sat_Ok _ _ _ _ _ _ (Run_init_fields_sat identifier sourcefiles
                fileOptions runSet propertyfile patterns required_files) H)
    as (_ & ? & ? & _ & ? & ? & _).
  done.
Qed.

(** X19.  A run for a plain input file has the input file as identifier;
    its input files are what [util.get_files] makes of the input file
    followed by the sorted matches of the append patterns, which are globbed
    in the directory of the input file; and it has at most one expected
    result. *)
Theorem create_run_for_input_file_fields self input_file options property_file
    patterns append_file_tags log run :
  create_run_for_input_file abspath basename dirname relpath isfile
    util_substitute_vars util_expand_filename_pattern util_get_files
    Property_create expected_results_of_file
    self input_file options property_file patterns append_file_tags
  = (log, Ok run) ->
  run_identifier run = input_file
  /\ run_sourcefiles run
     = util_get_files
         (input_file
          :: concat (map (fun append_file =>
                            matches self append_file (dirname input_file)
                              (Some input_file))
                       append_file_tags))
  /\ (size (run_expected_results run) <= 1)%nat.
Proof.
  unfold create_run_for_input_file. intros H.
  apply bind_Ok in H as (l1 & input_files & l2 & H1 & H & ->).
  assert (Hin : input_files
                = [input_file]
                  ++ concat (map (fun a => matches self a (dirname input_file)
                                             (Some input_file)) append_file_tags)).
  { refine (sat_Ok plain (fun r => r = _) (fun _ => False) _ _ _ _ H1).
    eapply sat_weaken;
      [apply (sat_foldM_foldl plain (fun _ => False) _
                (fun acc a => acc ++ matches self a (dirname input_file)
                                       (Some input_file)))
      | done | | done].
    - intros acc a _. eapply sat_bind; [apply expand_sat|].
      intros ? ->. by apply sat_ret.
    - intros r ->. apply foldl_append. }
  subst input_files.
  apply bind_Ok in H as (l3 & run0 & l4 & H3 & H & ->).
  apply Run_init_Ok in H3 as (Hid & Hsrc & Hexp & _).
  destruct (run_propertyfile run0) as [pf|]; [|injection H as _ <-].
  - destruct (negb _); [injection H as _ <-|].
    + rewrite Hexp, map_size_empty. repeat split; try done. lia.
    + destruct (Property_create pf false) as [prop|e]; [|done].
      destruct (_ !! _); injection H as _ <-; simpl; rewrite Hexp.
      * rewrite insert_empty, map_size_singleton. by repeat split.
      * rewrite map_size_empty. repeat split; try done. lia.
  - rewrite Hexp, map_size_empty. repeat split; try done. lia.
Qed.

(** The property loop changes nothing but the expected results, and these
    only under the file name of the property. *)
Lemma match_property_fields task_def_file prop props run :
  dom (run_expected_results run) ⊆ {[ prop_filename prop ]} ->
  sat (fun _ => True)
    (fun run' =>
       run_identifier run' = run_identifier run
       /\ run_sourcefiles run' = run_sourcefiles run
       /\ run_propertyfile run' = run_propertyfile run
       /\ run_properties run' = run_properties run
       /\ dom (run_expected_results run') ⊆ ({[ prop_filename prop ]} : gset string))
    (fun _ => True)
    (foldM (match_property dirname samefile util_expand_filename_pattern
              task_def_file prop) run props).
Proof.
  intros Hrun. apply sat_foldM; [done|].
  intros run' prop_dict _ (Hi & Hs & Hp & Hps & Hd). unfold match_property.
  destruct prop_dict as [|property_file expected_verdict subproperty];
    [by apply sat_fail|].
  eapply (sat_bind _ (fun _ => True)).
  { eapply sat_weaken; [apply glob_sat | done | done | done]. }
  intros expanded _. destruct expanded as [|expanded0 [|]]; try by apply sat_fail.
  destruct (_ || _); [|by apply sat_ret].
  destruct expected_verdict; [| |by apply sat_fail];
    apply sat_ret; simpl; rewrite dom_insert_L; repeat split; try done;
    by apply union_least.
Qed.

(** X20.  A run that is built from a task-definition file has that file as
    identifier; its input files are the sorted matches of the input-file
    patterns of the parsed task definition and are not empty; and when it has
    a property file, it has exactly one expected result, stored under the file
    name of the property, else it has none. *)
Theorem create_run_from_task_definition_fields self task_def_file options
    propertyfile patterns log run :
  from_task_definition self task_def_file options propertyfile patterns
  = (log, Ok (Some run)) ->
  run_identifier run = task_def_file
  /\ run_sourcefiles run ≠ []
  /\ (exists task_def,
        yaml_load task_def_file = YamlDoc task_def
        /\ td_format_version task_def ∈ ["0.1"; "1.0"]
        /\ run_sourcefiles run
           = concat (map (fun p => sort (util_expand_filename_pattern p
                                           (dirname task_def_file)))
                       (td_input_files task_def)))
  /\ (PyStr.truthy (run_propertyfile run) = false -> run_expected_results run = ∅)
  /\ (forall pf, run_propertyfile run = Some pf -> pf ≠ "" ->
                 exists prop,
                   Property_create pf true = inl prop
                   /\ run_properties run = [prop]
                   /\ dom (run_expected_results run)
                      = ({[ prop_filename prop ]} : gset string)).
Proof.
  unfold create_run_from_task_definition. intros H.
  apply bind_Ok in H as (l1 & task_def & l2 & H1 & H & ->).
  pose proof (load_task_definition_file_Ok _ _ _ H1) as [Hyaml Hversion].
  apply bind_Ok in H as (l3 & input_files & l4 & H3 & H & ->).
  assert (Hin : input_files
                = concat (map (fun p => sort (util_expand_filename_pattern p
                                                (dirname task_def_file)))
                            (td_input_files task_def))).
  { refine (sat_Ok plain (fun r => r = _) (fun _ => True) _ _ _ _ H3).
    eapply sat_weaken;
      [apply (sat_foldM_foldl plain (fun f => exists msg, f = BenchExecException msg) _
                (fun acc p => acc ++ sort (util_expand_filename_pattern p
                                             (dirname task_def_file))))
      | done | | done].
    - intros acc p _.
      eapply sat_weaken; [apply expand_task_pattern_sat | done | | done].
      by intros r [_ ->].
    - intros r ->. by rewrite foldl_append. }
  case_decide as Hne; [done|].
  apply bind_Ok in H as (l5 & required & l6 & _ & H & ->).
  apply bind_Ok in H as (l7 & run0 & l8 & H7 & H & ->).
  apply Run_init_Ok in H7 as (Hid & Hsrc & Hexp & Hprops).
  destruct (run_propertyfile run0) as [pf|] eqn:Hpf.
  - destruct (negb (PyStr.truthy (Some pf))) eqn:Htruthy.
    + injection H as _ <-. rewrite Hpf, Hid, Hsrc.
      repeat split; try done.
      * exists task_def. by rewrite <- Hin.
      * intros pf' [= <-] Hpf'. apply truthy_Some in Hpf'.
        by rewrite Hpf' in Htruthy.
    + destruct (Property_create pf true) as [prop|e] eqn:Hprop; [|done].
      apply bind_Ok in H as (l9 & run1 & l10 & H9 & H & ->).
      assert (Hfields :
                run_identifier run1 = run_identifier run0
                /\ run_sourcefiles run1 = run_sourcefiles run0
                /\ run_propertyfile run1 = run_propertyfile run0
                /\ run_properties run1 = [prop]
                /\ dom (run_expected_results run1)
                   ⊆ ({[ prop_filename prop ]} : gset string)).
      { refine (sat_Ok _ (fun r => _ /\ _ /\ _ /\ _ /\ _) _ _ _ _
                  (match_property_fields task_def_file prop
                     (td_properties task_def) (set_properties run0 [prop]) _) H9).
        simpl. rewrite Hexp, dom_empty_L. apply empty_subseteq. }
      destruct Hfields as (Hid1 & Hsrc1 & Hpf1 & Hprops1 & Hdom).
      case_decide as Hsize; [by apply bind_Ok in H as (? & ? & ? & _ & [=] & _)|].
      case_decide; [done|]. injection H as _ <-.
      rewrite Hid1, Hsrc1, Hpf1, Hpf, Hid, Hsrc. repeat split; try done.
      * exists task_def. by rewrite <- Hin.
      * intros Hfalse. by rewrite Hfalse in Htruthy.
      * intros pf' [= <-] _. exists prop. repeat split; try done.
        apply set_eq. intros k. split; [apply Hdom|].
        intros ->%elem_of_singleton.
        destruct (decide (prop_filename prop ∈ dom (run_expected_results run1)))
          as [?|Hnot]; [done|].
        exfalso. apply Hsize. apply map_size_empty_iff, map_eq. intros k.
        rewrite lookup_empty. apply not_elem_of_dom. intros Hk.
        apply Hnot. by rewrite <- (elem_of_singleton_1 _ _ (Hdom _ Hk)).
  - injection H as _ <-. rewrite Hpf, Hid, Hsrc. repeat split; try done.
    exists task_def. by rewrite <- Hin.
Qed.

Lemma create_run_for_input_file_identifier self input_file options property_file
    patterns append_file_tags log run :
  for_input_file self input_file options property_file patterns append_file_tags
  = (log, Ok run) ->
  run_identifier run = input_file.
Proof.
  unfold create_run_for_input_file. intros H.
  apply bind_Ok in H as (l1 & input_files & l2 & _ & H & ->).
  apply bind_Ok in H as (l3 & run0 & l4 & H3 & H & ->).
  apply Run_init_Ok in H3 as (Hid & _).
  destruct (run_propertyfile run0) as [pf|]; [|by injection H as _ <-].
  destruct (negb _); [by injection H as _ <-|].
  destruct (Property_create pf false) as [prop|e]; [|done].
  destruct (_ !! _); by injection H as _ <-.
Qed.

Lemma create_run_from_task_definition_identifier self task_def_file options
    propertyfile patterns log run :
  from_task_definition self task_def_file options propertyfile patterns
  = (log, Ok (Some run)) ->
  run_identifier run = task_def_file.
Proof.
  unfold create_run_from_task_definition. intros H.
  apply bind_Ok in H as (l1 & task_def & l2 & _ & H & ->).
  apply bind_Ok in H as (l3 & input_files & l4 & _ & H & ->).
  case_decide as Hne; [done|].
  apply bind_Ok in H as (l5 & required & l6 & _ & H & ->).
  apply bind_Ok in H as (l7 & run0 & l8 & H7 & H & ->).
  apply Run_init_Ok in H7 as (Hid & _ & Hexp & _).
  destruct (run_propertyfile run0) as [pf|]; [|by injection H as _ <-].
  destruct (negb (PyStr.truthy (Some pf))); [by injection H as _ <-|].
  destruct (Property_create pf true) as [prop|e]; [|done].
  apply bind_Ok in H as (l9 & run1 & l10 & H9 & H & ->).
  assert (Hid1 : run_identifier run1 = run_identifier run0).
  { refine (proj1 (sat_Ok _ (fun r => _ /\ _ /\ _ /\ _ /\ _) _ _ _ _
                     (match_property_fields task_def_file prop
                        (td_properties task_def) (set_properties run0 [prop]) _) H9)).
    simpl. rewrite Hexp, dom_empty_L. apply empty_subseteq. }
  case_decide; [by apply bind_Ok in H as (? & ? & ? & _ & [=] & _)|].
  case_decide; [done|]. injection H as _ <-. by rewrite Hid1.
Qed.

End RunMore.

Lemma create_run_for_input_file_fields_witness :
  exists log run,
    create_run_for_input_file Sample.same Sample.same Sample.here Sample.relpath
      Sample.isfile Sample.no_substitution Sample.glob Sample.get_files
      Sample.Property_create Sample.expected_results_of_file
      Sample.runSet "a.c" [] None ∅ ["b.c"] = (log, Ok run)
    /\ run_identifier run = "a.c".
Proof.
  eexists _, _. split; [vm_compute; reflexivity|].
  refine (proj1 (create_run_for_input_file_fields Sample.same Sample.same Sample.here
                   Sample.relpath Sample.isfile Sample.no_substitution Sample.glob
                   Sample.get_files Sample.Property_create
                   Sample.expected_results_of_file
                   Sample.runSet "a.c" [] None ∅ ["b.c"] _ _ _)).
  vm_compute. reflexivity.
Defined.

Lemma create_run_from_task_definition_fields_witness :
  exists log run,
    Sample.create_run_from_task_definition Sample.runSet "t.yml" [] None ∅
    = (log, Ok (Some run))
    /\ run_identifier run = "t.yml".
Proof.
  eexists _, _. split; [vm_compute; reflexivity|].
  refine (proj1 (create_run_from_task_definition_fields Sample.same Sample.same
                   Sample.here Sample.relpath Sample.isfile String.eqb
                   Sample.no_substitution Sample.glob Sample.yaml_load
                   Sample.Property_create
                   Sample.runSet "t.yml" [] None ∅ _ _ _)).
  vm_compute. reflexivity.
Defined.

(** ** The blocks of a run set *)

Lemma string_of_uint_nonempty d : NilZero.string_of_uint d ≠ "".
Proof. by destruct d. Qed.

Lemma str_of_int_nonempty n : PyStr.str_of_int n ≠ "".
Proof.
  unfold PyStr.str_of_int, NilZero.string_of_int.
  destruct (Z.to_int n) as [d|d]; [apply string_of_uint_nonempty | done].
Qed.

Section BlockFacts.

Variable abspath basename dirname : string -> string.
Variable relpath : string -> string -> string.
Variable isfile : string -> bool.
Variable samefile : string -> string -> bool.
Variable util_substitute_vars : string -> list (string * string) -> string.
Variable util_expand_filename_pattern : string -> string -> list string.
Variable is_code : string -> bool.
Variable is_comment : string -> bool.
Variable file_lines : string -> option (list string).
Variable util_get_files : list string -> list string.
Variable wildcard_match : string -> string -> bool.
Variable yaml_load : string -> yaml_result.
Variable Property_create : string -> bool -> Property + string.
Variable expected_results_of_file : string -> gmap string ExpectedResult.

Local Abbreviation block :=
  (extract_block abspath basename dirname relpath isfile samefile
     util_substitute_vars util_expand_filename_pattern is_code is_comment file_lines
     util_get_files wildcard_match yaml_load Property_create
     expected_results_of_file).
Local Abbreviation extract :=
  (extract_runs_from_xml abspath basename dirname relpath isfile samefile
     util_substitute_vars util_expand_filename_pattern is_code is_comment file_lines
     util_get_files wildcard_match yaml_load Property_create
     expected_results_of_file).
Local Abbreviation selected self := (b_selected_sourcefile_sets (rs_benchmark self)).

Lemma block_name_nonempty index tag : block_name index tag ≠ "".
Proof.
  unfold block_name, py_or. destruct (tag_name tag) as [s|]; simpl.
  - destruct (String.eqb_spec s ""); simpl; [apply str_of_int_nonempty | done].
  - apply str_of_int_nonempty.
Qed.

(** One tag gives no block, when it is not selected, or one block at the
    end of the list. *)
Lemma extract_block_Ok self patterns blocks index tag log blocks' :
  block self patterns blocks (index, tag) = (log, Ok blocks') ->
  (selected self ≠ []
   /\ any_match wildcard_match (block_name index tag) (selected self) = false
   /\ blocks' = blocks /\ log = [])
  \/ exists runs,
       blocks' = blocks ++ [ {| sfs_real_name := tag_name tag;
                                sfs_name := block_name index tag;
                                sfs_runs := runs |} ]
       /\ (selected self ≠ [] ->
           any_match wildcard_match (block_name index tag) (selected self) = true).
Proof.
  unfold extract_block. fold (block_name index tag).
  destruct (negb (bool_decide (selected self = []))
            && negb (any_match wildcard_match (block_name index tag) (selected self)))
    eqn:Hskip.
  - intros [= <- <-]. left. apply andb_true_iff in Hskip as [Hs Hm].
    apply negb_true_iff in Hs, Hm. apply bool_decide_eq_false in Hs. done.
  - intros H. right.
    apply bind_Ok in H as (l1 & files & l2 & _ & H & ->).
    apply bind_Ok in H as (l3 & runs1 & l4 & _ & H & ->).
    apply bind_Ok in H as (l5 & runs2 & l6 & _ & H & ->).
    injection H as _ <-. exists runs2. split; [done|].
    intros Hsel. apply andb_false_iff in Hskip as [Hs|Hm].
    + apply negb_false_iff, bool_decide_eq_true in Hs. done.
    + by apply negb_false_iff in Hm.
Qed.

Lemma extract_blocks_Ok self patterns indexed blocks log blocks' :
  foldM (block self patterns) blocks indexed = (log, Ok blocks') ->
  exists new,
    blocks' = blocks ++ new
    /\ (length new <= length indexed)%nat
    /\ Forall (fun b => sfs_name b ≠ ""
                        /\ exists index tag,
                             (index, tag) ∈ indexed
                             /\ sfs_real_name b = tag_name tag
                             /\ sfs_name b = block_name index tag
                             /\ (selected self ≠ [] ->
                                 any_match wildcard_match (sfs_name b) (selected self)
                                 = true)) new
    /\ (selected self = [] ->
        sfs_real_name <$> new = (tag_name ∘ snd) <$> indexed
        /\ sfs_name <$> new = (fun it => block_name it.1 it.2) <$> indexed).
Proof.
  revert blocks log. induction indexed as [|[index tag] indexed IH]; intros blocks log.
  - intros [= <- <-]. exists []. rewrite app_nil_r. by repeat split.
  - simpl. intros H. apply bind_Ok in H as (l1 & blocks1 & l2 & H1 & H2 & ->).
    apply IH in H2 as (new & -> & Hlen & Hall & Hnames).
    assert (Hall' : Forall (fun b => sfs_name b ≠ ""
                        /\ exists index0 tag0,
                             (index0, tag0) ∈ (index, tag) :: indexed
                             /\ sfs_real_name b = tag_name tag0
                             /\ sfs_name b = block_name index0 tag0
                             /\ (selected self ≠ [] ->
                                 any_match wildcard_match (sfs_name b) (selected self)
                                 = true)) new).
    { eapply Forall_impl; [exact Hall|].
      intros b (? & i & t & ? & ?). split; [done|]. exists i, t.
      split; [by apply list_elem_of_further | done]. }
    apply extract_block_Ok in H1 as [(Hsel & _ & -> & _) | (runs & -> & Hm)].
    + exists new. split; [done|]. split; [simpl; lia|]. split; [done|].
      intros Hnone. by rewrite Hnone in Hsel.
    + exists ({| sfs_real_name := tag_name tag; sfs_name := block_name index tag;
                 sfs_runs := runs |} :: new).
      rewrite <- app_assoc. split; [done|]. split; [simpl; lia|]. split.
      * apply Forall_cons. split; [|done]. simpl.
        split; [apply block_name_nonempty|]. exists index, tag.
        split; [apply list_elem_of_here | done].
      * intros Hnone. destruct (Hnames Hnone) as [Hreal Hname].
        by rewrite !fmap_cons, Hreal, Hname.
Qed.

Lemma fmap_zip_seq_imap {A B} (f : nat -> A -> B) (l : list A) n :
  (fun it => f it.1 it.2) <$> zip (seq n (length l)) l
  = imap (fun i => f (n + i)%nat) l.
Proof.
  revert n. induction l as [|x l IH]; intros n; [done|].
  cbn [length seq zip zip_with]. rewrite fmap_cons, imap_cons. cbn [fst snd].
  rewrite Nat.add_0_r. f_equal. rewrite IH. apply imap_ext.
  intros i y _. simpl. f_equal. lia.
Qed.

Lemma zip_seq_lookup {A} (l : list A) n i x :
  (i, x) ∈ zip (seq n (length l)) l -> exists j, i = (n + j)%nat /\ l !! j = Some x.
Proof.
  revert n. induction l as [|y l IH]; intros n; simpl.
  - by intros ?%elem_of_nil.
  - intros [[= -> ->]|Hin]%elem_of_cons.
    + exists 0%nat. split; [lia | done].
    + apply IH in Hin as (j & -> & Hj). exists (S j). split; [lia | done].
Qed.

(** X21.  Every block of a run set comes from a tag of the list and has a
    name that is not empty: the name of its tag if that is not empty, and
    else the index of the tag in the list, counted from 0.  There are no
    more blocks than tags; with a selection every block matches a selected
    pattern, and without one there is a block for each tag, in order. *)
Theorem extract_runs_block_names self tags patterns log blocks :
  extract self tags patterns = (log, Ok blocks) ->
  (length blocks <= length tags)%nat
  /\ Forall (fun b =>
               sfs_name b ≠ ""
               /\ (exists index tag,
                     tags !! index = Some tag
                     /\ sfs_real_name b = tag_name tag
                     /\ (forall s, tag_name tag = Some s -> s ≠ "" -> sfs_name b = s)
                     /\ (tag_name tag = None \/ tag_name tag = Some "" ->
                         sfs_name b = PyStr.str_of_int (Z.of_nat index)))
               /\ (selected self ≠ [] ->
                   any_match wildcard_match (sfs_name b) (selected self) = true))
       blocks
  /\ (selected self = [] ->
      sfs_real_name <$> blocks = tag_name <$> tags
      /\ sfs_name <$> blocks = imap block_name tags).
Proof.
  unfold extract_runs_from_xml. intros H.
  apply extract_blocks_Ok in H as (new & -> & Hlen & Hall & Hnames).
  simpl. unfold enumerate in *.
  assert (Hlz : length (zip (seq 0 (length tags)) tags) = length tags).
  { rewrite length_zip_with, length_seq. lia. }
  split; [lia|]. split.
  - eapply Forall_impl; [exact Hall|].
    intros b (Hne & index & tag & Hin & Hreal & Hname & Hsel).
    split; [done|]. split; [|done].
    apply zip_seq_lookup in Hin as (j & -> & Hj). exists j, tag.
    split; [done|]. split; [done|]. rewrite Hname. unfold block_name, py_or. split.
    + intros s Hs Hs_ne. rewrite Hs. simpl.
      by rewrite (proj2 (String.eqb_neq _ _) Hs_ne).
    + by intros [-> | ->].
  - intros Hnone. destruct (Hnames Hnone) as [Hreal Hname]. split.
    + rewrite Hreal, list_fmap_compose. f_equal. apply snd_zip. rewrite length_seq. lia.
    + rewrite Hname. apply (fmap_zip_seq_imap block_name tags 0).
Qed.

End BlockFacts.

Lemma extract_runs_block_names_witness :
  exists log blocks,
    Sample.extract_runs_from_xml Sample.runSet [Sample.tasks ["*.c"] [] []] ∅
    = (log, Ok blocks)
    /\ (length blocks <= 1)%nat.
Proof.
  eexists _, _. split; [vm_compute; reflexivity|].
  refine (proj1 (extract_runs_block_names Sample.same Sample.same Sample.here
                   Sample.relpath Sample.isfile String.eqb Sample.no_substitution
                   Sample.glob Sample.is_code Sample.is_comment Sample.file_lines
                   Sample.get_files Sample.wildcard_match Sample.yaml_load
                   Sample.Property_create Sample.expected_results_of_file
                   Sample.runSet [Sample.tasks ["*.c"] [] []] ∅ _ _ _)).
  vm_compute. reflexivity.
Defined.

(** ** Threads and result files *)

Section BenchmarkPartFacts.

Variable int : string -> parsed.
Variable normpath : string -> string.

(** X22.  A number of threads that is read is at least 1 and nothing is
    logged; a number from the command line replaces that of the benchmark
    file, whose attribute [threads] must be accepted by [int] all the same;
    without either the number is 1. *)
Theorem num_of_threads_resolved attrs config_num_of_threads log n :
  resolve_num_of_threads int attrs config_num_of_threads = (log, inr n) ->
  1 <= n
  /\ log = []
  /\ (forall c, config_num_of_threads = Some c -> n = c)
  /\ (forall value, attrs !! "threads" = Some value ->
        exists m, int value = Parsed m /\ (config_num_of_threads = None -> n = m))
  /\ (attrs !! "threads" = None -> config_num_of_threads = None -> n = 1).
Proof.
  unfold resolve_num_of_threads.
  destruct (attrs !! "threads") as [value|].
  - destruct (int value) as [m|e] eqn:Hint; [|done].
    destruct (Z.ltb_spec (default m config_num_of_threads) 1); [done|].
    intros [= <- <-]. split; [done|]. split; [done|]. split; [by intros c ->|].
    split; [|done]. intros ? [= <-]. exists m. split; [done | by intros ->].
  - destruct (Z.ltb_spec (default 1 config_num_of_threads) 1); [done|].
    intros [= <- <-]. split; [done|]. split; [done|]. split; [by intros c ->|].
    split; [done | by intros _ ->].
Qed.

Lemma check_patterns_Ok patterns log :
  foldM (fun (_ : unit) pattern =>
           if startswith pattern ".."
           then fail (SysExit ("Invalid relative result-files pattern '"
                               +:+ pattern +:+ "'."))
           else ret tt) tt patterns = (log, Ok tt) ->
  log = [] /\ Forall (fun p => startswith p ".." = false) patterns.
Proof.
  revert log. induction patterns as [|p patterns IH]; intros log; simpl.
  - by intros [= <-].
  - intros H. apply bind_Ok in H as (l1 & [] & l2 & H1 & H2 & ->).
    destruct (startswith p "..") eqn:Hp; [done|]. injection H1 as <-.
    apply IH in H2 as [-> Hall]. split; [done|]. by apply Forall_cons.
Qed.

Lemma patterns_of_texts (texts : list (option string)) :
  omap (fun text => match text with
                    | Some p => if PyStr.truthy text then Some (normpath p) else None
                    | None => None
                    end) texts
  = normpath <$> filter (fun t => t ≠ "") (omap id texts).
Proof.
  induction texts as [|[s|] l IH]; simpl.
  - done.
  - rewrite filter_cons. destruct (String.eqb_spec s "") as [->|Hs]; simpl.
    + exact IH.
    + rewrite decide_True by done. simpl. f_equal. exact IH.
  - exact IH.
Qed.

(** X23.  Result-file patterns that are accepted never start with [..];
    without a [resultfiles] tag the only pattern is the current directory,
    and with such tags the patterns are the normalised texts of the tags that
    have a text, in order, so that tags without text give no pattern at
    all. *)
Theorem result_files_patterns_checked texts log patterns :
  resolve_result_files_patterns normpath texts = (log, Ok patterns) ->
  log = []
  /\ Forall (fun p => startswith p ".." = false) patterns
  /\ (texts = [] -> patterns = ["."])
  /\ (texts ≠ [] ->
      patterns = normpath <$> filter (fun t => t ≠ "") (omap id texts)).
Proof.
  unfold resolve_result_files_patterns.
  destruct texts as [|t texts].
  { intros [= <- <-]. split; [done|]. split; [by repeat constructor|].
    split; [done | by intros []]. }
  intros H. apply bind_Ok in H as (l1 & [] & l2 & H1 & [= <- <-] & ->).
  apply check_patterns_Ok in H1 as [-> Hall].
  split; [done|]. split; [done|]. split; [done|]. intros _.
  apply (patterns_of_texts (t :: texts)).
Qed.

End BenchmarkPartFacts.

Lemma num_of_threads_resolved_witness :
  exists log n,
    resolve_num_of_threads Sample.decimal {[ "threads" := "4" ]} (Some 2) = (log, inr n)
    /\ 1 <= n.
Proof.
  eexists _, _. split; [vm_compute; reflexivity|].
  refine (proj1 (num_of_threads_resolved Sample.decimal {[ "threads" := "4" ]}
                   (Some 2) _ _ _)).
  vm_compute. reflexivity.
Defined.

Lemma result_files_patterns_checked_witness :
  exists log patterns,
    resolve_result_files_patterns Sample.same [Some "out/*.log"; None; Some ""]
    = (log, Ok patterns)
    /\ log = [].
Proof.
  eexists _, _. split; [vm_compute; reflexivity|].
  refine (proj1 (result_files_patterns_checked Sample.same
                   [Some "out/*.log"; None; Some ""] _ _ _)).
  vm_compute. reflexivity.
Defined.

(** ** Input files with the same name *)

Section RunSetPartFacts.

Variable basename : string -> string.
Variable wildcard_match_name : option string -> string -> bool.

Local Abbreviation base_names runs := (basename ∘ run_identifier <$> runs).
Local Abbreviation executed := (should_be_executed wildcard_match_name).

Lemma note_basenames_spec (seen : gset string) runs :
  exists log,
    foldM (note_basename basename) seen runs
    = (log, Ok (seen ∪ list_to_set (base_names runs)))
    /\ Forall is_warning log
    /\ (length log + size (seen ∪ list_to_set (base_names runs))
        = length runs + size seen)%nat
    /\ (log = [] <->
        NoDup (base_names runs) /\ forall b, b ∈ base_names runs -> b ∉ seen).
Proof.
  revert seen. induction runs as [|run runs IH]; intros seen.
  - exists []. simpl. rewrite (right_id_L ∅ (∪) seen).
    split; [done|]. split; [done|]. split; [done|]. split; [|done].
    intros _. split; [constructor|]. by intros b ?%elem_of_nil.
  - rewrite fmap_cons, list_to_set_cons.
    change ((basename ∘ run_identifier) run) with (basename (run_identifier run)).
    cbn [foldM]. unfold note_basename at 1.
    destruct (decide (basename (run_identifier run) ∈ seen)) as [Hin|Hnot].
    + assert (Heq : seen ∪ ({[basename (run_identifier run)]}
                            ∪ list_to_set (base_names runs))
                    = seen ∪ list_to_set (base_names runs)).
      { apply set_eq. intros x. rewrite !elem_of_union, elem_of_singleton.
        split; [intros [?|[->|?]]; tauto | tauto]. }
      rewrite Heq.
      destruct (IH seen) as (log & Hrun & Hw & Hlen & Hiff).
      eexists. split.
      { cbv [bind emit ret]. rewrite Hrun. reflexivity. }
      split; [by apply Forall_cons|]. split; [simpl; lia|].
      split; [done|]. intros [_ Hfresh]. exfalso.
      apply (Hfresh (basename (run_identifier run))); [apply list_elem_of_here | done].
    + assert (Heq : seen ∪ ({[basename (run_identifier run)]}
                            ∪ list_to_set (base_names runs))
                    = {[basename (run_identifier run)]} ∪ seen
                      ∪ list_to_set (base_names runs)).
      { apply set_eq. intros x. rewrite !elem_of_union, elem_of_singleton. tauto. }
      rewrite Heq.
      destruct (IH ({[basename (run_identifier run)]} ∪ seen))
        as (log & Hrun & Hw & Hlen & Hiff).
      exists log. split.
      { cbv [bind ret]. rewrite Hrun. reflexivity. }
      split; [done|]. split.
      * rewrite Hlen, size_union, size_singleton; [simpl; lia|].
        by apply disjoint_singleton_l.
      * rewrite Hiff, NoDup_cons. split.
        -- intros [Hnd Hfresh]. split.
           ++ split; [|done]. intros Hdup. apply (Hfresh _ Hdup).
              apply elem_of_union. left. by apply elem_of_singleton.
           ++ intros b [->|Hb]%elem_of_cons; [done|].
              intros Hs. apply (Hfresh _ Hb). apply elem_of_union. by right.
        -- intros [[Hfirst Hnd] Hfresh]. split; [done|].
           intros b Hb [->%elem_of_singleton|Hs]%elem_of_union; [done|].
           apply (Hfresh b); [by apply list_elem_of_further | done].
Qed.

(** X24.  The check for input files of the same name never fails and logs
    nothing but warnings: none for a run set that is not to be executed, and
    otherwise one for each run whose base name a run before it has, so that
    the number of warnings is the number of runs minus the number of
    different base names, and there is no warning exactly when all base
    names differ. *)
Theorem equal_basenames_warned real_name selected runs :
  exists log,
    warn_equal_basenames basename wildcard_match_name real_name selected runs
    = (log, Ok tt)
    /\ Forall is_warning log
    /\ (executed real_name selected = false -> log = [])
    /\ (executed real_name selected = true ->
        (length log + size (list_to_set (base_names runs) : gset string)
         = length runs)%nat
        /\ (log = [] <-> NoDup (base_names runs))).
Proof.
  unfold warn_equal_basenames.
  destruct (executed real_name selected).
  - destruct (note_basenames_spec ∅ runs) as (log & Hrun & Hw & Hlen & Hiff).
    exists log. rewrite Hrun. split.
    { simpl. by rewrite app_nil_r. }
    split; [done|]. split; [done|]. intros _.
    rewrite (left_id_L ∅ (∪) (list_to_set (base_names runs))), size_empty in Hlen.
    split; [lia|].
    rewrite Hiff. split; [tauto|]. intros Hnd. split; [done|].
    intros b _. apply not_elem_of_empty.
  - exists []. by repeat split.
Qed.

End RunSetPartFacts.

(** ** Command lines *)

Section CmdlineFacts.

Variable working_directory : string -> string.
Variable tool_cmdline :
  string -> list string -> list string -> option string -> gmap string Z -> list string.
Variable isabs : string -> bool.
Variable os_relpath : string -> string -> string.
Variable expandvars expanduser : string -> string.

Local Abbreviation cmdline :=
  (cmdline_for_run working_directory tool_cmdline isabs os_relpath expandvars
     expanduser).
Local Abbreviation rel := (relpath_in isabs os_relpath).
Local Abbreviation rel_all := (relpath_all isabs os_relpath).
Local Abbreviation rel_exe := (rel_executable working_directory isabs os_relpath).

Lemma all_nonempty_spec args : all_nonempty args = true <-> "" ∉ args.
Proof.
  unfold all_nonempty. induction args as [|arg args IH]; simpl.
  - split; [|done]. intros _ ?%elem_of_nil. done.
  - rewrite andb_true_iff, IH, not_elem_of_cons, negb_true_iff.
    split; intros [H ?]; (split; [|done]).
    + intros <-. by rewrite String.eqb_refl in H.
    + by apply String.eqb_neq.
Qed.

Lemma relpath_in_Ok dir path :
  path ≠ "" \/ isabs "" = true ->
  rel dir path = ret (if isabs path then path else os_relpath path dir).
Proof.
  unfold relpath_in. intros Hpath. destruct (isabs path) eqn:Habs; [done|].
  destruct (String.eqb_spec path "") as [->|Hne]; [|done].
  destruct Hpath as [?|Htrue]; [done|]. by rewrite Htrue in Habs.
Qed.

Lemma relpath_in_fails dir : isabs "" = false -> rel dir "" = fail RelpathValueError.
Proof. unfold relpath_in. by intros ->. Qed.

Lemma bind_ret_l {A B} (a : A) (k : A -> M B) : bind (ret a) k = k a.
Proof. unfold bind, ret. by destruct (k a). Qed.

Lemma relpath_fold_Ok dir acc paths :
  "" ∉ paths \/ isabs "" = true ->
  foldM (fun acc path => let! r := rel dir path in ret (acc ++ [r])) acc paths
  = ret (acc ++ map (fun path => if isabs path then path else os_relpath path dir)
                  paths).
Proof.
  revert acc. induction paths as [|path paths IH]; intros acc Hpaths.
  - simpl. by rewrite app_nil_r.
  - cbn [foldM map]. rewrite relpath_in_Ok.
    + rewrite !bind_ret_l, IH.
      * by rewrite <- app_assoc.
      * destruct Hpaths as [Hnot|?]; [left | by right].
        intros Hin. apply Hnot. by apply list_elem_of_further.
    + destruct Hpaths as [Hnot|?]; [left | by right].
      intros ->. apply Hnot. apply list_elem_of_here.
Qed.

Lemma relpath_fold_fails dir acc paths :
  "" ∈ paths -> isabs "" = false ->
  foldM (fun acc path => let! r := rel dir path in ret (acc ++ [r])) acc paths
  = fail RelpathValueError.
Proof.
  intros Hin Habs. revert acc.
  induction paths as [|path paths IH]; intros acc; [by apply elem_of_nil in Hin|].
  cbn [foldM]. destruct (decide (path = "")) as [->|Hne].
  - by rewrite (relpath_in_fails dir Habs).
  - rewrite (relpath_in_Ok dir path) by (by left). rewrite !bind_ret_l.
    apply IH. apply elem_of_cons in Hin as [?|?]; [by subst | done].
Qed.

(** X25.  The command line of a run.  An empty path that does not count as
    absolute, as executable or as input file, makes [os.path.relpath] raise
    a [ValueError].  Otherwise the tool is given an executable that contains
    a path separator, which is the executable itself if that is an absolute
    path with a separator; one input file for each input file of the run,
    the file itself if its path is absolute; a property file exactly when the
    run has a non-empty one; and the options and limits as they are.  Then
    nothing is logged, and the result is what the tool gives with variables
    and then home directories expanded, unless one argument is empty, which
    fails the assertion. *)
Theorem cmdline_for_run_checked executable options sourcefiles propertyfile rlimits :
  ("" ∈ executable :: sourcefiles -> isabs "" = false ->
   cmdline executable options sourcefiles propertyfile rlimits
   = ([], Fail RelpathValueError))
  /\ ("" ∉ executable :: sourcefiles \/ isabs "" = true ->
      exists exe files pf,
        has_sep exe = true
        /\ (isabs executable = true -> has_sep executable = true -> exe = executable)
        /\ Forall2 (fun f f' => isabs f = true -> f' = f) sourcefiles files
        /\ (pf = None <-> PyStr.truthy propertyfile = false)
        /\ ("" ∉ tool_cmdline exe options files pf rlimits ->
            cmdline executable options sourcefiles propertyfile rlimits
            = ([], Ok (map expanduser
                         (map expandvars
                            (tool_cmdline exe options files pf rlimits)))))
        /\ ("" ∈ tool_cmdline exe options files pf rlimits ->
            cmdline executable options sourcefiles propertyfile rlimits
            = ([], Fail AssertionError))).
Proof.
  split.
  - intros Hin Habs. unfold cmdline_for_run, rel_executable.
    destruct (decide (executable = "")) as [->|Hne].
    + by rewrite (relpath_in_fails _ Habs).
    + assert (Hs : "" ∈ sourcefiles).
      { apply elem_of_cons in Hin as [?|?]; [by subst | done]. }
      rewrite (relpath_in_Ok _ executable) by (by left). rewrite bind_ret_l.
      unfold relpath_all.
      destruct (negb (has_sep _));
        by rewrite bind_ret_l, (relpath_fold_fails _ [] _ Hs Habs).
  - intros Hpaths.
    set (dir := working_directory executable).
    set (pure := fun path => if isabs path then path else os_relpath path dir).
    assert (Hexe : executable ≠ "" \/ isabs "" = true).
    { destruct Hpaths as [Hnot|?]; [left | by right].
      intros ->. apply Hnot. apply list_elem_of_here. }
    assert (Hsrc : "" ∉ sourcefiles \/ isabs "" = true).
    { destruct Hpaths as [Hnot|?]; [left | by right].
      intros Hin. apply Hnot. by apply list_elem_of_further. }
    set (exe := if negb (has_sep (pure executable))
                then "./" +:+ pure executable else pure executable).
    set (pf := match propertyfile with
               | Some pf => if PyStr.truthy propertyfile then Some (pure pf) else None
               | None => None
               end).
    assert (Hrun : cmdline executable options sourcefiles propertyfile rlimits
                   = if all_nonempty (tool_cmdline exe options (map pure sourcefiles)
                                        pf rlimits)
                     then ret (map expanduser
                                 (map expandvars
                                    (tool_cmdline exe options (map pure sourcefiles)
                                       pf rlimits)))
                     else fail AssertionError).
    { unfold cmdline_for_run, rel_executable, relpath_all. fold dir.
      rewrite (relpath_in_Ok dir executable Hexe), bind_ret_l.
      rewrite (relpath_fold_Ok dir [] sourcefiles Hsrc).
      fold (pure executable). fold exe.
      assert (Hpf : match propertyfile with
                    | Some p => if PyStr.truthy propertyfile
                                then let! r := rel dir p in ret (Some r)
                                else ret None
                    | None => ret None
                    end = ret pf).
      { subst pf. destruct propertyfile as [p|]; [|done].
        destruct (PyStr.truthy (Some p)) eqn:Hp; [|done].
        rewrite (relpath_in_Ok dir p), bind_ret_l; [done|].
        left. intros ->. by vm_compute in Hp. }
      rewrite Hpf.
      replace (if negb (has_sep (pure executable))
               then ret ("./" +:+ pure executable) else ret (pure executable))
        with (ret (A := string) exe) by (subst exe; by destruct (negb _)).
      by rewrite !bind_ret_l. }
    exists exe, (map pure sourcefiles), pf.
    split; [|split; [|split; [|split; [|split]]]].
    + subst exe. destruct (has_sep (pure executable)) eqn:Hsep; simpl; [exact Hsep|done].
    + intros Habs Hsep. subst exe pure. simpl. by rewrite Habs, Hsep.
    + apply Forall2_fmap_r, Forall_Forall2_diag, Forall_forall.
      intros f _ Habs. subst pure. simpl. by rewrite Habs.
    + subst pf. destruct propertyfile as [p|]; [|done].
      destruct (PyStr.truthy (Some p)); split; done.
    + intros Hargs. rewrite Hrun.
      by rewrite (proj2 (all_nonempty_spec _) Hargs).
    + intros Hargs. rewrite Hrun.
      destruct (all_nonempty _) eqn:Hall; [|done].
      by apply all_nonempty_spec in Hall.
Qed.

End CmdlineFacts.

(** ** The runs of a block *)

Section BlockRuns.

Variable abspath basename dirname : string -> string.
Variable relpath : string -> string -> string.
Variable isfile : string -> bool.
Variable samefile : string -> string -> bool.
Variable util_substitute_vars : string -> list (string * string) -> string.
Variable util_expand_filename_pattern : string -> string -> list string.
Variable is_code : string -> bool.
Variable is_comment : string -> bool.
Variable file_lines : string -> option (list string).
Variable util_get_files : list string -> list string.
Variable wildcard_match : string -> string -> bool.
Variable yaml_load : string -> yaml_result.
Variable Property_create : string -> bool -> Property + string.
Variable expected_results_of_file : string -> gmap string ExpectedResult.
Variable working_directory : string -> string.
Variable tool_cmdline :
  string -> list string -> list string -> option string -> gmap string Z -> list string.
Variable isabs : string -> bool.
Variable expandvars expanduser : string -> string.

Local Abbreviation block :=
  (extract_block abspath basename dirname relpath isfile samefile
     util_substitute_vars util_expand_filename_pattern is_code is_comment file_lines
     util_get_files wildcard_match yaml_load Property_create
     expected_results_of_file).
Local Abbreviation task_def_files :=
  (get_task_def_files_from_xml abspath basename dirname util_substitute_vars
     util_expand_filename_pattern is_code is_comment file_lines).
Local Abbreviation run_for :=
  (run_for_identifier abspath basename dirname relpath isfile samefile
     util_substitute_vars util_expand_filename_pattern util_get_files yaml_load
     Property_create expected_results_of_file).
Local Abbreviation init :=
  (Run_init abspath basename dirname relpath isfile util_substitute_vars
     util_expand_filename_pattern).
Local Abbreviation cmdline_of_run :=
  (Run_cmdline working_directory tool_cmdline isabs relpath expandvars expanduser).
Local Abbreviation cmdline :=
  (cmdline_for_run working_directory tool_cmdline isabs relpath expandvars
     expanduser).

Lemma run_for_identifier_Ok self fileOptions propertyfile patterns appendFileTags
    identifier log r :
  run_for self fileOptions propertyfile patterns appendFileTags identifier
  = (log, Ok r) ->
  match r with
  | Some run => run_identifier run = identifier
  | None => PyStr.endswith identifier ".yml" = true
  end.
Proof.
  unfold run_for_identifier.
  destruct (PyStr.endswith identifier ".yml") eqn:Hyml.
  - case_decide; [done|]. intros Hrun. destruct r as [run|]; [|done].
    by apply create_run_from_task_definition_identifier in Hrun.
  - intros Hrun. apply bind_Ok in Hrun as (l1 & run & l2 & H1 & [= _ <-] & _).
    by apply create_run_for_input_file_identifier in H1.
Qed.

Lemma runs_from_files self fileOptions propertyfile patterns appendFileTags
    files currentRuns log runs :
  foldM (fun currentRuns identifier =>
           let! run := run_for self fileOptions propertyfile patterns
                         appendFileTags identifier in
           match run with
           | Some run => ret (currentRuns ++ [run])
           | None => ret currentRuns
           end) currentRuns files = (log, Ok runs) ->
  exists outcomes,
    runs = currentRuns ++ omap id outcomes
    /\ Forall2 run_of_file files outcomes.
Proof.
  revert currentRuns log. induction files as [|f files IH]; intros cur log.
  - intros [= <- <-]. exists []. simpl. rewrite app_nil_r. split; [done | constructor].
  - cbn [foldM]. intros H. apply bind_Ok in H as (l1 & cur1 & l2 & H1 & H2 & ->).
    apply bind_Ok in H1 as (l3 & r & l4 & Hr & Hret & ->).
    apply run_for_identifier_Ok in Hr.
    apply IH in H2 as (outcomes & -> & Hall).
    exists (r :: outcomes). split; [|by apply Forall2_cons].
    destruct r as [run|]; injection Hret as _ <-; simpl; [|done].
    by rewrite <- app_assoc.
Qed.

Lemma runs_without_file self fileOptions propertyfile patterns texts currentRuns
    log runs :
  foldM (fun currentRuns text =>
           let! run := init text [] fileOptions self propertyfile patterns [] in
           ret (currentRuns ++ [run])) currentRuns texts = (log, Ok runs) ->
  exists new,
    runs = currentRuns ++ new
    /\ run_identifier <$> new = texts
    /\ Forall (fun run => run_sourcefiles run = []) new.
Proof.
  revert currentRuns log. induction texts as [|text texts IH]; intros cur log.
  - intros [= <- <-]. exists []. rewrite app_nil_r. by repeat split.
  - cbn [foldM]. intros H. apply bind_Ok in H as (l1 & cur1 & l2 & H1 & H2 & ->).
    apply bind_Ok in H1 as (l3 & run & l4 & Hrun & [= _ <-] & ->).
    apply Run_init_Ok in Hrun as (Hid & Hsrc & _).
    apply IH in H2 as (new & -> & Hids & Hall).
    exists (run :: new). rewrite <- app_assoc. split; [done|].
    rewrite fmap_cons, Hid, Hids. split; [done|]. by apply Forall_cons.
Qed.

(** X26.  The runs of a block are the runs for its task files followed by
    the runs for its [withoutfile] tags.  The first are in the order of the
    task files: each task file gives one run, whose identifier it is, or no
    run, and only a task-definition file, whose name ends in [.yml], can give
    none, so that every other file has its run.  The second have the texts
    of the tags as identifiers, in order, and no input files, and
    [Run.cmdline] gives their identifier to the tool as the only input
    file. *)
Theorem block_runs self patterns blocks index tag log b :
  block self patterns blocks (index, tag) = (log, Ok (blocks ++ [b])) ->
  exists l files outcomes without,
    task_def_files self tag (b_base_dir (rs_benchmark self)) = (l, Ok files)
    /\ sfs_runs b = omap id outcomes ++ without
    /\ Forall2 run_of_file files outcomes
    /\ run_identifier <$> without = tag_withoutfile tag
    /\ Forall (fun run =>
                 run_sourcefiles run = []
                 /\ forall executable rlimits,
                      cmdline_of_run run (Some executable) rlimits
                      = cmdline executable (run_options run) [run_identifier run]
                          (run_propertyfile run) rlimits) without.
Proof.
  unfold extract_block.
  destruct (negb _ && negb _).
  - intros [= _ Hb]. apply (f_equal length) in Hb.
    rewrite length_app in Hb. simpl in Hb. lia.
  - intros H.
    apply bind_Ok in H as (l1 & files & l2 & Hfiles & H & ->).
    apply bind_Ok in H as (l3 & runs1 & l4 & H1 & H & ->).
    apply bind_Ok in H as (l5 & runs2 & l6 & H2 & H & ->).
    injection H as _ Hb. apply app_inv_head in Hb. injection Hb as <-.
    apply runs_from_files in H1 as (outcomes & -> & Hall).
    apply runs_without_file in H2 as (without & -> & Hids & Hnone).
    exists l1, files, outcomes, without. simpl.
    split; [done|]. split; [done|]. split; [done|]. split; [done|].
    eapply Forall_impl; [exact Hnone|]. intros run Hsrc. split; [done|].
    intros executable rlimits. unfold Run_cmdline. by rewrite Hsrc.
Qed.

(** In a block without task-definition files every task file has its
    run. *)
Lemma plain_files_all_run files outcomes :
  Forall2 run_of_file files outcomes ->
  Forall (fun f => PyStr.endswith f ".yml" = false) files ->
  run_identifier <$> omap id outcomes = files.
Proof.
  induction 1 as [|f o files outcomes Hf _ IH]; [done|].
  intros [Hplain Hrest]%Forall_cons. destruct o as [run|]; simpl in *.
  - f_equal; [done | by apply IH].
  - by rewrite Hf in Hplain.
Qed.

End BlockRuns.

Lemma block_runs_witness :
  exists log b,
    Demo.block ∅ [] (0%nat, Demo.tasks_without_file) = (log, Ok ([] ++ [b]))
    /\ run_identifier <$> sfs_runs b = ["a.c"; "b.c"; "--version"].
Proof.
  eassert (H : Demo.block ∅ [] (0%nat, Demo.tasks_without_file)
               = (_, Ok ([] ++ [_]))) by (vm_compute; reflexivity).
  eexists _, _. split; [exact H|].
  destruct (block_runs Sample.same Sample.same Sample.here Sample.relpath Sample.isfile
              String.eqb Sample.no_substitution Sample.glob Sample.is_code
              Sample.is_comment Sample.file_lines Sample.get_files
              Sample.wildcard_match Sample.yaml_load Sample.Property_create
              Sample.expected_results_of_file Sample.same Demo.tool_cmdline
              Demo.isabs Sample.same Sample.same
              Sample.runSet ∅ [] 0%nat Demo.tasks_without_file _ _ H)
    as (l & files & outcomes & without & Hfiles & -> & Hall & Hids & _).
  injection Hfiles as _ <-.
  rewrite fmap_app, Hids, (plain_files_all_run _ _ Hall); [done|].
  by repeat constructor.
Defined.
